(** * EloTracker: a shallow embedding of [elo_tracker/storage.py] and
      [elo_tracker/cli.py], and the properties of its specification.

    The Python program keeps, per calendar day, the list of Elo ratings
    recorded on that day, persists the whole history as one JSON file and
    offers four commands ([record], [summary], [history], [reset]).

    Conventions of the embedding:
    - a Python [int] is a [Z]; a Python [str] is the list of its code points
      ([list N]), so that [len], [ljust], comparison and sorting are the
      ones of Python;
    - a Python exception is a value of [exn]; code that can raise returns a
      [result];
    - the file system, the standard streams and the exceptions of a command
      are threaded through the monad [M] of [Module Sys];
    - [json.load] and [json.dump] belong to the standard library: a file is
      modelled by what [json.load] makes of it ([Json.content]), and
      [json.load] reads back what [json.dump] wrote;
    - the standard library is the one of CPython 3.11, where
      [date.fromisoformat] takes the basic form of a date and week dates
      besides the form that [isoformat] writes;
    - the limits of the interpreter (memory, depth of recursion, number of
      digits of an [int] turned into text) are not modelled. *)

From Stdlib Require Import ZArith NArith List String Ascii Bool Lia Permutation
  Sorting.Sorted DecimalString DecimalZ DecimalPos.
Import ListNotations.

Set Implicit Arguments.
Local Open Scope list_scope.
Local Open Scope Z_scope.

(* ===================================================================== *)
(** * Exceptions and results *)
(* ===================================================================== *)

Inductive exn : Type :=
| UnicodeDecodeError
| JSONDecodeError
| AttributeError
| ValueError
| TypeError
| OverflowError
| IndexError
| KeyError
| EOFError
| FileNotFoundError
| ArgumentTypeError
| SystemExit (status : Z).

(** [Dynamic] marks the one place where the embedding stops: a value that
    is not an [int] has reached the integer statistics of a day.  Python
    then goes on with its dynamic typing ([TypeError], or float and bool
    arithmetic); none of that is modelled. *)
Inductive result (A : Type) : Type :=
| Ok (a : A)
| Raise (e : exn)
| Dynamic.
Arguments Ok {A} a.
Arguments Raise {A} e.
Arguments Dynamic {A}.

Definition rbind {A B} (r : result A) (k : A -> result B) : result B :=
  match r with
  | Ok a => k a
  | Raise e => Raise e
  | Dynamic => Dynamic
  end.

(** [[f(x) for x in l]] for an [f] that can raise: left to right, the first
    exception wins. *)
Fixpoint traverse {A B} (f : A -> result B) (l : list A) : result (list B) :=
  match l with
  | [] => Ok []
  | x :: l' => rbind (f x) (fun y => rbind (traverse f l') (fun ys => Ok (y :: ys)))
  end.

(* ===================================================================== *)
(** * Python strings *)
(* ===================================================================== *)

(** A character is its code point. *)
Definition char : Type := N.
Definition str : Type := list char.

(** An ASCII literal of the source. *)
Definition lit (s : string) : str := map N_of_ascii (list_ascii_of_string s).

Module Str.

Fixpoint eqb (a b : str) : bool :=
  match a, b with
  | [], [] => true
  | x :: a', y :: b' => N.eqb x y && eqb a' b'
  | _, _ => false
  end.

(** [a < b], [a <= b] on [str]: lexicographic on code points. *)
Fixpoint compare (a b : str) : comparison :=
  match a, b with
  | [], [] => Eq
  | [], _ :: _ => Lt
  | _ :: _, [] => Gt
  | x :: a', y :: b' =>
      match N.compare x y with
      | Eq => compare a' b'
      | c => c
      end
  end.

Definition leb (a b : str) : bool :=
  match compare a b with Gt => false | _ => true end.

Definition len (s : str) : nat := List.length s.

Definition space : char := 32%N.

(** [s.ljust(width)] *)
Definition ljust (s : str) (width : nat) : str :=
  s ++ repeat space (width - len s).

(** [sep.join(parts)] *)
Fixpoint join (sep : str) (parts : list str) : str :=
  match parts with
  | [] => []
  | [p] => p
  | p :: ps => p ++ sep ++ join sep ps
  end.

(** [str(n)] for an [int]. *)
Definition of_Z (n : Z) : str := lit (NilZero.string_of_int (Z.to_int n)).

(** [str(n)] for a length. *)
Definition of_nat (n : nat) : str := of_Z (Z.of_nat n).

(** [c.isspace()]: the white space of Unicode, as CPython tabulates it. *)
Definition isspace (c : char) : bool :=
  ((9 <=? c) && (c <=? 13) || (28 <=? c) && (c <=? 32)
   || (c =? 133) || (c =? 160) || (c =? 5760)
   || (8192 <=? c) && (c <=? 8202)
   || (c =? 8232) || (c =? 8233) || (c =? 8239) || (c =? 8287)
   || (c =? 12288))%N.

Fixpoint lstrip (s : str) : str :=
  match s with
  | c :: s' => if isspace c then lstrip s' else s
  | [] => []
  end.

Definition rstrip (s : str) : str := rev (lstrip (rev s)).

(** [s.strip()] *)
Definition strip (s : str) : str := rstrip (lstrip s).

(** Lower-case form of one code point.  ASCII is exact.  The case table of
    Unicode is not reproduced beyond it: a code point from 128 on stands
    for its own lower-case form, except the two whose lower-case form
    holds an ASCII letter, U+0130 (i, U+0307) and the Kelvin sign U+212A
    (k).  No comparison of [s.lower()] with an ASCII literal can tell the
    difference. *)
Definition lower_char (c : char) : list char :=
  (if (65 <=? c) && (c <=? 90) then [c + 32]
   else if c =? 304 then [105; 775]
   else if c =? 8490 then [107]
   else [c])%N.

(** [s.lower()] *)
Definition lower (s : str) : str := flat_map lower_char s.

Definition is_digit (c : char) : bool := ((48 <=? c) && (c <=? 57))%N.
Definition digit_val (c : char) : Z := Z.of_N c - 48.
Definition digit_char (d : Z) : char := Z.to_N (d + 48).

(** The number of bytes of a code point in UTF-8; a surrogate has no
    UTF-8 form. *)
Definition utf8_size (c : char) : option Z :=
  (if c <? 128 then Some 1%Z
   else if c <? 2048 then Some 2%Z
   else if (55296 <=? c) && (c <=? 57343) then None
   else if c <? 65536 then Some 3%Z
   else Some 4%Z)%N.

(** The length of [s.encode("utf-8")], when [s] can be encoded. *)
Fixpoint utf8_len (s : str) : option Z :=
  match s with
  | [] => Some 0
  | c :: s' =>
      match utf8_size c, utf8_len s' with
      | Some n, Some m => Some (n + m)
      | _, _ => None
      end
  end.

End Str.


(* ===================================================================== *)
(** * [datetime.date] *)
(* ===================================================================== *)

Module Datetime.

(** A [date] object: its three fields.  Python only ever builds valid
    ones ([valid]). *)
Record date : Type := mkdate { year : Z; month : Z; day : Z }.

Definition is_leap (y : Z) : bool :=
  (y mod 4 =? 0) && (negb (y mod 100 =? 0) || (y mod 400 =? 0)).

Definition days_in_month (y m : Z) : Z :=
  if m =? 2 then (if is_leap y then 29 else 28)
  else if (m =? 4) || (m =? 6) || (m =? 9) || (m =? 11) then 30
  else 31.

(** [_DAYS_BEFORE_MONTH] *)
Definition DAYS_BEFORE_MONTH (m : Z) : Z :=
  nth (Z.to_nat m) [0; 0; 31; 59; 90; 120; 151; 181; 212; 243; 273; 304; 334] 0.

(** [_DAYS_IN_MONTH] *)
Definition DAYS_IN_MONTH (m : Z) : Z :=
  nth (Z.to_nat m) [0; 31; 28; 31; 30; 31; 30; 31; 31; 30; 31; 30; 31] 0.

Definition days_before_month (y m : Z) : Z :=
  DAYS_BEFORE_MONTH m + (if (2 <? m) && is_leap y then 1 else 0).

Definition days_before_year (y : Z) : Z :=
  let y1 := y - 1 in y1 * 365 + y1 / 4 - y1 / 100 + y1 / 400.

Definition MINYEAR : Z := 1.
Definition MAXYEAR : Z := 9999.
(** [date.max.toordinal()] *)
Definition MAXORDINAL : Z := 3652059.

Definition valid (d : date) : bool :=
  (MINYEAR <=? year d) && (year d <=? MAXYEAR)
  && (1 <=? month d) && (month d <=? 12)
  && (1 <=? day d) && (day d <=? days_in_month (year d) (month d)).

(** [d.toordinal()]: 1 is 0001-01-01. *)
Definition toordinal (d : date) : Z :=
  days_before_year (year d) + days_before_month (year d) (month d) + day d.

(** The end of [_ord2ymd]: the month and the day from [n], the day of the
    year counted from 0, first estimated, then set right. *)
Definition month_day (leapyear : bool) (n : Z) : Z * Z :=
  let m := Z.shiftr (n + 50) 5 in
  let preceding := DAYS_BEFORE_MONTH m + (if (2 <? m) && leapyear then 1 else 0) in
  if n <? preceding then
    let m' := m - 1 in
    let preceding' :=
      preceding - (DAYS_IN_MONTH m' + (if (m' =? 2) && leapyear then 1 else 0)) in
    (m', n - preceding' + 1)
  else (m, n - preceding + 1).

(** [date.fromordinal(n)], the algorithm of [_ord2ymd]: the cycles of 400,
    100, 4 and 1 years, then the month and the day. *)
Definition fromordinal (n : Z) : date :=
  let n := n - 1 in
  let n400 := n / 146097 in
  let n := n mod 146097 in
  let n100 := n / 36524 in
  let n := n mod 36524 in
  let n4 := n / 1461 in
  let n := n mod 1461 in
  let n1 := n / 365 in
  let n := n mod 365 in
  let y := n400 * 400 + 1 + n100 * 100 + n4 * 4 + n1 in
  if (n1 =? 4) || (n100 =? 4) then mkdate (y - 1) 12 31
  else
    let leapyear := (n1 =? 3) && (negb (n4 =? 24) || (n100 =? 3)) in
    let (m, d) := month_day leapyear n in
    mkdate y m d.

(** [timedelta(days=n)]: the magnitude of [days] is bounded. *)
Definition timedelta (days : Z) : result Z :=
  if Z.abs days <=? 999999999 then Ok days else Raise OverflowError.

(** [d - delta] for a [timedelta] of [delta] days: through the ordinal,
    [OverflowError] outside [date.min .. date.max]. *)
Definition sub (d : date) (delta : Z) : result date :=
  let o := toordinal d + - delta in
  if (0 <? o) && (o <=? MAXORDINAL) then Ok (fromordinal o)
  else Raise OverflowError.

(** Comparison of dates: year, then month, then day. *)
Definition compare (a b : date) : comparison :=
  match Z.compare (year a) (year b) with
  | Eq => match Z.compare (month a) (month b) with
          | Eq => Z.compare (day a) (day b)
          | c => c
          end
  | c => c
  end.

(** [a >= b] *)
Definition geb (a b : date) : bool :=
  match compare a b with Lt => false | _ => true end.

Definition digits2 (n : Z) : str :=
  [Str.digit_char (n / 10 mod 10); Str.digit_char (n mod 10)].

Definition digits4 (n : Z) : str :=
  [Str.digit_char (n / 1000 mod 10); Str.digit_char (n / 100 mod 10);
   Str.digit_char (n / 10 mod 10); Str.digit_char (n mod 10)].

Definition dash : char := 45%N.

(** [d.isoformat()]: ["%04d-%02d-%02d"]. *)
Definition isoformat (d : date) : str :=
  digits4 (year d) ++ [dash] ++ digits2 (month d) ++ [dash] ++ digits2 (day d).

Definition letter_W : char := 87%N.

(** [date.fromisoformat(s)] as CPython 3.11 has it (the functions
    [parse_digits], [iso_week1_monday], [iso_to_ymd],
    [parse_isoformat_date] and [date_fromisoformat] of [_datetimemodule.c]).
    The function takes [YYYY-MM-DD], which is what [isoformat] writes, and
    also the basic form [YYYYMMDD] and the week dates [YYYY-Www],
    [YYYYWww], [YYYY-Www-D] and [YYYYWwwD].  It looks at the length of the
    UTF-8 form of the string, which has to be 7, 8 or 10, and reads from
    the left; what follows a complete basic form within those lengths is
    not looked at.

    The C code reads bytes.  Every byte that it accepts is an ASCII digit,
    a dash or a [W], so that up to the place where it stops the bytes are
    the code points; and past the end of the string it meets the
    terminating zero, which is no digit and no dash: the end of the list
    here. *)

(** [num] digits, most significant first, added to [acc]; the rest of the
    string. *)
Fixpoint parse_digits (num : nat) (acc : Z) (p : str) : option (Z * str) :=
  match num with
  | O => Some (acc, p)
  | S num' =>
      match p with
      | c :: p' =>
          if Str.is_digit c then parse_digits num' (acc * 10 + Str.digit_val c) p'
          else None
      | [] => None
      end
  end.

(** The ordinal of the Monday that starts week 1 of the ISO year. *)
Definition iso_week1_monday (y : Z) : Z :=
  let first_day := toordinal (mkdate y 1 1) in
  let first_weekday := (first_day + 6) mod 7 in
  let week1_monday := first_day - first_weekday in
  if 3 <? first_weekday then week1_monday + 7 else week1_monday.

(** The date of day [iso_day] of week [iso_week] of [iso_year].  Week 53
    exists in the years that start on a Thursday, and in the leap years
    that start on a Wednesday.  For the year 0000 the C code comes to an
    ordinal below 1, for which it computes a month below 1, and the
    constructor of [date] refuses it: no date comes out, whatever the week
    and the day. *)
Definition iso_to_ymd (iso_year iso_week iso_day : Z) : option date :=
  if iso_year <? MINYEAR then None
  else
    let first_weekday := (toordinal (mkdate iso_year 1 1) + 6) mod 7 in
    let has_week_53 :=
      (first_weekday =? 3) || ((first_weekday =? 2) && is_leap iso_year) in
    if ((iso_week <=? 0) || (53 <=? iso_week))
       && negb ((iso_week =? 53) && has_week_53)
    then None
    else if (iso_day <=? 0) || (8 <=? iso_day) then None
    else Some (fromordinal (iso_week1_monday iso_year
                            + ((iso_week - 1) * 7 + iso_day - 1))).

(** Is the next character a dash? *)
Definition at_dash (p : str) : bool :=
  match p with
  | c :: _ => (c =? dash)%N
  | [] => false
  end.

Definition parse_isoformat_date (s : str) : option date :=
  match parse_digits 4 0 s with
  | None => None
  | Some (y, p) =>
      let uses_separator := at_dash p in
      let p := if uses_separator then tl p else p in
      match p with
      | c :: p_week =>
          if (c =? letter_W)%N then
            match parse_digits 2 0 p_week with
            | None => None
            | Some (iso_week, p) =>
                match p with
                | [] => iso_to_ymd y iso_week 1
                | _ :: _ =>
                    if uses_separator && negb (at_dash p) then None
                    else
                      match parse_digits 1 0 (if uses_separator then tl p else p) with
                      | None => None
                      | Some (iso_day, _) => iso_to_ymd y iso_week iso_day
                      end
                end
            end
          else
            match parse_digits 2 0 p with
            | None => None
            | Some (m, p) =>
                if uses_separator && negb (at_dash p) then None
                else
                  match parse_digits 2 0 (if uses_separator then tl p else p) with
                  | None => None
                  | Some (d, _) => Some (mkdate y m d)
                  end
            end
      | [] => None
      end
  end.

Definition fromisoformat (s : str) : result date :=
  match Str.utf8_len s with
  | Some len =>
      if (len =? 7) || (len =? 8) || (len =? 10) then
        match parse_isoformat_date s with
        | Some d => if valid d then Ok d else Raise ValueError
        | None => Raise ValueError
        end
      else Raise ValueError
  | None => Raise ValueError
  end.

End Datetime.

(* ===================================================================== *)
(** * JSON values and Python dictionaries *)
(* ===================================================================== *)

Module Json.

(** What [json.load] returns: [None], [bool], [int], [float], [str],
    [list], [dict].  A [float] is kept as the 64 bits of its IEEE-754
    representation, and never computed with.  A [dict] is the list of its
    items in insertion order, with distinct keys. *)
Inductive json : Type :=
| JNull
| JBool (b : bool)
| JInt (n : Z)
| JFloat (bits : Z)
| JStr (s : str)
| JArr (items : list json)
| JObj (items : list (str * json)).

(** The content of a file, as [json.load] sees it through
    [path.open("r", encoding="utf-8")]: [NotUtf8] is a file whose bytes
    are not the UTF-8 form of any text; [Undecodable] is a text that
    [json.load] rejects; [Doc j] is a text that decodes to [j], the keys
    of every object in the order of the text. *)
Inductive content : Type :=
| NotUtf8 (bytes : list N)
| Undecodable (text : str)
| Doc (j : json).

End Json.

Module Dict.

(** A Python [dict] with [str] keys: its items in insertion order. *)
Definition dict (V : Type) : Type := list (str * V).

(** [d.get(k)] *)
Fixpoint get {V} (k : str) (d : dict V) : option V :=
  match d with
  | [] => None
  | (k', v) :: d' => if Str.eqb k k' then Some v else get k d'
  end.

(** [d[k] = v]: a present key keeps its place, a new one goes last. *)
Fixpoint set {V} (k : str) (v : V) (d : dict V) : dict V :=
  match d with
  | [] => [(k, v)]
  | (k', v') :: d' => if Str.eqb k k' then (k, v) :: d' else (k', v') :: set k v d'
  end.

(** [d.keys()] *)
Definition keys {V} (d : dict V) : list str := map fst d.

Fixpoint insert_sorted (k : str) (l : list str) : list str :=
  match l with
  | [] => [k]
  | k' :: l' => if Str.leb k k' then k :: l else k' :: insert_sorted k l'
  end.

(** [sorted(ks)] on strings.  Python's sort is stable; so is this one. *)
Fixpoint sorted (ks : list str) : list str :=
  match ks with
  | [] => []
  | k :: ks' => insert_sorted k (sorted ks')
  end.

Fixpoint insert_item {V} (kv : str * V) (l : dict V) : dict V :=
  match l with
  | [] => [kv]
  | kv' :: l' =>
      if Str.leb (fst kv) (fst kv') then kv :: l else kv' :: insert_item kv l'
  end.

(** [sorted(d.items())] by key, what [json.dump(sort_keys=True)] writes. *)
Fixpoint sorted_items {V} (d : dict V) : dict V :=
  match d with
  | [] => []
  | kv :: d' => insert_item kv (sorted_items d')
  end.

End Dict.

Module JsonLib.
Import Json.

(** The value that a text written by [json.dump(j, f, sort_keys=True)]
    decodes to: [j] with the items of every [dict] sorted by key. *)
Fixpoint sort_keys (j : json) : json :=
  match j with
  | JArr items => JArr (map sort_keys items)
  | JObj items =>
      JObj (Dict.sorted_items (map (fun kv => (fst kv, sort_keys (snd kv))) items))
  | _ => j
  end.

(** [json.load(f)]: [f.read()] decodes the bytes, then the text is
    parsed. *)
Definition load (c : content) : result json :=
  match c with
  | NotUtf8 _ => Raise UnicodeDecodeError
  | Undecodable _ => Raise JSONDecodeError
  | Doc j => Ok j
  end.

(** The content left by [json.dump(j, f, indent=2, sort_keys=True)]. *)
Definition dump (j : json) : content := Doc (sort_keys j).

End JsonLib.

(* ===================================================================== *)
(** * The world of a command *)
(* ===================================================================== *)

Module Sys.

(** The storage directory [DEFAULT_DATA_DIR], the one file
    [DEFAULT_DATA_FILE] in it, and the standard streams.  [stdin] is the
    list of the lines still to be read. *)
Record world : Type := mkworld {
  dir_exists : bool;
  file : option Json.content;
  stdin : list str;
  stdout : str;
  stderr : str
}.

(** A command: it changes the world and returns or raises.  An exception
    keeps the changes made before it. *)
Definition M (A : Type) : Type := world -> result A * world.

Definition ret {A} (a : A) : M A := fun w => (Ok a, w).

Definition bind {A B} (m : M A) (k : A -> M B) : M B :=
  fun w =>
    match m w with
    | (Ok a, w') => k a w'
    | (Raise e, w') => (Raise e, w')
    | (Dynamic, w') => (Dynamic, w')
    end.

(** A computation that touches nothing. *)
Definition lift {A} (r : result A) : M A := fun w => (r, w).

Definition raise {A} (e : exn) : M A := lift (Raise e).

Definition newline : char := 10%N.

(** [print(s)] *)
Definition print (s : str) : M unit :=
  fun w => (Ok tt, mkworld (dir_exists w) (file w) (stdin w)
                           (stdout w ++ s ++ [newline]) (stderr w)).

(** [input(prompt)]: the prompt goes to the standard output, the next
    line comes back without its end of line; [EOFError] when there is
    none. *)
Definition input (prompt : str) : M str :=
  fun w =>
    let out := stdout w ++ prompt in
    match stdin w with
    | [] => (Raise EOFError, mkworld (dir_exists w) (file w) [] out (stderr w))
    | line :: rest => (Ok line, mkworld (dir_exists w) (file w) rest out (stderr w))
    end.

(** [path.mkdir(parents=True, exist_ok=True)] on the storage directory. *)
Definition mkdir : M unit :=
  fun w => (Ok tt, mkworld true (file w) (stdin w) (stdout w) (stderr w)).

(** [path.exists()] on the data file. *)
Definition exists_file : M bool :=
  fun w => (Ok (match file w with Some _ => true | None => false end), w).

(** [path.open("r")] on the data file, and what is read from it. *)
Definition read_file : M Json.content :=
  fun w =>
    match file w with
    | Some c => (Ok c, w)
    | None => (Raise FileNotFoundError, w)
    end.

(** [path.open("w")] and what is written until the file is closed. *)
Definition write_file (c : Json.content) : M unit :=
  fun w => (Ok tt, mkworld (dir_exists w) (Some c) (stdin w) (stdout w) (stderr w)).

Definition write_stdout (s : str) : M unit :=
  fun w => (Ok tt, mkworld (dir_exists w) (file w) (stdin w) (stdout w ++ s)
                           (stderr w)).

Definition write_stderr (s : str) : M unit :=
  fun w => (Ok tt, mkworld (dir_exists w) (file w) (stdin w) (stdout w)
                           (stderr w ++ s)).

(** The exit status of the process for a run of [main()]. *)
Definition exit_status {A} (r : result A) : option Z :=
  match r with
  | Ok _ => Some 0
  | Raise (SystemExit n) => Some n
  | Raise _ => Some 1
  | Dynamic => None
  end.

End Sys.

Notation "x <- m ;; k" := (Sys.bind m (fun x => k))
  (at level 61, m at next level, right associativity).
Notation "m ;;; k" := (Sys.bind m (fun _ => k))
  (at level 61, right associativity).

(* ===================================================================== *)
(** * [storage.py] *)
(* ===================================================================== *)

Module Storage.
Import Json.

(** [class EloDay].  The field [sets] is annotated [List[int]], and the
    statistics below are the ones of integer sets ([EloDay Z]); what
    [from_dict] stores is whatever the file holds ([EloDay json]). *)
Record EloDay (V : Type) : Type := mkEloDay {
  date : Datetime.date;
  sets : list V
}.

(** [max(l)] and [min(l)] on a list that starts with [x]. *)
Definition py_max (x : Z) (l : list Z) : Z := fold_left Z.max l x.
Definition py_min (x : Z) (l : list Z) : Z := fold_left Z.min l x.

Definition start (d : EloDay Z) : option Z :=
  match sets d with
  | [] => None
  | x :: _ => Some x
  end.

(** The property [end]. *)
Definition end_ (d : EloDay Z) : option Z :=
  match sets d with
  | [] => None
  | x :: l => Some (last l x)
  end.

Definition change (d : EloDay Z) : option Z :=
  match sets d with
  | [] => None
  | x :: l => Some (last l x - x)
  end.

Definition best (d : EloDay Z) : option Z :=
  match sets d with
  | [] => None
  | x :: l => Some (py_max x l)
  end.

Definition worst (d : EloDay Z) : option Z :=
  match sets d with
  | [] => None
  | x :: l => Some (py_min x l)
  end.

Definition sets_key : str := lit "sets".

Definition to_dict (d : EloDay json) : json := JObj [(sets_key, JArr (sets d))].

(** [list(v)]: a list is copied, a string gives its characters, a dict
    its keys; the other values are not iterable. *)
Definition py_list (v : json) : result (list json) :=
  match v with
  | JArr items => Ok items
  | JStr s => Ok (map (fun c => JStr [c]) s)
  | JObj items => Ok (map (fun kv => JStr (fst kv)) items)
  | _ => Raise TypeError
  end.

(** [EloDay.from_dict(day, data)]; [data.get] exists on a dict only. *)
Definition from_dict (day : Datetime.date) (data : json) : result (EloDay json) :=
  match data with
  | JObj items =>
      let v := match Dict.get sets_key items with Some v => v | None => JArr [] end in
      rbind (py_list v) (fun s => Ok (mkEloDay day s))
  | _ => Raise AttributeError
  end.

(** [class EloData] *)
Record EloData (V : Type) : Type := mkEloData {
  days : Dict.dict (EloDay V)
}.

Definition to_json (data : EloData json) : json :=
  JObj (map (fun kv => (fst kv, to_dict (snd kv))) (days data)).

(** The loop of [from_json] over [raw.items()]. *)
Fixpoint from_items (items : list (str * json)) (acc : Dict.dict (EloDay json))
  : result (Dict.dict (EloDay json)) :=
  match items with
  | [] => Ok acc
  | (day_str, value) :: rest =>
      rbind (Datetime.fromisoformat day_str) (fun day_obj =>
      rbind (from_dict day_obj value) (fun d =>
      from_items rest (Dict.set day_str d acc)))
  end.

(** [EloData.from_json(raw)]; [raw.items] exists on a dict only. *)
Definition from_json (raw : json) : result (EloData json) :=
  match raw with
  | JObj items => rbind (from_items items []) (fun d => Ok (mkEloData d))
  | _ => Raise AttributeError
  end.

(** [data.get_day(day)]: the store after the call, and the day returned,
    which is the object the store holds under the key. *)
Definition get_day {V} (data : EloData V) (day : Datetime.date)
  : EloData V * EloDay V :=
  let day_key := Datetime.isoformat day in
  match Dict.get day_key (days data) with
  | Some d => (data, d)
  | None =>
      let d := mkEloDay day [] in
      (mkEloData (Dict.set day_key d (days data)), d)
  end.

(** [day.sets.append(v)] on the day that the store holds under [key]. *)
Definition append_set {V} (key : str) (v : V) (data : EloData V) : EloData V :=
  match Dict.get key (days data) with
  | Some d => mkEloData (Dict.set key (mkEloDay (date d) (sets d ++ [v])) (days data))
  | None => data
  end.

(** [data.sorted_days()].  Every key looked up is a key of the dict. *)
Definition sorted_days {V} (data : EloData V) : list (EloDay V) :=
  flat_map (fun k => match Dict.get k (days data) with
                     | Some d => [d]
                     | None => []
                     end)
           (Dict.sorted (Dict.keys (days data))).

Definition ensure_storage_dir : Sys.M unit := Sys.mkdir.

Definition load_data : Sys.M (EloData json) :=
  ensure_storage_dir ;;;
  present <- Sys.exists_file ;;
  if negb present then Sys.ret (mkEloData [])
  else
    c <- Sys.read_file ;;
    raw <- Sys.lift (JsonLib.load c) ;;
    Sys.lift (from_json raw).

Definition save_data (data : EloData json) : Sys.M unit :=
  ensure_storage_dir ;;;
  Sys.write_file (JsonLib.dump (to_json data)).

(** The store of integer sets as Python holds it. *)
Definition raw_day (d : EloDay Z) : EloDay json :=
  mkEloDay (date d) (map JInt (sets d)).

Definition raw_data (data : EloData Z) : EloData json :=
  mkEloData (map (fun kv => (fst kv, raw_day (snd kv))) (days data)).

(** The integers of a list of values, when they all are [int]. *)
Fixpoint ints (l : list json) : option (list Z) :=
  match l with
  | [] => Some []
  | JInt n :: l' => option_map (cons n) (ints l')
  | _ => None
  end.

Definition int_day (d : EloDay json) : option (EloDay Z) :=
  option_map (mkEloDay (date d)) (ints (sets d)).

End Storage.

(* ===================================================================== *)
(** * [cli.py] *)
(* ===================================================================== *)

Module Cli.
Import Storage.

(** The [type] of the [--date] options: the [ValueError] of
    [fromisoformat] becomes an [ArgumentTypeError]. *)
Definition parse_date (value : str) : result Datetime.date :=
  match Datetime.fromisoformat value with
  | Raise ValueError => Raise ArgumentTypeError
  | r => r
  end.

Definition format_change (change : option Z) : str :=
  match change with
  | None => lit "-"
  | Some c => (if 0 <=? c then lit "+" else lit "") ++ Str.of_Z c
  end.

Definition format_optional (value : option Z) : str :=
  match value with
  | Some v => Str.of_Z v
  | None => lit "-"
  end.

Definition summarize_day (day : EloDay Z) : list str :=
  [ Datetime.isoformat (date day);
    Str.of_nat (List.length (sets day));
    format_optional (start day);
    format_optional (end_ day);
    format_change (change day);
    format_optional (best day);
    format_optional (worst day) ].

(** [summarize_day] on a day as loaded. *)
Definition summarize_loaded (day : EloDay Json.json) : result (list str) :=
  match int_day day with
  | Some d => Ok (summarize_day d)
  | None => Dynamic
  end.

(** [col_widths[idx] = w] *)
Fixpoint update (idx : nat) (w : nat) (ws : list nat) : list nat :=
  match ws, idx with
  | [], _ => []
  | _ :: ws', O => w :: ws'
  | w' :: ws', S i => w' :: update i w ws'
  end.

(** The inner loop of [render_table] over [enumerate(row_values)], from
    index [idx] on; [col_widths[idx]] raises past the end of the list. *)
Fixpoint widen (idx : nat) (col_widths : list nat) (row_values : list str)
  : result (list nat) :=
  match row_values with
  | [] => Ok col_widths
  | value :: rest =>
      match nth_error col_widths idx with
      | None => Raise IndexError
      | Some w => widen (S idx) (update idx (Nat.max w (Str.len value)) col_widths) rest
      end
  end.

(** The outer loop over [rows]. *)
Fixpoint widen_rows (col_widths : list nat) (rows : list (list str))
  : result (list nat) :=
  match rows with
  | [] => Ok col_widths
  | row :: rows' => rbind (widen 0 col_widths row) (fun ws => widen_rows ws rows')
  end.

(** [[value.ljust(col_widths[idx]) for idx, value in enumerate(row_values)]]
    from index [idx] on. *)
Fixpoint format_parts (idx : nat) (col_widths : list nat) (row_values : list str)
  : result (list str) :=
  match row_values with
  | [] => Ok []
  | value :: rest =>
      match nth_error col_widths idx with
      | None => Raise IndexError
      | Some w =>
          rbind (format_parts (S idx) col_widths rest) (fun parts =>
          Ok (Str.ljust value w :: parts))
      end
  end.

Definition format_row (col_widths : list nat) (row_values : list str) : result str :=
  rbind (format_parts 0 col_widths row_values) (fun parts =>
  Ok (Str.join (lit " | ") parts)).

Definition dashes (width : nat) : str := repeat 45%N width.

Definition render_table (headers : list str) (rows : list (list str)) : result str :=
  rbind (widen_rows (map Str.len headers) rows) (fun col_widths =>
  rbind (format_row col_widths headers) (fun header_line =>
  let separator := Str.join (lit "-+-") (map dashes col_widths) in
  rbind (traverse (format_row col_widths) rows) (fun body_lines =>
  match body_lines with
  | [] => Ok header_line
  | _ => Ok (Str.join [Sys.newline] (header_line :: separator :: body_lines))
  end))).

(** The functions of [COMMANDS]. *)
Inductive handler : Type := Cmd_record | Cmd_summary | Cmd_history | Cmd_reset.

(** [argparse.Namespace]: the attributes that the parsers of
    [build_parser] set; [None] is an attribute left at [None]. *)
Record Namespace : Type := mkNamespace {
  command : option str;
  func : option handler;
  elo : option Z;
  arg_date : option Datetime.date;
  arg_days : option Z;
  limit : option Z
}.

Definition no_data : str :=
  lit "No Elo data recorded yet. Use the 'record' command to add a set.".

(** [["Date", "Sets", "Start", "End", "Δ Elo", "Peak", "Low"]]; the
    Greek capital delta is the code point 916. *)
Definition headers : list str :=
  [lit "Date"; lit "Sets"; lit "Start"; lit "End"; 916%N :: lit " Elo";
   lit "Peak"; lit "Low"].

(** [print(render_table(headers, [summarize_day(day) for day in days]))] *)
Definition print_table (days : list (EloDay Json.json)) : Sys.M unit :=
  rows <- Sys.lift (traverse summarize_loaded days) ;;
  table <- Sys.lift (render_table headers rows) ;;
  Sys.print table.

Definition cmd_record (today : Datetime.date) (args : Namespace) : Sys.M unit :=
  data <- load_data ;;
  let record_date := match arg_date args with Some d => d | None => today end in
  let data := fst (get_day data record_date) in
  v <- match elo args with
       | Some v => Sys.ret v
       | None => Sys.raise AttributeError
       end ;;
  let key := Datetime.isoformat record_date in
  let data := append_set key (Json.JInt v) data in
  save_data data ;;;
  let n := match Dict.get key (days data) with
           | Some d => List.length (sets d)
           | None => O
           end in
  Sys.print (lit "Recorded set #" ++ Str.of_nat n ++ lit " for " ++ key
             ++ lit " with Elo " ++ Str.of_Z v ++ lit ".").

Definition cmd_summary (today : Datetime.date) (args : Namespace) : Sys.M unit :=
  data <- load_data ;;
  let days := sorted_days data in
  days <- match arg_date args with
          | Some d =>
              let target := Datetime.isoformat d in
              Sys.ret (filter (fun day => Str.eqb (Datetime.isoformat (date day)) target)
                              days)
          | None =>
              match arg_days args with
              | Some n =>
                  delta <- Sys.lift (Datetime.timedelta (n - 1)) ;;
                  cutoff <- Sys.lift (Datetime.sub today delta) ;;
                  Sys.ret (filter (fun day => Datetime.geb (date day) cutoff) days)
              | None => Sys.ret days
              end
          end ;;
  match days with
  | [] => Sys.print no_data
  | _ => print_table days
  end.

(** [l[start:]] *)
Definition slice_from {A} (start : Z) (l : list A) : list A :=
  let n := Z.of_nat (List.length l) in
  let i := if start <? 0 then Z.max 0 (n + start) else Z.min start n in
  skipn (Z.to_nat i) l.

Definition cmd_history (args : Namespace) : Sys.M unit :=
  data <- load_data ;;
  let days := sorted_days data in
  match days with
  | [] => Sys.print no_data
  | _ =>
      let days := match limit args with
                  | Some n => slice_from (- n) days
                  | None => days
                  end in
      print_table days
  end.

Definition reset_prompt : str :=
  lit "This will delete all tracked Elo data. Type 'yes' to confirm: ".

Definition cmd_reset (args : Namespace) : Sys.M unit :=
  line <- Sys.input reset_prompt ;;
  let confirmation := Str.strip line in
  if negb (Str.eqb (Str.lower confirmation) (lit "yes"))
  then Sys.print (lit "Reset cancelled.")
  else
    save_data (mkEloData []) ;;;
    Sys.print (lit "All Elo data has been cleared.").

Definition run_handler (today : Datetime.date) (h : handler) (args : Namespace)
  : Sys.M unit :=
  match h with
  | Cmd_record => cmd_record today args
  | Cmd_summary => cmd_summary today args
  | Cmd_history => cmd_history args
  | Cmd_reset => cmd_reset args
  end.

End Cli.

(* ===================================================================== *)
(** * [build_parser] and [main] *)
(* ===================================================================== *)

Module Main.
Import Cli.

(** [parser.add_subparsers(dest=..., required=...)] and the sub-parsers
    added to it, each with the handler of its [set_defaults(func=...)]. *)
Record subparsers : Type := mksubparsers {
  dest : str;
  required : bool;
  choices : Dict.dict handler
}.

Definition build_parser : subparsers :=
  mksubparsers (lit "command") true
    [(lit "record", Cmd_record); (lit "summary", Cmd_summary);
     (lit "history", Cmd_history); (lit "reset", Cmd_reset)].

Section Argparse.

(** What [argparse] derives from the parser and the command line, and
    the source does not fix: the name of the program, the usage line
    and the help text; how a sub-parser reads the arguments of its
    command; and how the top-level parser reads a command line that
    does not start with the name of a command. *)
Variable prog usage help : str.
Variable parse_command : handler -> list str -> Sys.M Namespace.
Variable parse_other : list str -> Sys.M Namespace.

(** [parser.error(message)]: usage and message on the standard error,
    then [SystemExit(2)]. *)
Definition error {A} (message : str) : Sys.M A :=
  Sys.write_stderr (usage ++ prog ++ lit ": error: " ++ message ++ [Sys.newline]) ;;;
  Sys.raise (SystemExit 2).

Definition with_command (name : str) (h : handler) (ns : Namespace) : Namespace :=
  mkNamespace (Some name) (Some h) (elo ns) (arg_date ns) (arg_days ns) (limit ns).

(** [parser.parse_args(argv)].  With no argument at all no sub-parser
    runs: a required sub-command is then reported missing, and one that
    is not required leaves a namespace without [func]. *)
Definition parse_args (p : subparsers) (argv : list str) : Sys.M Namespace :=
  match argv with
  | [] =>
      if required p
      then error (lit "the following arguments are required: " ++ dest p)
      else Sys.ret (mkNamespace None None None None None None)
  | name :: rest =>
      match Dict.get name (choices p) with
      | Some h =>
          ns <- parse_command h rest ;;
          Sys.ret (with_command name h ns)
      | None => parse_other argv
      end
  end.

(** [main] on the parser [p]; [parser.print_help()] writes the help
    text to the standard output. *)
Definition main_with (p : subparsers) (today : Datetime.date) (argv : list str)
  : Sys.M unit :=
  args <- parse_args p argv ;;
  match func args with
  | None => Sys.write_stdout help
  | Some handler => run_handler today handler args
  end.

Definition main (today : Datetime.date) (argv : list str) : Sys.M unit :=
  main_with build_parser today argv.

End Argparse.

End Main.

(* ===================================================================== *)
(** * The words of the specification *)
(* ===================================================================== *)

(** Definitions written after the text of the specification, to be compared
    with the ones above, which come from the code. *)
Module Spec.
Import Storage.

(** What holds of every store that the program builds: the keys are
    distinct, as in any [dict], and each key is the ISO form of the date
    of its day, a date of the calendar. *)
Definition store_inv {V} (data : EloData V) : Prop :=
  NoDup (Dict.keys (days data))
  /\ Forall (fun kv => Datetime.valid (date (snd kv)) = true
                       /\ fst kv = Datetime.isoformat (date (snd kv)))
            (days data).

(** Days in ascending order of date, each date once. *)
Definition ascending {V} (l : list (EloDay V)) : Prop :=
  StronglySorted (fun a b => Datetime.compare (date a) (date b) = Lt) l.

(** Structural equality of two stores: the same date keys, each mapped to
    the same day, whatever the order of insertion. *)
Definition same_store {V} (a b : EloData V) : Prop :=
  forall k : str, Dict.get k (days a) = Dict.get k (days b).

(** The width of column [j]: the greatest of the length of its header and
    of the lengths of its cells. *)
Definition column_width (headers : list str) (rows : list (list str)) (j : nat) : nat :=
  list_max (Str.len (nth j headers []) :: map (fun row => Str.len (nth j row [])) rows).

Definition column_widths (headers : list str) (rows : list (list str)) : list nat :=
  map (column_width headers rows) (seq 0 (List.length headers)).

(** Every cell left-justified to the width of its column, the columns
    joined with [" | "]. *)
Definition line (widths : list nat) (row : list str) : str :=
  Str.join (lit " | ") (map (fun p => Str.ljust (fst p) (snd p)) (combine row widths)).

(** Dashes for every column, joined with ["-+-"]. *)
Definition separator (widths : list nat) : str :=
  Str.join (lit "-+-") (map (fun w => repeat 45%N w) widths).

(** Header, separator and body, one per line; the header alone when there
    is no row. *)
Definition table (headers : list str) (rows : list (list str)) : str :=
  let widths := column_widths headers rows in
  match rows with
  | [] => line widths headers
  | _ => Str.join [10%N] (line widths headers :: separator widths :: map (line widths) rows)
  end.

(** The days of a summary of the last [n] days as the specification has
    them: from [today - (n - 1)] to [today], both included. *)
Definition in_window (today : Datetime.date) (n : Z) (d : EloDay Json.json) : bool :=
  (Datetime.toordinal today - (n - 1) <=? Datetime.toordinal (date d))
  && (Datetime.toordinal (date d) <=? Datetime.toordinal today).

(** The days from [today - (n - 1)] on. *)
Definition since (today : Datetime.date) (n : Z) (d : EloDay Json.json) : bool :=
  Datetime.toordinal today - (n - 1) <=? Datetime.toordinal (date d).

(** What a command shows for the days it has selected: their table, or
    the fixed message when there is none. *)
Definition display (days : list (EloDay Json.json)) : Sys.M unit :=
  match days with
  | [] => Sys.print Cli.no_data
  | _ => Cli.print_table days
  end.

(** The last [n] entries of a list. *)
Definition last_n {A} (n : Z) (l : list A) : list A :=
  skipn (List.length l - Z.to_nat n) l.

(** ASCII case folding, and equality of two strings up to it. *)
Definition fold_case (c : char) : char :=
  (if (65 <=? c) && (c <=? 90) then c + 32 else c)%N.

Definition matches_ci (a b : str) : bool :=
  Str.eqb (map fold_case a) (map fold_case b).

(** A key that [date.fromisoformat] takes. *)
Definition is_date (k : str) : bool :=
  match Datetime.fromisoformat k with
  | Ok _ => true
  | _ => false
  end.

Definition is_int (j : Json.json) : bool :=
  match j with
  | Json.JInt _ => true
  | _ => false
  end.

(** The format of the persisted file: an object; every key a date; every
    value an object whose ["sets"] is a list of integers. *)
Definition conforms (j : Json.json) : bool :=
  match j with
  | Json.JObj items =>
      forallb (fun kv =>
                 is_date (fst kv)
                 && match snd kv with
                    | Json.JObj fields =>
                        match Dict.get sets_key fields with
                        | Some (Json.JArr l) => forallb is_int l
                        | _ => false
                        end
                    | _ => false
                    end)
              items
  | _ => false
  end.

(** A value that cannot be iterated over. *)
Definition is_scalar (j : Json.json) : bool :=
  match j with
  | Json.JNull | Json.JBool _ | Json.JInt _ | Json.JFloat _ => true
  | _ => false
  end.

(** The day entries that [load_data] does not take: a key that
    [date.fromisoformat] does not take, a value that is not an object, or an object whose ["sets"] is
    there and is a scalar. *)
Definition bad_entry (kv : str * Json.json) : bool :=
  negb (is_date (fst kv))
  || match snd kv with
     | Json.JObj fields =>
         match Dict.get sets_key fields with
         | Some v => is_scalar v
         | None => false
         end
     | _ => true
     end.

(** The contents that [load_data] does not take: bytes that are not a
    text, a text that is not JSON, a document that is not an object, an
    object with a bad entry. *)
Definition rejected (c : Json.content) : bool :=
  match c with
  | Json.NotUtf8 _ => true
  | Json.Undecodable _ => true
  | Json.Doc (Json.JObj items) => existsb bad_entry items
  | Json.Doc _ => true
  end.

End Spec.

(** Steps of the proofs. *)
Module Aux.

(** What [Datetime.month_day] has to deliver, as a test. *)
Definition month_day_ok (leap : bool) (n : Z) : bool :=
  let '(m, d) := Datetime.month_day leap n in
  (1 <=? m) && (m <=? 12) && (1 <=? d)
  && (d <=? Datetime.DAYS_IN_MONTH m + (if (m =? 2) && leap then 1 else 0))
  && (Datetime.DAYS_BEFORE_MONTH m + (if (2 <? m) && leap then 1 else 0) + d =? n + 1).

Definition month_cases (m : Z) : Prop :=
  m = 1 \/ m = 2 \/ m = 3 \/ m = 4 \/ m = 5 \/ m = 6 \/ m = 7 \/ m = 8 \/ m = 9
  \/ m = 10 \/ m = 11 \/ m = 12.

(** What holds of every store that [load_data] returns: the keys are
    distinct, and [date.fromisoformat] reads each key as the date of its
    day.  A key need not be the ISO form of that date. *)
Definition loaded_inv {V} (data : Storage.EloData V) : Prop :=
  NoDup (Dict.keys (Storage.days data))
  /\ Forall (fun kv => Datetime.fromisoformat (fst kv) = Ok (Storage.date (snd kv)))
            (Storage.days data).

(** A computation that leaves the storage directory in place, and one
    that leaves it made. *)
Definition dir_kept {A} (m : Sys.M A) : Prop :=
  forall w, Sys.dir_exists w = true -> Sys.dir_exists (snd (m w)) = true.

Definition dir_made {A} (m : Sys.M A) : Prop :=
  forall w, Sys.dir_exists (snd (m w)) = true.

(** A computation that leaves the data file, the standard input and the
    standard error as they are. *)
Definition read_only {A} (m : Sys.M A) : Prop :=
  forall w,
    Sys.file (snd (m w)) = Sys.file w
    /\ Sys.stdin (snd (m w)) = Sys.stdin w
    /\ Sys.stderr (snd (m w)) = Sys.stderr w.

(** Items in the order of their keys. *)
Definition key_le {V} (a b : str * V) : Prop := Str.leb (fst a) (fst b) = true.

(** The same keys, the values through [f]. *)
Definition map_values {A B} (f : A -> B) (l : Dict.dict A) : Dict.dict B :=
  map (fun kv => (fst kv, f (snd kv))) l.

(** The code points whose lower-case form is one code point, the
    ASCII-folded one. *)
Definition plain (c : char) : bool := negb ((c =? 304) || (c =? 8490))%N.

(** The widths after one more row. *)
Definition zipmax (ws : list nat) (row : list str) : list nat :=
  map (fun p => Nat.max (fst p) (Str.len (snd p))) (combine ws row).

End Aux.

(** Inputs for the examples. *)
Module Sample.
Import Storage Cli.

Definition args : Namespace := mkNamespace None None None None None None.

Definition summary_args (n : Z) : Namespace :=
  mkNamespace (Some (lit "summary")) (Some Cmd_summary) None None (Some n) None.

Definition history_args (n : option Z) : Namespace :=
  mkNamespace (Some (lit "history")) (Some Cmd_history) None None None n.

Definition today : Datetime.date := Datetime.mkdate 2024 1 10.

(** Two days, recorded out of order. *)
Definition store : EloData Z :=
  mkEloData [(lit "2024-01-11", mkEloDay (Datetime.mkdate 2024 1 11) [1510]);
             (lit "2024-01-10", mkEloDay (Datetime.mkdate 2024 1 10) [1500; 1550; 1490])].

(** The ten days from 2024-01-01 to 2024-01-10, one set each. *)
Definition store10 : EloData Z :=
  mkEloData
    (map (fun d => (Datetime.isoformat (Datetime.mkdate 2024 1 d),
                    mkEloDay (Datetime.mkdate 2024 1 d) [1500 + d]))
         [1; 2; 3; 4; 5; 6; 7; 8; 9; 10]).

(** The days [a] to [b] of January 2024 as loaded from [store10]. *)
Definition january (ds : list Z) : list (EloDay Json.json) :=
  map (fun d => mkEloDay (Datetime.mkdate 2024 1 d) [Json.JInt (1500 + d)]) ds.

(** Days of January 2024 with their sets, as loaded. *)
Definition january_sets (ds : list (Z * list Z)) : list (EloDay Json.json) :=
  map (fun d => raw_day (mkEloDay (Datetime.mkdate 2024 1 (fst d)) (snd d))) ds.

(** One day. *)
Definition store1 : EloData Z :=
  mkEloData [(lit "2024-01-10", mkEloDay (Datetime.mkdate 2024 1 10) [1500])].

Definition saved (data : EloData Z) : Json.content :=
  JsonLib.dump (to_json (raw_data data)).

(** The day of the specification: 1500, then 1550, then 1490. *)
Definition day3 : EloDay Z := mkEloDay (Datetime.mkdate 2024 1 10) [1500; 1550; 1490].

(** A small table. *)
Definition headers2 : list str := [lit "Date"; lit "Sets"].
Definition rows2 : list (list str) :=
  [[lit "2024-01-10"; lit "3"]; [lit "2024-01-11"; lit "12"]].

(** A text that is not JSON. *)
Definition garbage : Json.content := Json.Undecodable (lit "{oops").

(** Bytes that are not UTF-8. *)
Definition binary : Json.content := Json.NotUtf8 [255%N; 254%N].

(** A document with two days: the 11th of January 2024 under its ISO
    form, and the 10th under the week date that names it. *)
Definition week_keys : Json.json :=
  Json.JObj [(lit "2024-01-11", Json.JObj [(lit "sets", Json.JArr [Json.JInt 1510])]);
             (lit "2024-W02-3", Json.JObj [(lit "sets", Json.JArr [Json.JInt 1500])])].

(** A document with a key that is no date. *)
Definition bad_key : Json.json := Json.JObj [(lit "today", Json.JObj [])].

(** A document with a string where an integer is due. *)
Definition lenient : Json.json :=
  Json.JObj [(lit "2024-01-10",
              Json.JObj [(lit "sets", Json.JArr [Json.JStr (lit "a")])])].

(** A world whose file has the content [c]. *)
Definition world_of (c : Json.content) : Sys.world :=
  Sys.mkworld true (Some c) [] [] [].

Definition record_args (v : Z) : Namespace :=
  mkNamespace (Some (lit "record")) (Some Cmd_record) (Some v) None None None.

(** The world after recording [vs] today, one after the other. *)
Definition recorded (vs : list Z) (w : Sys.world) : Sys.world :=
  fold_left (fun w v => snd (cmd_record today (record_args v) w)) vs w.

Definition summary_date_args (d : Datetime.date) : Namespace :=
  mkNamespace (Some (lit "summary")) (Some Cmd_summary) None (Some d) (Some 7) None.

(** No directory, no file, nothing to read. *)
Definition fresh : Sys.world := Sys.mkworld false None [] [] [].

(** The file of [data], and [lines] to read. *)
Definition world (data : EloData Z) (lines : list str) : Sys.world :=
  Sys.mkworld true (Some (saved data)) lines [] [].

(** No directory yet, and [lines] to read. *)
Definition fresh_with (lines : list str) : Sys.world :=
  Sys.mkworld false None lines [] [].

End Sample.

(* ===================================================================== *)
(** * Proofs *)
(* ===================================================================== *)

Unset Implicit Arguments.
(* ===================================================================== *)
(** * Facts about the calendar *)
(* ===================================================================== *)

Section Calendar.
Import Datetime.

Lemma forallb_range (P : Z -> bool) (k : nat) :
  forallb P (map Z.of_nat (seq 0 k)) = true ->
  forall n, 0 <= n < Z.of_nat k -> P n = true.
Proof.
  intros H n Hn. rewrite forallb_forall in H. apply H.
  apply in_map_iff. exists (Z.to_nat n). split. { lia. }
  apply in_seq. lia.
Qed.

Lemma month_day_spec (leap : bool) n :
  0 <= n < 365 + (if leap then 1 else 0) -> Aux.month_day_ok leap n = true.
Proof.
  intros H. destruct leap.
  - apply (forallb_range (Aux.month_day_ok true) 366); [vm_compute; reflexivity | lia].
  - apply (forallb_range (Aux.month_day_ok false) 365); [vm_compute; reflexivity | lia].
Qed.

Lemma is_leap_spec y : is_leap y = true <-> (y mod 4 = 0 /\ (y mod 100 <> 0 \/ y mod 400 = 0)).
Proof.
  unfold is_leap. rewrite andb_true_iff, orb_true_iff, negb_true_iff, !Z.eqb_eq, Z.eqb_neq. tauto.
Qed.

Lemma toordinal_fromordinal n :
  1 <= n <= MAXORDINAL ->
  toordinal (fromordinal n) = n /\ valid (fromordinal n) = true.
Proof.
  intros Hn. unfold fromordinal. cbv zeta.
  set (n0 := n - 1).
  set (n400 := n0 / 146097). set (r1 := n0 mod 146097).
  set (n100 := r1 / 36524). set (r2 := r1 mod 36524).
  set (n4 := r2 / 1461). set (r3 := r2 mod 1461).
  set (n1 := r3 / 365). set (r4 := r3 mod 365).
  assert (E1 : n0 = 146097 * n400 + r1 /\ 0 <= r1 < 146097)
    by (subst n400 r1; split; [apply Z.div_mod; lia | apply Z.mod_pos_bound; lia]).
  assert (E2 : r1 = 36524 * n100 + r2 /\ 0 <= r2 < 36524)
    by (subst n100 r2; split; [apply Z.div_mod; lia | apply Z.mod_pos_bound; lia]).
  assert (E3 : r2 = 1461 * n4 + r3 /\ 0 <= r3 < 1461)
    by (subst n4 r3; split; [apply Z.div_mod; lia | apply Z.mod_pos_bound; lia]).
  assert (E4 : r3 = 365 * n1 + r4 /\ 0 <= r4 < 365)
    by (subst n1 r4; split; [apply Z.div_mod; lia | apply Z.mod_pos_bound; lia]).
  assert (B0 : 0 <= n0 <= 3652058 /\ n = n0 + 1) by (unfold MAXORDINAL in Hn; lia).
  clearbody n400 r1 n100 r2 n4 r3 n1 r4 n0.
  assert (0 <= n400 <= 24) by lia.
  assert (0 <= n100 <= 4) by lia.
  assert (0 <= n4 <= 24) by lia.
  assert (0 <= n1 <= 4) by lia.
  destruct ((n1 =? 4) || (n100 =? 4)) eqn:Hlast.
  - apply orb_true_iff in Hlast. rewrite !Z.eqb_eq in Hlast.
    unfold toordinal, valid, days_before_year, days_before_month, days_in_month. cbn [year month day].
    unfold MINYEAR, MAXYEAR.
    change (DAYS_BEFORE_MONTH 12) with 334.
    set (y := n400 * 400 + 1 + n100 * 100 + n4 * 4 + n1 - 1).
    assert (Hl : is_leap y = true).
    { apply is_leap_spec. subst y. Z.div_mod_to_equations. lia. }
    rewrite Hl. cbn.
    split.
    + subst y. Z.div_mod_to_equations. lia.
    + subst y. repeat (apply andb_true_iff; split); try apply Z.leb_le; try lia.
  - apply orb_false_iff in Hlast. rewrite !Z.eqb_neq in Hlast.
    set (leapyear := (n1 =? 3) && (negb (n4 =? 24) || (n100 =? 3))).
    set (y := n400 * 400 + 1 + n100 * 100 + n4 * 4 + n1).
    assert (Hl : is_leap y = leapyear).
    { subst leapyear. destruct (is_leap y) eqn:E.
      - apply is_leap_spec in E. symmetry. 
        rewrite andb_true_iff, orb_true_iff, negb_true_iff, Z.eqb_neq, !Z.eqb_eq.
        subst y. Z.div_mod_to_equations. lia.
      - symmetry. apply not_true_is_false. intros C. 
        rewrite andb_true_iff, orb_true_iff, negb_true_iff, Z.eqb_neq, !Z.eqb_eq in C.
        assert (is_leap y = true); [|congruence].
        apply is_leap_spec. subst y. Z.div_mod_to_equations. lia. }
    assert (Hr : 0 <= r4 < 365 + (if leapyear then 1 else 0)) by (destruct leapyear; lia).
    pose proof (month_day_spec leapyear r4 Hr) as Hmd.
    unfold Aux.month_day_ok in Hmd. destruct (month_day leapyear r4) as [m d]. cbn [fst snd].
    rewrite !andb_true_iff, !Z.leb_le, Z.eqb_eq in Hmd.
    destruct Hmd as [[[[Hm1 Hm2] Hd1] Hd2] Hsum].
    unfold toordinal, valid, days_before_year, days_before_month. cbn [year month day].
    rewrite Hl. split.
    + subst y. Z.div_mod_to_equations. lia.
    + unfold MINYEAR, MAXYEAR. repeat (apply andb_true_iff; split); try apply Z.leb_le; try lia.
      unfold days_in_month. rewrite Hl.
      assert (Hm : m = 1 \/ m = 2 \/ m = 3 \/ m = 4 \/ m = 5 \/ m = 6 \/ m = 7 \/ m = 8 \/ m = 9 \/ m = 10 \/ m = 11 \/ m = 12) by lia.
      clear - Hm Hd1 Hd2 Hsum. clearbody leapyear. 
      unfold DAYS_IN_MONTH in Hd2.
      destruct leapyear;
        repeat (destruct Hm as [-> | Hm]; [vm_compute in Hd2; vm_compute; exact Hd2|]); subst m; vm_compute in Hd2; vm_compute; exact Hd2.
Qed.

Lemma days_before_year_mono y1 y2 :
  y1 <= y2 -> days_before_year y1 <= days_before_year y2.
Proof.
  intros H. unfold days_before_year. cbv zeta. Z.div_mod_to_equations. lia.
Qed.

Lemma days_before_year_succ y :
  days_before_year (y + 1) = days_before_year y + 365 + (if is_leap y then 1 else 0).
Proof.
  unfold days_before_year. cbv zeta.
  replace (y + 1 - 1) with y by lia.
  destruct (is_leap y) eqn:E.
  - apply is_leap_spec in E. Z.div_mod_to_equations. lia.
  - assert (~ (y mod 4 = 0 /\ (y mod 100 <> 0 \/ y mod 400 = 0))) by (rewrite <- is_leap_spec; congruence).
    Z.div_mod_to_equations. lia.
Qed.

Lemma valid_inv d :
  valid d = true ->
  1 <= year d <= 9999 /\ Aux.month_cases (month d)
  /\ 1 <= day d <= days_in_month (year d) (month d).
Proof.
  unfold valid, MINYEAR, MAXYEAR, Aux.month_cases. rewrite !andb_true_iff, !Z.leb_le. lia.
Qed.

Ltac calendar :=
  cbv [DAYS_BEFORE_MONTH DAYS_IN_MONTH nth Z.to_nat Pos.to_nat Pos.iter_op Nat.add
       Z.eqb Z.ltb Z.compare Pos.compare Pos.compare_cont Pos.eqb andb orb] in *.

Ltac each_month H :=
  unfold Aux.month_cases in H;
  repeat (destruct H as [H | H]; [rewrite H in * |]); [.. | rewrite H in *].

Lemma day_of_year_bounds d :
  valid d = true ->
  1 <= days_before_month (year d) (month d) + day d
    <= 365 + (if is_leap (year d) then 1 else 0).
Proof.
  intros V. apply valid_inv in V. destruct V as (_ & Hm & Hd).
  unfold days_before_month, days_in_month in *.
  destruct (is_leap (year d)); each_month Hm; calendar; lia.
Qed.

Lemma months_increase y m1 d1 m2 d2 :
  Aux.month_cases m1 -> Aux.month_cases m2 -> m1 < m2 ->
  1 <= d1 <= days_in_month y m1 -> 1 <= d2 ->
  days_before_month y m1 + d1 < days_before_month y m2 + d2.
Proof.
  intros H1 H2 Hlt Hd1 Hd2. unfold days_before_month, days_in_month in *.
  destruct (is_leap y); each_month H1; each_month H2; calendar; lia.
Qed.

Lemma compare_lt_toordinal a b :
  valid a = true -> valid b = true ->
  compare a b = Lt -> toordinal a < toordinal b.
Proof.
  intros Va Vb. unfold compare, toordinal.
  pose proof (day_of_year_bounds a Va) as Ba.
  pose proof (day_of_year_bounds b Vb) as Bb.
  apply valid_inv in Va. apply valid_inv in Vb.
  destruct Va as (_ & Hma & Hda), Vb as (_ & Hmb & Hdb).
  destruct (Z.compare_spec (year a) (year b)) as [Ey | Ly | Gy]; try discriminate.
  - rewrite Ey in *.
    destruct (Z.compare_spec (month a) (month b)) as [Em | Lm | Gm]; try discriminate.
    + rewrite Em. intros H. rewrite Z.compare_lt_iff in H. lia.
    + intros _. pose proof (months_increase (year b) _ _ _ _ Hma Hmb Lm Hda (proj1 Hdb)). lia.
  - intros _.
    pose proof (days_before_year_succ (year a)) as S.
    pose proof (days_before_year_mono (year a + 1) (year b) ltac:(lia)). lia.
Qed.

Lemma compare_eq_inv a b : compare a b = Eq -> a = b.
Proof.
  unfold compare. destruct a, b. cbn.
  destruct (Z.compare_spec year0 year1); try discriminate.
  destruct (Z.compare_spec month0 month1); try discriminate.
  destruct (Z.compare_spec day0 day1); try discriminate. congruence.
Qed.

Lemma compare_antisym a b : compare b a = CompOpp (compare a b).
Proof.
  unfold compare.
  rewrite (Z.compare_antisym (year a)), (Z.compare_antisym (month a)), (Z.compare_antisym (day a)).
  destruct (year a ?= year b); cbn; auto.
  destruct (month a ?= month b); cbn; auto.
Qed.

Lemma geb_toordinal a b :
  valid a = true -> valid b = true ->
  geb a b = (toordinal b <=? toordinal a).
Proof.
  intros Va Vb. unfold geb.
  destruct (compare a b) eqn:E.
  - apply compare_eq_inv in E. subst. symmetry. apply Z.leb_le. lia.
  - pose proof (compare_lt_toordinal a b Va Vb E). symmetry. apply Z.leb_gt. lia.
  - assert (E' : compare b a = Lt) by (rewrite compare_antisym, E; reflexivity).
    pose proof (compare_lt_toordinal b a Vb Va E'). symmetry. apply Z.leb_le. lia.
Qed.

Example isoformat_example :
  isoformat (mkdate 2024 1 10) = lit "2024-01-10".
Proof. reflexivity. Qed.

Example fromordinal_example :
  fromordinal 738895 = mkdate 2024 1 10
  /\ toordinal (mkdate 2024 1 10) = 738895
  /\ fromordinal 3652059 = mkdate 9999 12 31
  /\ fromordinal 1 = mkdate 1 1 1
  /\ fromordinal 730179 = mkdate 2000 2 29
  /\ fromordinal 730485 = mkdate 2000 12 31
  /\ fromordinal 36524 = mkdate 100 12 31.
Proof. repeat split; reflexivity. Qed.

End Calendar.

(* ===================================================================== *)
(** * Facts about strings *)
(* ===================================================================== *)

Section Strings.

Lemma str_eqb_eq (a b : str) : Str.eqb a b = true <-> a = b.
Proof.
  revert b. induction a as [|x a IH]; intros [|y b]; cbn; split; intros H;
    try discriminate; auto.
  - apply andb_true_iff in H. destruct H as [H1 H2].
    apply N.eqb_eq in H1. apply IH in H2. congruence.
  - inversion H; subst. rewrite N.eqb_refl. cbn. now apply IH.
Qed.

Lemma str_eqb_refl (a : str) : Str.eqb a a = true.
Proof. now apply str_eqb_eq. Qed.

Lemma str_eqb_neq (a b : str) : Str.eqb a b = false <-> a <> b.
Proof.
  rewrite <- str_eqb_eq. destruct (Str.eqb a b); split; congruence.
Qed.

Lemma str_compare_eq (a b : str) : Str.compare a b = Eq <-> a = b.
Proof.
  revert b. induction a as [|x a IH]; intros [|y b]; cbn; split; intros H;
    try discriminate; auto.
  - destruct (N.compare_spec x y); try discriminate. subst. f_equal. now apply IH.
  - inversion H; subst. rewrite N.compare_refl. now apply IH.
Qed.

Lemma str_compare_antisym (a b : str) : Str.compare b a = CompOpp (Str.compare a b).
Proof.
  revert b. induction a as [|x a IH]; intros [|y b]; cbn; auto.
  rewrite (N.compare_antisym x y). destruct (x ?= y)%N; cbn; auto.
Qed.

Lemma str_compare_trans (a b c : str) :
  Str.compare a b = Lt -> Str.compare b c = Lt -> Str.compare a c = Lt.
Proof.
  revert b c. induction a as [|x a IH]; intros [|y b] [|z c]; cbn; auto; try discriminate.
  destruct (N.compare_spec x y); destruct (N.compare_spec y z); try discriminate; subst;
    intros H1 H2.
  - rewrite N.compare_refl. eapply IH; eauto.
  - now rewrite (proj2 (N.compare_lt_iff _ _) H0).
  - now rewrite (proj2 (N.compare_lt_iff _ _) H).
  - assert (x < z)%N by lia. now rewrite (proj2 (N.compare_lt_iff _ _) H3).
Qed.

Lemma str_leb_total (a b : str) : Str.leb a b = false -> Str.leb b a = true.
Proof.
  unfold Str.leb. rewrite (str_compare_antisym a b).
  destruct (Str.compare a b); cbn; congruence.
Qed.

Lemma str_leb_lt (a b : str) : Str.leb a b = true -> a <> b -> Str.compare a b = Lt.
Proof.
  unfold Str.leb. intros H Hne. destruct (Str.compare a b) eqn:E; auto.
  - apply str_compare_eq in E. contradiction.
  - discriminate.
Qed.

End Strings.

(* ===================================================================== *)
(** * Dates and their ISO form *)
(* ===================================================================== *)

Section Isoformat.
Import Datetime.

Lemma is_digit_val (c : char) :
  Str.is_digit c = true -> 0 <= Str.digit_val c <= 9.
Proof.
  unfold Str.is_digit, Str.digit_val. rewrite andb_true_iff, !N.leb_le. lia.
Qed.

(** [fromisoformat] returns a date of the calendar, or raises
    [ValueError]. *)
Lemma fromisoformat_cases (k : str) :
  (exists d, fromisoformat k = Ok d /\ valid d = true)
  \/ fromisoformat k = Raise ValueError.
Proof.
  unfold fromisoformat.
  destruct (Str.utf8_len k) as [len|]; [|now right].
  destruct (_ || _); [|now right].
  destruct (parse_isoformat_date k) as [d|]; [|now right].
  destruct (valid d) eqn:V; [left; eauto | now right].
Qed.

Lemma fromisoformat_valid (s : str) (d : date) :
  fromisoformat s = Ok d -> valid d = true.
Proof.
  intros H. destruct (fromisoformat_cases s) as [(d' & E & V) | E]; rewrite E in H.
  - now inversion H; subst.
  - discriminate H.
Qed.

Ltac settle_compare :=
  repeat match goal with
         | |- context [Z.compare ?x ?x] => rewrite (Z.compare_refl x)
         | |- context [Z.compare ?x ?y] =>
             first [ replace (Z.compare x y) with Lt
                       by (symmetry; apply Z.compare_lt_iff; lia)
                   | replace (Z.compare x y) with Gt
                       by (symmetry; apply Z.compare_gt_iff; lia) ]
         end;
  reflexivity.

Ltac next_char :=
  match goal with
  | |- context [N.compare ?a ?b] =>
      destruct (N.compare_spec a b) as [? | ? | ?];
      [ subst | unfold Str.digit_val; settle_compare | unfold Str.digit_val; settle_compare ]
  end.

Lemma digit_char_is_digit (v : Z) : Str.is_digit (Str.digit_char (v mod 10)) = true.
Proof.
  pose proof (Z.mod_pos_bound v 10 ltac:(lia)).
  unfold Str.is_digit, Str.digit_char. rewrite andb_true_iff, !N.leb_le. lia.
Qed.

Lemma digit_val_digit_char (v : Z) : Str.digit_val (Str.digit_char (v mod 10)) = v mod 10.
Proof.
  pose proof (Z.mod_pos_bound v 10 ltac:(lia)).
  unfold Str.digit_val, Str.digit_char. lia.
Qed.

(** The ISO form of a date of the calendar: four digits, two and two, with
    dashes between, and the date is what the digits say. *)
Lemma isoformat_shape (d : date) :
  valid d = true ->
  exists y1 y2 y3 y4 m1 m2 d1 d2 : char,
    isoformat d = [y1; y2; y3; y4; dash; m1; m2; dash; d1; d2]
    /\ digits4 (year d) ++ digits2 (month d) ++ digits2 (day d)
       = [y1; y2; y3; y4; m1; m2; d1; d2]
    /\ Forall (fun c => Str.is_digit c = true) [y1; y2; y3; y4; m1; m2; d1; d2]
    /\ d = mkdate (Str.digit_val y1 * 1000 + Str.digit_val y2 * 100
                   + Str.digit_val y3 * 10 + Str.digit_val y4)
                  (Str.digit_val m1 * 10 + Str.digit_val m2)
                  (Str.digit_val d1 * 10 + Str.digit_val d2).
Proof.
  intros V. pose proof (valid_inv d V) as (Hy & Hm & Hd).
  assert (Hm' : 1 <= month d <= 12) by (unfold Aux.month_cases in Hm; lia).
  assert (Hd' : 1 <= day d <= 31).
  { unfold days_in_month in Hd.
    destruct (month d =? 2); [destruct (is_leap (year d)); lia|].
    destruct (_ || _); lia. }
  unfold isoformat, digits4, digits2. cbn [app].
  do 8 eexists. split; [reflexivity|]. split; [reflexivity|]. split.
  - repeat constructor; apply digit_char_is_digit.
  - rewrite !digit_val_digit_char.
    destruct d as [y m dd]. cbn [year month day] in *. f_equal.
    + Z.div_mod_to_equations. lia.
    + Z.div_mod_to_equations. lia.
    + Z.div_mod_to_equations. lia.
Qed.

Lemma digit_utf8_size (c : char) : Str.is_digit c = true -> Str.utf8_size c = Some 1.
Proof.
  unfold Str.is_digit, Str.utf8_size. rewrite andb_true_iff, !N.leb_le.
  intros [_ H]. replace (c <? 128)%N with true; [reflexivity|].
  symmetry. apply N.ltb_lt. lia.
Qed.

Lemma digit_not_W (c : char) : Str.is_digit c = true -> (c =? letter_W)%N = false.
Proof.
  unfold Str.is_digit, letter_W. rewrite andb_true_iff, !N.leb_le.
  intros [_ H]. apply N.eqb_neq. lia.
Qed.

(** What [fromisoformat] makes of four digits, two and two, with dashes
    between. *)
Lemma fromisoformat_dashed (y1 y2 y3 y4 m1 m2 d1 d2 : char) :
  Forall (fun c => Str.is_digit c = true) [y1; y2; y3; y4; m1; m2; d1; d2] ->
  fromisoformat [y1; y2; y3; y4; dash; m1; m2; dash; d1; d2]
  = let d := mkdate (Str.digit_val y1 * 1000 + Str.digit_val y2 * 100
                     + Str.digit_val y3 * 10 + Str.digit_val y4)
                    (Str.digit_val m1 * 10 + Str.digit_val m2)
                    (Str.digit_val d1 * 10 + Str.digit_val d2) in
    if valid d then Ok d else Raise ValueError.
Proof.
  intros F.
  repeat match goal with
         | H : Forall _ (_ :: _) |- _ => inversion H; subst; clear H
         | H : Forall _ [] |- _ => clear H
         end.
  unfold fromisoformat. cbn [Str.utf8_len].
  repeat match goal with
         | H : Str.is_digit ?c = true |- context [Str.utf8_size ?c] =>
             rewrite (digit_utf8_size c H)
         end.
  cbn [Str.utf8_size dash N.ltb N.compare Pos.compare Pos.compare_cont Z.add Pos.add
       Pos.succ Z.eqb Pos.eqb orb].
  unfold parse_isoformat_date. cbn [parse_digits].
  repeat match goal with
         | H : Str.is_digit ?c = true |- context [Str.is_digit ?c] => rewrite H
         end.
  cbn [at_dash tl]. rewrite N.eqb_refl. cbn [andb negb].
  match goal with
  | H : Str.is_digit m1 = true |- _ => rewrite (digit_not_W m1 H)
  end.
  cbn [parse_digits].
  repeat match goal with
         | H : Str.is_digit ?c = true |- context [Str.is_digit ?c] => rewrite H
         end.
  cbn [at_dash tl]. rewrite N.eqb_refl. cbn [andb negb parse_digits].
  repeat match goal with
         | H : Str.is_digit ?c = true |- context [Str.is_digit ?c] => rewrite H
         end.
  cbv zeta.
  match goal with
  | |- match (if valid ?a then _ else _) with _ => _ end = _ => idtac
  | |- (if valid ?a then _ else _) = (if valid ?b then _ else _) =>
      replace a with b by (f_equal; lia)
  end.
  reflexivity.
Qed.

(** [fromisoformat] reads back what [isoformat] writes. *)
Lemma fromisoformat_isoformat (d : date) :
  valid d = true -> fromisoformat (isoformat d) = Ok d.
Proof.
  intros V.
  destruct (isoformat_shape d V) as (a1 & a2 & a3 & a4 & a5 & a6 & a7 & a8 & E & _ & F & Hd).
  rewrite E, (fromisoformat_dashed _ _ _ _ _ _ _ _ F). cbv zeta.
  rewrite <- Hd, V. reflexivity.
Qed.

Lemma digit_not_dash (c : char) : Str.is_digit c = true -> (c =? dash)%N = false.
Proof.
  unfold Str.is_digit, dash. rewrite andb_true_iff, !N.leb_le.
  intros [H _]. apply N.eqb_neq. lia.
Qed.

(** What [fromisoformat] makes of eight digits: the basic form. *)
Lemma fromisoformat_basic (y1 y2 y3 y4 m1 m2 d1 d2 : char) :
  Forall (fun c => Str.is_digit c = true) [y1; y2; y3; y4; m1; m2; d1; d2] ->
  fromisoformat [y1; y2; y3; y4; m1; m2; d1; d2]
  = let d := mkdate (Str.digit_val y1 * 1000 + Str.digit_val y2 * 100
                     + Str.digit_val y3 * 10 + Str.digit_val y4)
                    (Str.digit_val m1 * 10 + Str.digit_val m2)
                    (Str.digit_val d1 * 10 + Str.digit_val d2) in
    if valid d then Ok d else Raise ValueError.
Proof.
  intros F.
  repeat match goal with
         | H : Forall _ (_ :: _) |- _ => inversion H; subst; clear H
         | H : Forall _ [] |- _ => clear H
         end.
  unfold fromisoformat. cbn [Str.utf8_len].
  repeat match goal with
         | H : Str.is_digit ?c = true |- context [Str.utf8_size ?c] =>
             rewrite (digit_utf8_size c H)
         end.
  cbn [Z.add Pos.add Pos.succ Z.eqb Pos.eqb orb].
  unfold parse_isoformat_date. cbn [parse_digits].
  repeat match goal with
         | H : Str.is_digit ?c = true |- context [Str.is_digit ?c] => rewrite H
         end.
  cbn [at_dash tl].
  match goal with
  | H : Str.is_digit m1 = true |- _ =>
      rewrite (digit_not_dash m1 H), (digit_not_W m1 H)
  end.
  cbn [andb negb parse_digits].
  repeat match goal with
         | H : Str.is_digit ?c = true |- context [Str.is_digit ?c] => rewrite H
         end.
  cbn [andb negb parse_digits].
  repeat match goal with
         | H : Str.is_digit ?c = true |- context [Str.is_digit ?c] => rewrite H
         end.
  cbv zeta.
  match goal with
  | |- (if valid ?a then _ else _) = (if valid ?b then _ else _) =>
      replace a with b by (f_equal; lia)
  end.
  reflexivity.
Qed.

(** [fromisoformat] reads the basic form of a date as that date. *)
Lemma fromisoformat_basic_form (d : date) :
  valid d = true ->
  fromisoformat (digits4 (year d) ++ digits2 (month d) ++ digits2 (day d)) = Ok d.
Proof.
  intros V.
  destruct (isoformat_shape d V) as (a1 & a2 & a3 & a4 & a5 & a6 & a7 & a8 & _ & E & F & Hd).
  rewrite E, (fromisoformat_basic _ _ _ _ _ _ _ _ F). cbv zeta.
  rewrite <- Hd, V. reflexivity.
Qed.

(** Two dates of the calendar with the same ISO form are the same date. *)
Lemma isoformat_inj (a b : date) :
  valid a = true -> valid b = true -> isoformat a = isoformat b -> a = b.
Proof.
  intros Va Vb E. pose proof (fromisoformat_isoformat a Va) as Ha.
  rewrite E, (fromisoformat_isoformat b Vb) in Ha. now inversion Ha.
Qed.

(** On the ISO forms of dates of the calendar, the order of the strings
    is the order of the dates. *)
Lemma isoformat_compare (d1 d2 : date) :
  valid d1 = true -> valid d2 = true ->
  Str.compare (isoformat d1) (isoformat d2) = compare d1 d2.
Proof.
  intros V1 V2.
  destruct (isoformat_shape d1 V1)
    as (a1 & a2 & a3 & a4 & a5 & a6 & a7 & a8 & -> & _ & Ha & E1).
  destruct (isoformat_shape d2 V2)
    as (b1 & b2 & b3 & b4 & b5 & b6 & b7 & b8 & -> & _ & Hb & E2).
  rewrite E1, E2. clear E1 E2 V1 V2.
  repeat match goal with
         | H : Forall _ (_ :: _) |- _ => inversion H; subst; clear H
         | H : Forall _ [] |- _ => clear H
         end.
  repeat match goal with
         | H : Str.is_digit _ = true |- _ =>
             unfold Str.is_digit in H; rewrite andb_true_iff, !N.leb_le in H
         end.
  unfold compare. cbn [year month day Str.compare].
  rewrite N.compare_refl.
  do 8 (try next_char).
  unfold Str.digit_val; settle_compare.
Qed.

(** [fromisoformat] also takes the basic form and week dates, and what
    follows a complete basic form within ten bytes; it refuses a date cut
    short, a week that the year does not have, and a date that the
    calendar does not have. *)
Example fromisoformat_forms :
  map fromisoformat
      [lit "2024-01-10"; lit "20240110"; lit "2024-W02-3"; lit "2024W023";
       lit "2024-W02"; lit "2024W02"; lit "20240110xx"; lit "2020-W53-1"]
  = [Ok (mkdate 2024 1 10); Ok (mkdate 2024 1 10); Ok (mkdate 2024 1 10);
     Ok (mkdate 2024 1 10); Ok (mkdate 2024 1 8); Ok (mkdate 2024 1 8);
     Ok (mkdate 2024 1 10); Ok (mkdate 2020 12 28)]
  /\ map fromisoformat
         [lit "2024-1-10"; lit "2024-01-1"; lit "2021-W53-1"; lit "2023-02-29";
          lit "0000-W01-1"; lit "9999-W52-7"; lit "2024-01-10 "; lit ""]
     = repeat (Raise ValueError) 8.
Proof. split; reflexivity. Qed.

End Isoformat.

(* ===================================================================== *)
(** * The statistics of a day *)
(* ===================================================================== *)

Section Statistics.
Import Storage.

Lemma py_max_ge_init (l : list Z) (x : Z) : x <= py_max x l.
Proof.
  unfold py_max. revert x. induction l as [|y l IH]; intros x; cbn; [lia|].
  specialize (IH (Z.max x y)). lia.
Qed.

Lemma py_max_upper (l : list Z) (x : Z) : Forall (fun y => y <= py_max x l) (x :: l).
Proof.
  constructor; [apply py_max_ge_init|].
  unfold py_max. revert x. induction l as [|y l IH]; intros x; cbn; constructor.
  - pose proof (py_max_ge_init l (Z.max x y)) as H. unfold py_max in H. lia.
  - apply IH.
Qed.

Lemma py_max_in (l : list Z) (x : Z) : In (py_max x l) (x :: l).
Proof.
  unfold py_max. revert x. induction l as [|y l IH]; intros x; cbn; [auto|].
  destruct (IH (Z.max x y)) as [H | H]; [|auto].
  rewrite <- H. destruct (Z.max_spec x y) as [[_ ->] | [_ ->]]; auto.
Qed.

Lemma py_min_le_init (l : list Z) (x : Z) : py_min x l <= x.
Proof.
  unfold py_min. revert x. induction l as [|y l IH]; intros x; cbn; [lia|].
  specialize (IH (Z.min x y)). lia.
Qed.

Lemma py_min_lower (l : list Z) (x : Z) : Forall (fun y => py_min x l <= y) (x :: l).
Proof.
  constructor; [apply py_min_le_init|].
  unfold py_min. revert x. induction l as [|y l IH]; intros x; cbn; constructor.
  - pose proof (py_min_le_init l (Z.min x y)) as H. unfold py_min in H. lia.
  - apply IH.
Qed.

Lemma py_min_in (l : list Z) (x : Z) : In (py_min x l) (x :: l).
Proof.
  unfold py_min. revert x. induction l as [|y l IH]; intros x; cbn; [auto|].
  destruct (IH (Z.min x y)) as [H | H]; [|auto].
  rewrite <- H. destruct (Z.min_spec x y) as [[_ ->] | [_ ->]]; auto.
Qed.

Lemma last_cons (l : list Z) (x y : Z) : last (y :: l) x = last l y.
Proof.
  revert x y. induction l as [|z l IH]; intros x y; [reflexivity|].
  change (last (y :: z :: l) x) with (last (z :: l) x).
  rewrite (IH x z), (IH y z). reflexivity.
Qed.

Lemma last_nth_error (l : list Z) (x : Z) :
  nth_error (x :: l) (List.length l) = Some (last l x).
Proof.
  revert x. induction l as [|y l IH]; intros x; [reflexivity|].
  cbn [List.length nth_error]. rewrite IH, last_cons. reflexivity.
Qed.

(** C1.  On a day whose sets [S] are not empty, [start] is the first element
    of [S], [end] the last one, [change] is [end - start], [best] is the
    greatest element of [S] and [worst] the least; and each of the five is
    [None] exactly when [S] is empty. *)
Theorem C1_derived_statistics (d : EloDay Z) :
  (sets d <> [] ->
   exists s e b w : Z,
     start d = Some s /\ nth_error (sets d) 0 = Some s
     /\ end_ d = Some e /\ nth_error (sets d) (List.length (sets d) - 1) = Some e
     /\ change d = Some (e - s)
     /\ best d = Some b /\ In b (sets d) /\ Forall (fun x => x <= b) (sets d)
     /\ worst d = Some w /\ In w (sets d) /\ Forall (fun x => w <= x) (sets d))
  /\ (start d = None <-> sets d = [])
  /\ (end_ d = None <-> sets d = [])
  /\ (change d = None <-> sets d = [])
  /\ (best d = None <-> sets d = [])
  /\ (worst d = None <-> sets d = []).
Proof.
  unfold start, end_, change, best, worst.
  destruct (sets d) as [|x l] eqn:E.
  - split; [intros H; now destruct H | repeat split; auto].
  - split.
    + intros _. exists x, (last l x), (py_max x l), (py_min x l).
      repeat split; auto.
      * cbn [List.length]. rewrite Nat.sub_1_r. cbn [Nat.pred]. apply last_nth_error.
      * apply py_max_in.
      * apply py_max_upper.
      * apply py_min_in.
      * apply py_min_lower.
    + repeat split; intros H; discriminate H.
Qed.

(** The day of the specification: the sets 1500, 1550, 1490. *)
Lemma C1_derived_statistics_witness :
  exists s e b w : Z,
    start Sample.day3 = Some s /\ nth_error (sets Sample.day3) 0 = Some s
    /\ end_ Sample.day3 = Some e
    /\ nth_error (sets Sample.day3) (List.length (sets Sample.day3) - 1) = Some e
    /\ change Sample.day3 = Some (e - s)
    /\ best Sample.day3 = Some b /\ In b (sets Sample.day3)
    /\ Forall (fun x => x <= b) (sets Sample.day3)
    /\ worst Sample.day3 = Some w /\ In w (sets Sample.day3)
    /\ Forall (fun x => w <= x) (sets Sample.day3).
Proof.
  apply (proj1 (C1_derived_statistics Sample.day3)).
  discriminate.
Defined.

Example statistics_of_the_specification :
  (start Sample.day3, end_ Sample.day3, change Sample.day3,
   best Sample.day3, worst Sample.day3)
  = (Some 1500, Some 1490, Some (-10), Some 1550, Some 1490).
Proof. reflexivity. Qed.

End Statistics.

(* ===================================================================== *)
(** * [render_table] *)
(* ===================================================================== *)

Section Table.
Import Cli.

Lemma nth_error_middle {A} (pre post : list A) (x : A) :
  nth_error (pre ++ x :: post) (List.length pre) = Some x.
Proof. induction pre as [|y pre IH]; cbn; auto. Qed.

Lemma update_middle (pre post : list nat) (w v : nat) :
  update (List.length pre) v (pre ++ w :: post) = pre ++ v :: post.
Proof. induction pre as [|y pre IH]; cbn; [reflexivity | now rewrite IH]. Qed.

Lemma widen_zipmax (row : list str) :
  forall pre post : list nat,
    List.length row = List.length post ->
    widen (List.length pre) (pre ++ post) row = Ok (pre ++ Aux.zipmax post row).
Proof.
  induction row as [|v row IH]; intros pre [|w post] H; try discriminate H.
  - reflexivity.
  - cbn [widen]. rewrite nth_error_middle, update_middle.
    replace (S (List.length pre)) with (List.length (pre ++ [Nat.max w (Str.len v)]))
      by (rewrite length_app; cbn; lia).
    replace (pre ++ Nat.max w (Str.len v) :: post)
      with ((pre ++ [Nat.max w (Str.len v)]) ++ post)
      by (rewrite <- app_assoc; reflexivity).
    rewrite IH by (cbn in H; lia).
    rewrite <- app_assoc. reflexivity.
Qed.

Lemma zipmax_length (ws : list nat) (row : list str) :
  List.length row = List.length ws -> List.length (Aux.zipmax ws row) = List.length ws.
Proof.
  intros H. unfold Aux.zipmax. rewrite length_map, length_combine. lia.
Qed.

Lemma widen_rows_fold (rows : list (list str)) :
  forall ws : list nat,
    Forall (fun row => List.length row = List.length ws) rows ->
    widen_rows ws rows = Ok (fold_left Aux.zipmax rows ws).
Proof.
  induction rows as [|row rows IH]; intros ws H; [reflexivity|].
  inversion H as [|? ? Hrow Hrows]; subst.
  cbn [widen_rows fold_left].
  pose proof (widen_zipmax row [] ws Hrow) as E. cbn [List.length app] in E.
  rewrite E. cbn [rbind].
  apply IH. rewrite zipmax_length by exact Hrow. exact Hrows.
Qed.

Lemma zipmax_nth (ws : list nat) (row : list str) (j : nat) :
  List.length row = List.length ws -> (j < List.length ws)%nat ->
  nth j (Aux.zipmax ws row) O = Nat.max (nth j ws O) (Str.len (nth j row [])).
Proof.
  revert row j. induction ws as [|w ws IH]; intros [|v row] j H Hj; cbn in *; try lia.
  destruct j; [reflexivity|]. apply IH; lia.
Qed.

Lemma fold_zipmax_length (rows : list (list str)) :
  forall ws : list nat,
    Forall (fun row => List.length row = List.length ws) rows ->
    List.length (fold_left Aux.zipmax rows ws) = List.length ws.
Proof.
  induction rows as [|row rows IH]; intros ws H; [reflexivity|].
  inversion H as [|? ? Hrow Hrows]; subst. cbn [fold_left].
  rewrite IH; rewrite zipmax_length by exact Hrow; auto.
Qed.

Lemma fold_zipmax_nth (rows : list (list str)) :
  forall (ws : list nat) (j : nat),
    Forall (fun row => List.length row = List.length ws) rows ->
    (j < List.length ws)%nat ->
    nth j (fold_left Aux.zipmax rows ws) O
    = list_max (nth j ws O :: map (fun row => Str.len (nth j row [])) rows).
Proof.
  induction rows as [|row rows IH]; intros ws j H Hj.
  - unfold list_max. cbn. lia.
  - inversion H as [|? ? Hrow Hrows]; subst. cbn [fold_left map].
    rewrite IH.
    + rewrite zipmax_nth by assumption. unfold list_max. cbn [fold_right]. symmetry. apply Nat.max_assoc.
    + rewrite zipmax_length by exact Hrow. exact Hrows.
    + rewrite zipmax_length by exact Hrow. exact Hj.
Qed.

Lemma widths_agree (headers : list str) (rows : list (list str)) :
  Forall (fun row => List.length row = List.length headers) rows ->
  fold_left Aux.zipmax rows (map Str.len headers) = Spec.column_widths headers rows.
Proof.
  intros H.
  assert (H' : Forall (fun row => List.length row = List.length (map Str.len headers)) rows)
    by (rewrite length_map; exact H).
  apply (nth_ext _ _ O O).
  - rewrite (fold_zipmax_length rows _ H'). unfold Spec.column_widths.
    now rewrite !length_map, length_seq.
  - intros j Hj. rewrite (fold_zipmax_length rows _ H'), length_map in Hj.
    rewrite (fold_zipmax_nth rows _ j H') by (rewrite length_map; exact Hj).
    unfold Spec.column_widths.
    rewrite (nth_indep (map (Spec.column_width headers rows) (seq 0 (List.length headers)))
                       O (Spec.column_width headers rows O))
      by (rewrite length_map, length_seq; exact Hj).
    rewrite map_nth, seq_nth by exact Hj. cbn [Nat.add].
    unfold Spec.column_width.
    change O with (Str.len []) at 1. rewrite map_nth. reflexivity.
Qed.

Lemma format_parts_combine (row : list str) :
  forall pre post : list nat,
    (List.length row <= List.length post)%nat ->
    format_parts (List.length pre) (pre ++ post) row
    = Ok (map (fun p => Str.ljust (fst p) (snd p)) (combine row post)).
Proof.
  induction row as [|v row IH]; intros pre post H; [reflexivity|].
  destruct post as [|w post]; [cbn in H; lia|].
  cbn [format_parts]. rewrite nth_error_middle.
  replace (S (List.length pre)) with (List.length (pre ++ [w]))
    by (rewrite length_app; cbn; lia).
  replace (pre ++ w :: post) with ((pre ++ [w]) ++ post)
    by (rewrite <- app_assoc; reflexivity).
  rewrite IH by (cbn in H; lia). reflexivity.
Qed.

Lemma format_row_line (ws : list nat) (row : list str) :
  (List.length row <= List.length ws)%nat ->
  format_row ws row = Ok (Spec.line ws row).
Proof.
  intros H. unfold format_row.
  pose proof (format_parts_combine row [] ws H) as E. cbn [List.length app] in E.
  rewrite E. reflexivity.
Qed.

Lemma traverse_format_rows (ws : list nat) (rows : list (list str)) :
  Forall (fun row => List.length row = List.length ws) rows ->
  traverse (format_row ws) rows = Ok (map (Spec.line ws) rows).
Proof.
  induction 1 as [|row rows Hrow _ IH]; [reflexivity|].
  cbn [traverse map]. rewrite format_row_line by lia. cbn [rbind].
  rewrite IH. reflexivity.
Qed.

Lemma column_widths_length (headers : list str) (rows : list (list str)) :
  List.length (Spec.column_widths headers rows) = List.length headers.
Proof. unfold Spec.column_widths. now rewrite length_map, length_seq. Qed.

Lemma ljust_own_length (s : str) : Str.ljust s (Str.len s) = s.
Proof. unfold Str.ljust. rewrite Nat.sub_diag. cbn. apply app_nil_r. Qed.

Lemma line_of_headers (headers : list str) :
  Spec.line (map Str.len headers) headers = Str.join (lit " | ") headers.
Proof.
  unfold Spec.line. f_equal.
  induction headers as [|h headers IH]; [reflexivity|].
  cbn [map combine fst snd]. rewrite ljust_own_length, IH. reflexivity.
Qed.

(** [render_table] against the table of the specification. *)
Lemma render_table_table (headers : list str) (rows : list (list str)) :
  Forall (fun row => List.length row = List.length headers) rows ->
  render_table headers rows = Ok (Spec.table headers rows).
Proof.
  intros H. unfold render_table.
  rewrite widen_rows_fold by (rewrite length_map; exact H).
  rewrite (widths_agree headers rows H). cbn [rbind].
  set (ws := Spec.column_widths headers rows).
  assert (Hws : List.length ws = List.length headers) by apply column_widths_length.
  rewrite format_row_line by lia. cbn [rbind].
  rewrite traverse_format_rows by (rewrite Hws; exact H). cbn [rbind].
  unfold Spec.table. fold ws.
  destruct rows; reflexivity.
Qed.

(** With no row, the header line as it is. *)
Lemma render_table_no_rows (headers : list str) :
  render_table headers [] = Ok (Str.join (lit " | ") headers).
Proof.
  unfold render_table. cbn [widen_rows rbind traverse].
  rewrite format_row_line by (rewrite length_map; lia). cbn [rbind].
  rewrite line_of_headers. reflexivity.
Qed.

(** C8.  When every row has as many cells as there are headers,
    [render_table] gives the table of the specification: the width of a
    column is the greatest length of its header and cells, every cell is
    left-justified to it, the columns are joined with [" | "], and the
    separator is made of dashes joined with ["-+-"]; with no row, the
    result is the header line alone. *)
Theorem C8_render_table (headers : list str) (rows : list (list str)) :
  Forall (fun row => List.length row = List.length headers) rows ->
  render_table headers rows = Ok (Spec.table headers rows)
  /\ render_table headers [] = Ok (Str.join (lit " | ") headers).
Proof.
  intros H. split.
  - now apply render_table_table.
  - apply render_table_no_rows.
Qed.

Lemma C8_render_table_witness :
  render_table Sample.headers2 Sample.rows2
  = Ok (Spec.table Sample.headers2 Sample.rows2)
  /\ render_table Sample.headers2 [] = Ok (Str.join (lit " | ") Sample.headers2).
Proof.
  apply (C8_render_table Sample.headers2 Sample.rows2).
  repeat constructor.
Defined.

Example render_table_example :
  render_table Sample.headers2 Sample.rows2
  = Ok (lit "Date       | Sets" ++ [Sys.newline] ++
        lit "-----------+-----" ++ [Sys.newline] ++
        lit "2024-01-10 | 3   " ++ [Sys.newline] ++
        lit "2024-01-11 | 12  ")
  /\ render_table Sample.headers2 [] = Ok (lit "Date | Sets").
Proof. split; reflexivity. Qed.

End Table.

(* ===================================================================== *)
(** * Facts about dictionaries and sorting *)
(* ===================================================================== *)

Section Dictionaries.
Context {V : Type}.

Lemma get_some_in (k : str) (v : V) (d : Dict.dict V) :
  Dict.get k d = Some v -> In (k, v) d.
Proof.
  induction d as [|[k' v'] d IH]; cbn; [discriminate|].
  destruct (Str.eqb k k') eqn:E.
  - apply str_eqb_eq in E. intros H. inversion H; subst. auto.
  - auto.
Qed.

Lemma get_none (k : str) (d : Dict.dict V) :
  Dict.get k d = None <-> ~ In k (Dict.keys d).
Proof.
  induction d as [|[k' v'] d IH]; cbn; [tauto|].
  destruct (Str.eqb k k') eqn:E.
  - apply str_eqb_eq in E. subst. split; [discriminate | intros H; exfalso; auto].
  - apply str_eqb_neq in E. rewrite IH. split; [intros H [C | C]; auto | auto].
Qed.

Lemma get_in (k : str) (v : V) (d : Dict.dict V) :
  NoDup (Dict.keys d) -> In (k, v) d -> Dict.get k d = Some v.
Proof.
  induction d as [|[k' v'] d IH]; cbn; [tauto|].
  intros N [H | H]; inversion N as [|? ? Hnotin N']; subst.
  - inversion H; subst. now rewrite str_eqb_refl.
  - destruct (Str.eqb k k') eqn:E; [|auto].
    apply str_eqb_eq in E. subst. exfalso. apply Hnotin.
    apply (in_map fst) in H. exact H.
Qed.

Lemma get_perm (k : str) (d d' : Dict.dict V) :
  NoDup (Dict.keys d) -> Permutation d d' -> Dict.get k d = Dict.get k d'.
Proof.
  intros N P.
  assert (N' : NoDup (Dict.keys d'))
    by (eapply Permutation_NoDup; [apply Permutation_map; exact P | exact N]).
  destruct (Dict.get k d) as [v|] eqn:E.
  - symmetry. apply get_in; [exact N'|].
    eapply Permutation_in; [exact P | now apply get_some_in].
  - symmetry. apply get_none. apply get_none in E. intros C. apply E.
    eapply Permutation_in; [apply Permutation_map; symmetry; exact P | exact C].
Qed.

Lemma set_fresh (k : str) (v : V) (d : Dict.dict V) :
  Dict.get k d = None -> Dict.set k v d = d ++ [(k, v)].
Proof.
  induction d as [|[k' v'] d IH]; cbn; [reflexivity|].
  destruct (Str.eqb k k'); [discriminate|]. intros H. now rewrite IH.
Qed.

Lemma insert_item_perm (kv : str * V) (l : Dict.dict V) :
  Permutation (Dict.insert_item kv l) (kv :: l).
Proof.
  induction l as [|kv' l IH]; cbn; [reflexivity|].
  destruct (Str.leb (fst kv) (fst kv')); [reflexivity|].
  rewrite IH. apply perm_swap.
Qed.

Lemma sorted_items_perm (l : Dict.dict V) : Permutation (Dict.sorted_items l) l.
Proof.
  induction l as [|kv l IH]; cbn; [reflexivity|].
  rewrite insert_item_perm. now constructor.
Qed.

Lemma insert_item_sorted (kv : str * V) (l : Dict.dict V) :
  Sorted Aux.key_le l -> Sorted Aux.key_le (Dict.insert_item kv l).
Proof.
  induction l as [|kv' l IH]; cbn; intros S; [repeat constructor|].
  destruct (Str.leb (fst kv) (fst kv')) eqn:E.
  - constructor; [exact S | constructor; exact E].
  - inversion S as [|? ? S' Hd]; subst. constructor; [now apply IH|].
    destruct l as [|kv'' l]; cbn.
    + constructor. now apply str_leb_total.
    + destruct (Str.leb (fst kv) (fst kv'')).
      * constructor. now apply str_leb_total.
      * constructor. now inversion Hd.
Qed.

Lemma sorted_items_sorted (l : Dict.dict V) : Sorted Aux.key_le (Dict.sorted_items l).
Proof.
  induction l as [|kv l IH]; cbn; [constructor | now apply insert_item_sorted].
Qed.

Lemma sorted_items_id (l : Dict.dict V) : Sorted Aux.key_le l -> Dict.sorted_items l = l.
Proof.
  induction l as [|kv l IH]; cbn; intros S; [reflexivity|].
  inversion S as [|? ? S' Hd]; subst. rewrite IH by exact S'.
  destruct l as [|kv' l]; cbn; [reflexivity|].
  inversion Hd as [|? ? Hle]; subst. unfold Aux.key_le in Hle. now rewrite Hle.
Qed.

Lemma sorted_items_idem (l : Dict.dict V) :
  Dict.sorted_items (Dict.sorted_items l) = Dict.sorted_items l.
Proof. apply sorted_items_id, sorted_items_sorted. Qed.

Lemma keys_insert_item (kv : str * V) (l : Dict.dict V) :
  Dict.keys (Dict.insert_item kv l) = Dict.insert_sorted (fst kv) (Dict.keys l).
Proof.
  induction l as [|kv' l IH]; cbn; [reflexivity|].
  destruct (Str.leb (fst kv) (fst kv')); cbn; [reflexivity|].
  f_equal. exact IH.
Qed.

Lemma keys_sorted_items (l : Dict.dict V) :
  Dict.keys (Dict.sorted_items l) = Dict.sorted (Dict.keys l).
Proof.
  induction l as [|kv l IH]; cbn [Dict.sorted_items]; [reflexivity|].
  rewrite keys_insert_item, IH. reflexivity.
Qed.

Lemma lookup_all (d l : Dict.dict V) :
  NoDup (Dict.keys d) -> (forall kv, In kv l -> In kv d) ->
  flat_map (fun k => match Dict.get k d with Some v => [v] | None => [] end)
           (Dict.keys l)
  = map snd l.
Proof.
  intros N. induction l as [|[k v] l IH]; intros H; cbn; [reflexivity|].
  rewrite (get_in k v d N) by (apply H; now left).
  cbn. f_equal. apply IH. intros kv Hkv. apply H. now right.
Qed.

End Dictionaries.

Section DictionaryMaps.
Context {A B : Type} (f : A -> B).

Lemma insert_item_map_values (kv : str * A) (l : Dict.dict A) :
  Dict.insert_item (fst kv, f (snd kv)) (Aux.map_values f l)
  = Aux.map_values f (Dict.insert_item kv l).
Proof.
  unfold Aux.map_values.
  induction l as [|kv' l IH]; cbn; [reflexivity|].
  destruct (Str.leb (fst kv) (fst kv')); cbn; [reflexivity|].
  f_equal. exact IH.
Qed.

Lemma sorted_items_map_values (l : Dict.dict A) :
  Dict.sorted_items (Aux.map_values f l) = Aux.map_values f (Dict.sorted_items l).
Proof.
  unfold Aux.map_values.
  induction l as [|kv l IH]; cbn [map Dict.sorted_items]; [reflexivity|].
  rewrite IH. apply insert_item_map_values.
Qed.

Lemma keys_map_values (l : Dict.dict A) : Dict.keys (Aux.map_values f l) = Dict.keys l.
Proof. unfold Dict.keys, Aux.map_values. rewrite map_map. reflexivity. Qed.

Lemma get_map_values (k : str) (l : Dict.dict A) :
  Dict.get k (Aux.map_values f l) = option_map f (Dict.get k l).
Proof.
  unfold Aux.map_values.
  induction l as [|[k' v] l IH]; cbn; [reflexivity|].
  destruct (Str.eqb k k'); [reflexivity | exact IH].
Qed.

End DictionaryMaps.

(* ===================================================================== *)
(** * Saving and loading *)
(* ===================================================================== *)

Section RoundTrip.
Import Json Storage.

Lemma save_data_run (data : EloData json) (w : Sys.world) :
  save_data data w
  = (Ok tt, Sys.mkworld true (Some (JsonLib.dump (to_json data)))
                        (Sys.stdin w) (Sys.stdout w) (Sys.stderr w)).
Proof. reflexivity. Qed.

Lemma load_data_run (w : Sys.world) :
  load_data w
  = (match Sys.file w with
     | None => Ok (mkEloData [])
     | Some c => rbind (JsonLib.load c) from_json
     end,
     Sys.mkworld true (Sys.file w) (Sys.stdin w) (Sys.stdout w) (Sys.stderr w)).
Proof.
  unfold load_data, ensure_storage_dir, Sys.bind, Sys.mkdir, Sys.exists_file,
    Sys.read_file, Sys.lift.
  cbn. destruct (Sys.file w) as [c|]; cbn; [|reflexivity].
  destruct (JsonLib.load c); cbn; reflexivity.
Qed.

Lemma from_dict_to_dict (d : EloDay json) : from_dict (date d) (to_dict d) = Ok d.
Proof. destruct d. reflexivity. Qed.

Lemma to_json_values (data : EloData json) :
  to_json data = JObj (Aux.map_values to_dict (days data)).
Proof. reflexivity. Qed.

Lemma raw_data_values (data : EloData Z) :
  days (raw_data data) = Aux.map_values raw_day (days data).
Proof. reflexivity. Qed.

Lemma sort_keys_ints (l : list Z) : map JsonLib.sort_keys (map JInt l) = map JInt l.
Proof. rewrite map_map. reflexivity. Qed.

Lemma sort_keys_raw_day (d : EloDay Z) :
  JsonLib.sort_keys (to_dict (raw_day d)) = to_dict (raw_day d).
Proof.
  unfold to_dict, raw_day. cbn [sets JsonLib.sort_keys map fst snd Dict.sorted_items
                                Dict.insert_item].
  now rewrite sort_keys_ints.
Qed.

(** What [json.dump] writes for a store of integer sets: its days in the
    order of the keys. *)
Lemma sort_keys_raw_store (l : Dict.dict (EloDay Z)) :
  JsonLib.sort_keys (JObj (Aux.map_values to_dict (Aux.map_values raw_day l)))
  = JObj (Dict.sorted_items (Aux.map_values to_dict (Aux.map_values raw_day l))).
Proof.
  cbn [JsonLib.sort_keys]. do 2 f_equal.
  unfold Aux.map_values. rewrite !map_map. cbn [fst snd].
  apply map_ext. intros [k d]. cbn [fst snd]. now rewrite sort_keys_raw_day.
Qed.

Lemma from_items_to_dict (l : Dict.dict (EloDay json)) :
  forall acc : Dict.dict (EloDay json),
    Forall (fun kv => Datetime.fromisoformat (fst kv) = Ok (date (snd kv))) l ->
    NoDup (Dict.keys (acc ++ l)) ->
    from_items (Aux.map_values to_dict l) acc = Ok (acc ++ l).
Proof.
  induction l as [|[k d] l IH]; intros acc W N.
  - cbn. now rewrite app_nil_r.
  - inversion W as [|? ? Wk Wl]; subst. cbn [fst snd] in Wk.
    cbn [Aux.map_values map from_items fst snd]. rewrite Wk. cbn [rbind].
    rewrite from_dict_to_dict. cbn [rbind].
    assert (Hfresh : Dict.get k acc = None).
    { apply get_none. intros C. unfold Dict.keys in N. rewrite map_app in N.
      apply NoDup_remove_2 in N. apply N. apply in_or_app. now left. }
    rewrite (set_fresh k d acc Hfresh).
    fold (Aux.map_values to_dict l).
    rewrite IH; [now rewrite <- app_assoc | exact Wl | now rewrite <- app_assoc].
Qed.

(** A store that the program builds is one that [load_data] could have
    returned. *)
Lemma store_inv_loaded {V} (data : EloData V) :
  Spec.store_inv data -> Aux.loaded_inv data.
Proof.
  intros [N W]. split; [exact N|].
  eapply Forall_impl; [|exact W]. intros [k d] [Vd E]. cbn [fst snd] in *.
  rewrite E. now apply fromisoformat_isoformat.
Qed.

Lemma store_inv_raw (data : EloData Z) :
  Spec.store_inv data -> Spec.store_inv (raw_data data).
Proof.
  intros [N W]. split.
  - rewrite raw_data_values, keys_map_values. exact N.
  - rewrite raw_data_values. unfold Aux.map_values. apply Forall_map.
    exact W.
Qed.

Lemma store_inv_sorted {V} (data : EloData V) :
  Spec.store_inv data -> Spec.store_inv (mkEloData (Dict.sorted_items (days data))).
Proof.
  intros [N W]. split; cbn [days].
  - eapply Permutation_NoDup; [|exact N].
    apply Permutation_map. symmetry. apply sorted_items_perm.
  - eapply Permutation_Forall; [|exact W]. symmetry. apply sorted_items_perm.
Qed.

(** Loading what [save_data] wrote for a store of integer sets gives the
    store back, its days in the order of the keys. *)
Lemma load_after_save (data : EloData Z) (w : Sys.world) :
  Spec.store_inv data ->
  fst (load_data (snd (save_data (raw_data data) w)))
  = Ok (mkEloData (Dict.sorted_items (days (raw_data data)))).
Proof.
  intros I. rewrite save_data_run, load_data_run. cbn [fst snd Sys.file].
  cbn [JsonLib.dump JsonLib.load rbind].
  rewrite to_json_values, raw_data_values, sort_keys_raw_store.
  cbn [from_json]. rewrite sorted_items_map_values.
  pose proof (store_inv_loaded _ (store_inv_sorted _ (store_inv_raw _ I))) as [N W].
  cbn [days] in N, W. rewrite raw_data_values in N, W.
  rewrite (from_items_to_dict _ [] W N). reflexivity.
Qed.

(** C2.  For a store [D] of integer sets, none of them empty: saving [D],
    loading the file and saving again succeeds; the store loaded has the
    keys of [D], each with the day of [D], dates and sets in their order;
    and the second save writes the content that the first one wrote. *)
Theorem C2_save_load_save (D : EloData Z) (w : Sys.world) :
  Spec.store_inv D ->
  Forall (fun kv => sets (snd kv) <> []) (days D) ->
  exists (D' : EloData json) (w1 w2 w3 : Sys.world),
    save_data (raw_data D) w = (Ok tt, w1)
    /\ load_data w1 = (Ok D', w2)
    /\ save_data D' w2 = (Ok tt, w3)
    /\ Spec.same_store D' (raw_data D)
    /\ Sys.file w1 = Some (JsonLib.dump (to_json (raw_data D)))
    /\ Sys.file w3 = Sys.file w1.
Proof.
  intros I _.
  pose proof (load_after_save D w I) as L.
  rewrite save_data_run in L. cbn [snd] in L.
  set (w1 := Sys.mkworld true (Some (JsonLib.dump (to_json (raw_data D))))
                         (Sys.stdin w) (Sys.stdout w) (Sys.stderr w)) in *.
  set (D' := mkEloData (Dict.sorted_items (days (raw_data D)))) in *.
  exists D', w1, (snd (load_data w1)), (snd (save_data D' (snd (load_data w1)))).
  split; [apply save_data_run|].
  split; [rewrite <- L; now destruct (load_data w1)|].
  split; [now rewrite save_data_run|].
  split; [|split].
  - intros k. subst D'. cbn [days]. symmetry. apply get_perm.
    + apply (store_inv_raw D I).
    + symmetry. apply sorted_items_perm.
  - reflexivity.
  - rewrite save_data_run. subst w1 D'. cbn [Sys.file snd]. f_equal.
    unfold JsonLib.dump. f_equal.
    rewrite !to_json_values. cbn [days].
    rewrite raw_data_values.
    rewrite (sorted_items_map_values raw_day), !sort_keys_raw_store.
    rewrite <- !sorted_items_map_values. now rewrite sorted_items_idem.
Qed.

Lemma C2_save_load_save_witness :
  exists (D' : EloData json) (w1 w2 w3 : Sys.world),
    save_data (raw_data Sample.store) Sample.fresh = (Ok tt, w1)
    /\ load_data w1 = (Ok D', w2)
    /\ save_data D' w2 = (Ok tt, w3)
    /\ Spec.same_store D' (raw_data Sample.store)
    /\ Sys.file w1 = Some (JsonLib.dump (to_json (raw_data Sample.store)))
    /\ Sys.file w3 = Sys.file w1.
Proof.
  apply (C2_save_load_save Sample.store Sample.fresh).
  - split.
    + repeat constructor; cbn; intros H;
        repeat (destruct H as [H | H]; [discriminate H|]); exact H.
    + repeat constructor.
  - repeat constructor; discriminate.
Defined.

(** The file after the first save of that store: the keys in order. *)
Example saved_content_example :
  Sys.file (snd (save_data (raw_data Sample.store) Sample.fresh))
  = Some (Doc (JObj
      [(lit "2024-01-10", JObj [(lit "sets", JArr [JInt 1500; JInt 1550; JInt 1490])]);
       (lit "2024-01-11", JObj [(lit "sets", JArr [JInt 1510])])])).
Proof. reflexivity. Qed.

End RoundTrip.

(* ===================================================================== *)
(** * The invariant of a store, and its days in order *)
(* ===================================================================== *)

Section Invariant.
Import Json Storage.

Lemma keys_set {V} (k : str) (v : V) (d : Dict.dict V) :
  Dict.keys (Dict.set k v d)
  = match Dict.get k d with
    | Some _ => Dict.keys d
    | None => Dict.keys d ++ [k]
    end.
Proof.
  unfold Dict.keys. induction d as [|[k' v'] d IH]; cbn; [reflexivity|].
  destruct (Str.eqb k k') eqn:E; cbn.
  - apply str_eqb_eq in E. now subst.
  - rewrite IH. now destruct (Dict.get k d).
Qed.

Lemma set_nodup {V} (k : str) (v : V) (d : Dict.dict V) :
  NoDup (Dict.keys d) -> NoDup (Dict.keys (Dict.set k v d)).
Proof.
  intros N. rewrite keys_set. destruct (Dict.get k d) eqn:E; [exact N|].
  apply get_none in E.
  apply (Permutation_NoDup (l := k :: Dict.keys d)).
  - apply Permutation_cons_append.
  - now constructor.
Qed.

Lemma set_forall {V} (P : str * V -> Prop) (k : str) (v : V) (d : Dict.dict V) :
  P (k, v) -> Forall P d -> Forall P (Dict.set k v d).
Proof.
  intros Hk. induction 1 as [|[k' v'] d Hx Hd IH]; cbn; [now repeat constructor|].
  destruct (Str.eqb k k'); constructor; auto.
Qed.

Lemma get_set_same {V} (k : str) (v : V) (d : Dict.dict V) :
  Dict.get k (Dict.set k v d) = Some v.
Proof.
  induction d as [|[k' v'] d IH]; cbn; [now rewrite str_eqb_refl|].
  destruct (Str.eqb k k') eqn:E; cbn; [now rewrite str_eqb_refl | now rewrite E].
Qed.

Lemma store_inv_empty {V} : Spec.store_inv (@mkEloData V []).
Proof. split; constructor. Qed.

Lemma loaded_inv_empty {V} : Aux.loaded_inv (@mkEloData V []).
Proof. split; constructor. Qed.

Lemma from_items_inv (items : list (str * json)) :
  forall acc ds : Dict.dict (EloDay json),
    Aux.loaded_inv (mkEloData acc) ->
    from_items items acc = Ok ds ->
    Aux.loaded_inv (mkEloData ds).
Proof.
  induction items as [|[k v] items IH]; intros acc ds I H; cbn in H.
  - inversion H; subst. exact I.
  - destruct (Datetime.fromisoformat k) as [day| |] eqn:Ek; try discriminate H.
    cbn [rbind] in H.
    destruct (from_dict day v) as [d| |] eqn:Ed; try discriminate H.
    cbn [rbind] in H. apply (IH _ _) in H; [exact H|].
    destruct I as [N W]. cbn [days] in *. split; cbn [days].
    + now apply set_nodup.
    + apply set_forall; [|exact W]. cbn [fst snd]. rewrite Ek. f_equal.
      unfold from_dict in Ed. destruct v; try discriminate Ed.
      destruct (py_list _); try discriminate Ed. cbn in Ed. now inversion Ed.
Qed.

(** In every store that [from_json] returns the keys are distinct and
    read as the dates of their days. *)
Lemma from_json_inv (raw : json) (data : EloData json) :
  from_json raw = Ok data -> Aux.loaded_inv data.
Proof.
  unfold from_json. destruct raw; try discriminate.
  destruct (from_items items []) as [d| |] eqn:E; try discriminate.
  cbn. intros H. inversion H; subst.
  apply (from_items_inv items [] d loaded_inv_empty E).
Qed.

(** So does every store that [load_data] returns. *)
Lemma load_data_inv (w w' : Sys.world) (data : EloData json) :
  load_data w = (Ok data, w') -> Aux.loaded_inv data.
Proof.
  rewrite load_data_run. intros H. inversion H as [[H1 H2]]. clear H H2.
  destruct (Sys.file w) as [c|].
  - destruct (JsonLib.load c) as [raw| |]; try discriminate H1.
    cbn [rbind] in H1. now apply from_json_inv in H1.
  - inversion H1. apply loaded_inv_empty.
Qed.

(** [get_day] keeps the invariant, and so does the [append] that follows
    it in [cmd_record]. *)
Lemma get_day_inv {V} (data : EloData V) (day : Datetime.date) :
  Datetime.valid day = true ->
  Spec.store_inv data -> Spec.store_inv (fst (get_day data day)).
Proof.
  intros Vd [N W]. unfold get_day.
  destruct (Dict.get (Datetime.isoformat day) (days data)) eqn:E; cbn [fst].
  - now split.
  - split; cbn [days].
    + now apply set_nodup.
    + apply set_forall; [|exact W]. cbn [fst snd date]. now split.
Qed.

Lemma append_set_inv {V} (key : str) (v : V) (data : EloData V) :
  Spec.store_inv data -> Spec.store_inv (append_set key v data).
Proof.
  intros [N W]. unfold append_set.
  destruct (Dict.get key (days data)) as [d|] eqn:E; [|now split].
  split; cbn [days].
  - now apply set_nodup.
  - apply set_forall; [|exact W]. cbn [fst snd date].
    apply get_some_in in E. rewrite Forall_forall in W. apply (W _ E).
Qed.

(** [sorted_days]: the days of the store, in the order of the keys. *)
Lemma sorted_days_items {V} (data : EloData V) :
  NoDup (Dict.keys (days data)) ->
  sorted_days data = map snd (Dict.sorted_items (days data)).
Proof.
  intros N. unfold sorted_days. rewrite <- keys_sorted_items.
  apply lookup_all; [exact N|].
  intros kv H. eapply Permutation_in; [apply sorted_items_perm | exact H].
Qed.

(** They are exactly the days of the store. *)
Lemma sorted_days_perm {V} (data : EloData V) :
  NoDup (Dict.keys (days data)) ->
  Permutation (sorted_days data) (map snd (days data)).
Proof.
  intros N. rewrite sorted_days_items by exact N.
  apply Permutation_map, sorted_items_perm.
Qed.

Lemma sorted_days_valid {V} (data : EloData V) :
  Aux.loaded_inv data ->
  Forall (fun d => Datetime.valid (date d) = true) (sorted_days data).
Proof.
  intros [N W]. rewrite sorted_days_items by exact N.
  apply Forall_map.
  eapply Permutation_Forall; [symmetry; apply sorted_items_perm|].
  eapply Forall_impl; [|exact W]. intros [k d] H. cbn [fst snd] in *.
  now apply fromisoformat_valid in H.
Qed.

Lemma date_compare_trans (a b c : Datetime.date) :
  Datetime.valid a = true -> Datetime.valid b = true -> Datetime.valid c = true ->
  Datetime.compare a b = Lt -> Datetime.compare b c = Lt -> Datetime.compare a c = Lt.
Proof.
  intros Va Vb Vc H1 H2.
  pose proof (compare_lt_toordinal a b Va Vb H1).
  pose proof (compare_lt_toordinal b c Vb Vc H2).
  destruct (Datetime.compare a c) eqn:E; [| reflexivity |].
  - apply compare_eq_inv in E. subst. lia.
  - assert (E' : Datetime.compare c a = Lt) by (rewrite compare_antisym, E; reflexivity).
    pose proof (compare_lt_toordinal c a Vc Va E'). lia.
Qed.

(** The items of a store in the order of the keys are in the order of the
    dates, each date later than the ones before. *)
Lemma sorted_items_ascending {V} (l : Dict.dict (EloDay V)) :
  Sorted Aux.key_le l -> NoDup (Dict.keys l) ->
  Forall (fun kv => Datetime.valid (date (snd kv)) = true
                    /\ fst kv = Datetime.isoformat (date (snd kv))) l ->
  Spec.ascending (map snd l).
Proof.
  unfold Spec.ascending.
  induction l as [|[k d] l IH]; intros S N W; cbn [map snd]; [constructor|].
  apply Sorted_inv in S. destruct S as [S' Hd].
  unfold Dict.keys in N. cbn [map fst] in N.
  apply NoDup_cons_iff in N. destruct N as [Hnotin N'].
  apply Forall_cons_iff in W. destruct W as [[Vd Wk] Wl]. cbn [fst snd] in Vd, Wk.
  specialize (IH S' N' Wl).
  constructor; [exact IH|].
  destruct l as [|[k' d'] l]; [constructor|].
  apply HdRel_inv in Hd. unfold Aux.key_le in Hd. cbn [fst] in Hd.
  pose proof Wl as Wl0. apply Forall_cons_iff in Wl0.
  destruct Wl0 as [[Vd' Wk'] Wl']. cbn [fst snd] in Vd', Wk'.
  assert (Hlt : Datetime.compare (date d) (date d') = Lt).
  { rewrite <- (isoformat_compare _ _ Vd Vd'), <- Wk, <- Wk'.
    apply str_leb_lt; [exact Hd|]. intros E. apply Hnotin. cbn [map fst]. now left. }
  cbn [map snd] in *. constructor; [exact Hlt|].
  apply StronglySorted_inv in IH. destruct IH as [_ Hall].
  rewrite Forall_map in Hall |- *. rewrite Forall_forall in Hall, Wl' |- *.
  intros kv Hin.
  apply (date_compare_trans (date d) (date d') (date (snd kv))).
  - exact Vd.
  - exact Vd'.
  - now apply Wl'.
  - exact Hlt.
  - now apply Hall.
Qed.

(** On a store of the invariant [sorted_days] is in ascending order of
    date. *)
Lemma sorted_days_ascending {V} (data : EloData V) :
  Spec.store_inv data -> Spec.ascending (sorted_days data).
Proof.
  intros I. pose proof (store_inv_sorted data I) as [N W]. cbn [days] in N, W.
  rewrite sorted_days_items by apply I.
  apply sorted_items_ascending; [apply sorted_items_sorted | exact N | exact W].
Qed.

(** The days of [sorted_days] are the values of the store. *)
Lemma sorted_days_in {V} (data : EloData V) (d : EloDay V) :
  NoDup (Dict.keys (days data)) ->
  In d (sorted_days data) <-> exists k, Dict.get k (days data) = Some d.
Proof.
  intros N. rewrite sorted_days_items by exact N. rewrite in_map_iff. split.
  - intros ([k d'] & <- & H). exists k. cbn [snd].
    apply (get_in k d' _ N).
    eapply Permutation_in; [apply sorted_items_perm | exact H].
  - intros [k H]. exists (k, d). split; [reflexivity|].
    eapply Permutation_in; [symmetry; apply sorted_items_perm | now apply get_some_in].
Qed.

Lemma ascending_filter {V} (f : EloDay V -> bool) (l : list (EloDay V)) :
  Spec.ascending l -> Spec.ascending (filter f l).
Proof.
  unfold Spec.ascending. induction 1 as [|d l S IH F]; cbn [filter]; [constructor|].
  destruct (f d); [|exact IH]. constructor; [exact IH|].
  rewrite Forall_forall in F |- *. intros x Hx. apply F.
  apply filter_In in Hx. tauto.
Qed.

Lemma ascending_skipn {V} (k : nat) (l : list (EloDay V)) :
  Spec.ascending l -> Spec.ascending (skipn k l).
Proof.
  unfold Spec.ascending. revert l. induction k as [|k IH]; intros l S; [exact S|].
  destruct l as [|d l]; [constructor|]. cbn [skipn]. apply IH.
  now inversion S.
Qed.

End Invariant.

(* ===================================================================== *)
(** * [load_data] *)
(* ===================================================================== *)

Section Loading.
Import Json Storage.

Lemma from_items_rejected (items : list (str * json)) :
  forall acc : Dict.dict (EloDay json),
    if existsb Spec.bad_entry items
    then exists e, from_items items acc = Raise e
    else exists ds, from_items items acc = Ok ds.
Proof.
  induction items as [|[k v] items IH]; intros acc; cbn [existsb from_items].
  - eauto.
  - unfold Spec.bad_entry at 1. cbn [fst snd]. unfold Spec.is_date.
    destruct (fromisoformat_cases k) as [(day & -> & _) | ->]; cbn [negb orb rbind];
      [|eauto].
    destruct v as [| b | n | bits | s | l | fields]; cbn [from_dict rbind orb]; eauto.
    destruct (Dict.get sets_key fields) as [x|]; cbn [py_list rbind].
    + destruct x; cbn [Spec.is_scalar py_list rbind orb]; eauto; apply IH.
    + apply IH.
Qed.

(** What [load_data] returns, by the content of the file. *)
Lemma load_data_rejected (w : Sys.world) (c : content) :
  Sys.file w = Some c ->
  if Spec.rejected c
  then exists e, fst (load_data w) = Raise e
  else exists data, fst (load_data w) = Ok data.
Proof.
  intros H. rewrite load_data_run, H. cbn [fst].
  destruct c as [bytes | text | j]; cbn [Spec.rejected JsonLib.load rbind];
    [eauto | eauto |].
  destruct j; cbn [from_json]; eauto.
  pose proof (from_items_rejected items []) as R.
  destruct (existsb Spec.bad_entry items); destruct R as [x ->]; cbn [rbind]; eauto.
Qed.

(** C7, as amended.  [load_data] returns the empty store when there is no
    file.  When there is one, it raises exactly when the bytes are not a
    UTF-8 text, or the text is not JSON, or the document is not an object,
    or an entry has a key that [date.fromisoformat] does not take, a value
    that is not an object, or a ["sets"] that is a scalar; and it returns
    a store otherwise. *)
Theorem C7_load_data (w : Sys.world) :
  (Sys.file w = None -> fst (load_data w) = Ok (mkEloData []))
  /\ (forall c : content,
        Sys.file w = Some c ->
        ((exists e, fst (load_data w) = Raise e) <-> Spec.rejected c = true)
        /\ ((exists data, fst (load_data w) = Ok data) <-> Spec.rejected c = false)).
Proof.
  split.
  - intros H. rewrite load_data_run, H. reflexivity.
  - intros c H. pose proof (load_data_rejected w c H) as R.
    destruct (Spec.rejected c); destruct R as [x R]; rewrite R; split; split;
      intros H'; try reflexivity; try discriminate H'; eauto;
      destruct H' as [y Hy]; discriminate Hy.
Qed.

Lemma C7_load_data_witness :
  fst (load_data Sample.fresh) = Ok (mkEloData [])
  /\ (exists e, fst (load_data (Sample.world_of Sample.binary)) = Raise e)
  /\ (exists e, fst (load_data (Sample.world_of Sample.garbage)) = Raise e)
  /\ (exists data, fst (load_data (Sample.world_of (Doc Sample.lenient))) = Ok data).
Proof.
  split; [|split; [|split]].
  - apply (proj1 (C7_load_data Sample.fresh)). reflexivity.
  - apply (proj2 (C7_load_data (Sample.world_of Sample.binary)) Sample.binary eq_refl).
    reflexivity.
  - apply (proj2 (C7_load_data (Sample.world_of Sample.garbage)) Sample.garbage eq_refl).
    reflexivity.
  - apply (proj2 (C7_load_data (Sample.world_of (Doc Sample.lenient)))
             (Doc Sample.lenient) eq_refl).
    reflexivity.
Defined.

(** A file that does not conform to the format, with a string where an
    integer is due, and that [load_data] takes all the same: not every
    malformed file is refused. *)
Lemma C7_counterexample :
  Spec.conforms Sample.lenient = false
  /\ fst (load_data (Sample.world_of (Doc Sample.lenient)))
     = Ok (mkEloData [(lit "2024-01-10",
                       mkEloDay (Datetime.mkdate 2024 1 10) [JStr (lit "a")])])
  /\ ~ (exists e, fst (load_data (Sample.world_of (Doc Sample.lenient))) = Raise e).
Proof.
  split; [reflexivity|]. split; [reflexivity|].
  intros [e H]. discriminate H.
Qed.

(** Other contents that load without complaint: a day without ["sets"],
    and a ["sets"] that is a string. *)
Example load_data_lenient :
  fst (load_data (Sys.mkworld true
         (Some (Doc (JObj [(lit "2024-01-10", JObj [])]))) [] [] []))
  = Ok (mkEloData [(lit "2024-01-10", mkEloDay (Datetime.mkdate 2024 1 10) [])])
  /\ fst (load_data (Sys.mkworld true
         (Some (Doc (JObj [(lit "2024-01-10", JObj [(lit "sets", JStr (lit "ab"))])])))
         [] [] []))
     = Ok (mkEloData [(lit "2024-01-10",
                       mkEloDay (Datetime.mkdate 2024 1 10)
                                [JStr (lit "a"); JStr (lit "b")])]).
Proof. split; reflexivity. Qed.

(** The exceptions of the two files that cannot be read as JSON. *)
Example load_data_unreadable :
  fst (load_data (Sample.world_of Sample.binary)) = Raise UnicodeDecodeError
  /\ fst (load_data (Sample.world_of Sample.garbage)) = Raise JSONDecodeError.
Proof. split; reflexivity. Qed.

(** A key need not be in the form that the program writes: a week date is
    taken, and kept as the key of its day. *)
Example load_data_week_keys :
  fst (load_data (Sample.world_of (Doc Sample.week_keys)))
  = Ok (mkEloData [(lit "2024-01-11", mkEloDay (Datetime.mkdate 2024 1 11) [JInt 1510]);
                   (lit "2024-W02-3", mkEloDay (Datetime.mkdate 2024 1 10) [JInt 1500])]).
Proof. reflexivity. Qed.

End Loading.

(* ===================================================================== *)
(** * [cmd_reset] *)
(* ===================================================================== *)

Section Reset.
Import Json Storage Cli.

Lemma lower_char_plain (c : char) :
  Aux.plain c = true -> Str.lower_char c = [Spec.fold_case c].
Proof.
  unfold Aux.plain, Str.lower_char, Spec.fold_case.
  rewrite negb_true_iff, orb_false_iff. intros [-> ->].
  now destruct (_ && _).
Qed.

Lemma lower_plain (s : str) :
  forallb Aux.plain s = true -> Str.lower s = map Spec.fold_case s.
Proof.
  unfold Str.lower. induction s as [|c s IH]; cbn [forallb flat_map map]; [reflexivity|].
  rewrite andb_true_iff. intros [Hc Hs].
  rewrite (lower_char_plain c Hc), IH by exact Hs. reflexivity.
Qed.

Lemma not_plain (s : str) :
  forallb Aux.plain s = false ->
  (In 105%N (Str.lower s) \/ In 107%N (Str.lower s))
  /\ (In 304%N (map Spec.fold_case s) \/ In 8490%N (map Spec.fold_case s)).
Proof.
  unfold Str.lower. induction s as [|c s IH]; cbn [forallb flat_map map]; [discriminate|].
  rewrite andb_false_iff. intros [Hc | Hs].
  - unfold Aux.plain in Hc. rewrite negb_false_iff, orb_true_iff, !N.eqb_eq in Hc.
    destruct Hc as [-> | ->]; cbn; auto.
  - destruct (IH Hs) as [[H1 | H1] [H2 | H2]];
      (split; [rewrite !in_app_iff | cbn [In]]; auto).
Qed.

(** [s.lower() == "yes"] says that [s] is ["yes"] up to the case of its
    letters. *)
Lemma lower_is_yes (s : str) :
  Str.eqb (Str.lower s) (lit "yes") = Spec.matches_ci s (lit "yes").
Proof.
  unfold Spec.matches_ci.
  change (map Spec.fold_case (lit "yes")) with (lit "yes").
  destruct (forallb Aux.plain s) eqn:E.
  - now rewrite lower_plain.
  - destruct (not_plain s E) as [H1 H2].
    assert (L : Str.eqb (Str.lower s) (lit "yes") = false).
    { apply str_eqb_neq. intros C. rewrite C in H1.
      destruct H1 as [H1 | H1]; cbn in H1;
        repeat (destruct H1 as [H1 | H1]; [discriminate H1|]); exact H1. }
    assert (R : Str.eqb (map Spec.fold_case s) (lit "yes") = false).
    { apply str_eqb_neq. intros C. rewrite C in H2.
      destruct H2 as [H2 | H2]; cbn in H2;
        repeat (destruct H2 as [H2 | H2]; [discriminate H2|]); exact H2. }
    now rewrite L, R.
Qed.

(** The two runs of [cmd_reset] on a line. *)
Lemma cmd_reset_run (args : Namespace) (w : Sys.world) (line : str) (rest : list str) :
  Sys.stdin w = line :: rest ->
  cmd_reset args w
  = if Spec.matches_ci (Str.strip line) (lit "yes")
    then (Ok tt,
          Sys.mkworld true (Some (Doc (JObj []))) rest
            (Sys.stdout w ++ reset_prompt ++ lit "All Elo data has been cleared." ++ [Sys.newline])
            (Sys.stderr w))
    else (Ok tt,
          Sys.mkworld (Sys.dir_exists w) (Sys.file w) rest
            (Sys.stdout w ++ reset_prompt ++ lit "Reset cancelled." ++ [Sys.newline])
            (Sys.stderr w)).
Proof.
  intros H. unfold cmd_reset, Sys.bind, Sys.input. rewrite H.
  rewrite lower_is_yes.
  destruct (Spec.matches_ci (Str.strip line) (lit "yes")); cbn [negb].
  - unfold save_data, ensure_storage_dir, Sys.bind, Sys.mkdir, Sys.write_file, Sys.print.
    cbn. now rewrite <- !app_assoc.
  - unfold Sys.print. cbn. now rewrite <- !app_assoc.
Qed.

(** C5, as amended.  [cmd_reset] confirms exactly when the line read, with
    the white space around it stripped, is ["yes"] up to the case of its
    letters.  It then overwrites the file with the empty object and says
    so.  Otherwise nothing is saved: directory and file are as they were,
    and the notice of cancellation is printed. *)
Theorem C5_reset (args : Namespace) (w : Sys.world) (line : str) (rest : list str) :
  Sys.stdin w = line :: rest ->
  cmd_reset args w
  = if Spec.matches_ci (Str.strip line) (lit "yes")
    then (Ok tt,
          Sys.mkworld true (Some (Doc (JObj []))) rest
            (Sys.stdout w ++ reset_prompt ++ lit "All Elo data has been cleared." ++ [Sys.newline])
            (Sys.stderr w))
    else (Ok tt,
          Sys.mkworld (Sys.dir_exists w) (Sys.file w) rest
            (Sys.stdout w ++ reset_prompt ++ lit "Reset cancelled." ++ [Sys.newline])
            (Sys.stderr w)).
Proof. apply cmd_reset_run. Qed.

Lemma C5_reset_witness :
  cmd_reset Sample.args (Sample.world Sample.store [lit " Yes "])
  = (Ok tt,
     Sys.mkworld true (Some (Doc (JObj []))) []
       (reset_prompt ++ lit "All Elo data has been cleared." ++ [Sys.newline]) [])
  /\ cmd_reset Sample.args (Sample.world Sample.store [lit "no"])
     = (Ok tt,
        Sys.mkworld true (Some (Sample.saved Sample.store)) []
          (reset_prompt ++ lit "Reset cancelled." ++ [Sys.newline]) []).
Proof.
  split.
  - apply (C5_reset Sample.args (Sample.world Sample.store [lit " Yes "]) (lit " Yes ") []).
    reflexivity.
  - apply (C5_reset Sample.args (Sample.world Sample.store [lit "no"]) (lit "no") []).
    reflexivity.
Defined.

(** The line [" yes"], with a space before the word, is not ["yes"] up to
    case, and yet the reset goes through: the file is overwritten. *)
Lemma C5_counterexample :
  Spec.matches_ci (lit " yes") (lit "yes") = false
  /\ Sys.file (snd (cmd_reset Sample.args (Sample.world Sample.store [lit " yes"])))
     = Some (Doc (JObj []))
  /\ Sys.file (snd (cmd_reset Sample.args (Sample.world Sample.store [lit " yes"])))
     <> Sys.file (Sample.world Sample.store [lit " yes"]).
Proof.
  split; [reflexivity|]. split; [reflexivity|]. discriminate.
Qed.

End Reset.

(* ===================================================================== *)
(** * The storage directory *)
(* ===================================================================== *)

Section Directory.
Import Json Storage Cli.

Lemma kept_bind {A B} (m : Sys.M A) (k : A -> Sys.M B) :
  Aux.dir_kept m -> (forall a, Aux.dir_kept (k a)) -> Aux.dir_kept (Sys.bind m k).
Proof.
  intros Hm Hk w Hw. unfold Sys.bind. specialize (Hm w Hw).
  destruct (m w) as [[a | e |] w']; cbn [snd] in *; auto.
  now apply Hk.
Qed.

Lemma made_bind {A B} (m : Sys.M A) (k : A -> Sys.M B) :
  Aux.dir_made m -> (forall a, Aux.dir_kept (k a)) -> Aux.dir_made (Sys.bind m k).
Proof.
  intros Hm Hk w. unfold Sys.bind. specialize (Hm w).
  destruct (m w) as [[a | e |] w']; cbn [snd] in *; auto.
  now apply Hk.
Qed.

Lemma kept_lift {A} (r : result A) : Aux.dir_kept (Sys.lift r).
Proof. intros w Hw. exact Hw. Qed.

Lemma kept_ret {A} (a : A) : Aux.dir_kept (Sys.ret a).
Proof. intros w Hw. exact Hw. Qed.

Lemma kept_raise {A} (e : exn) : Aux.dir_kept (@Sys.raise A e).
Proof. intros w Hw. exact Hw. Qed.

Lemma kept_print (s : str) : Aux.dir_kept (Sys.print s).
Proof. intros w Hw. exact Hw. Qed.

Lemma kept_save_data (data : EloData json) : Aux.dir_kept (save_data data).
Proof. intros w Hw. reflexivity. Qed.

Lemma kept_print_table (l : list (EloDay json)) : Aux.dir_kept (print_table l).
Proof.
  unfold print_table.
  repeat (apply kept_bind; [apply kept_lift | intros ?]). apply kept_print.
Qed.

Lemma made_load_data : Aux.dir_made load_data.
Proof. intros w. now rewrite load_data_run. Qed.

Create HintDb dir.
#[local] Hint Resolve kept_lift kept_ret kept_raise kept_print kept_save_data kept_print_table
  : dir.

Ltac kept :=
  repeat first
    [ progress auto with dir
    | apply kept_bind; [| intros ?]
    | match goal with |- Aux.dir_kept (match ?x with _ => _ end) => destruct x end ].

(** C10, as amended.  [load_data] makes the storage directory before it
    reads, whatever the file is, missing and unreadable ones included; so
    [record] and the read-only [summary] and [history], which all load,
    leave the directory in place whatever they are given.  [reset] does not
    load: after it the directory is there if it was before, or if the reset
    was confirmed and saved. *)
Theorem C10_directory_created (w : Sys.world) :
  Sys.dir_exists (snd (load_data w)) = true
  /\ (forall today args, Sys.dir_exists (snd (cmd_record today args w)) = true)
  /\ (forall today args, Sys.dir_exists (snd (cmd_summary today args w)) = true)
  /\ (forall args, Sys.dir_exists (snd (cmd_history args w)) = true)
  /\ (forall args,
        Sys.dir_exists (snd (cmd_reset args w))
        = Sys.dir_exists w
          || match Sys.stdin w with
             | line :: _ => Spec.matches_ci (Str.strip line) (lit "yes")
             | [] => false
             end).
Proof.
  split; [apply made_load_data|]. repeat split.
  - intros today args. unfold cmd_record.
    apply made_bind; [apply made_load_data | intros data]. kept.
  - intros today args. unfold cmd_summary.
    apply made_bind; [apply made_load_data | intros data]. kept.
  - intros args. unfold cmd_history.
    apply made_bind; [apply made_load_data | intros data]. kept.
  - intros args. destruct (Sys.stdin w) as [|line rest] eqn:E.
    + unfold cmd_reset, Sys.bind, Sys.input. rewrite E. cbn [snd Sys.dir_exists].
      now rewrite orb_false_r.
    + rewrite (cmd_reset_run args w line rest E).
      destruct (Spec.matches_ci _ _); cbn [snd Sys.dir_exists];
        [now rewrite orb_true_r | now rewrite orb_false_r].
Qed.

(** On a machine without the directory, a reset that is not confirmed
    leaves it unmade: not every command creates it. *)
Lemma C10_counterexample :
  Sys.dir_exists (Sample.fresh_with [lit "no"]) = false
  /\ Sys.dir_exists (snd (cmd_reset Sample.args (Sample.fresh_with [lit "no"]))) = false.
Proof. split; reflexivity. Qed.

(** A load on a missing file, and one on a file that is not JSON. *)
Example load_makes_directory :
  load_data Sample.fresh = (Ok (mkEloData []), Sys.mkworld true None [] [] [])
  /\ load_data (Sys.mkworld false (Some (Undecodable (lit "{oops"))) [] [] [])
     = (Raise JSONDecodeError,
        Sys.mkworld true (Some (Undecodable (lit "{oops"))) [] [] []).
Proof. split; reflexivity. Qed.

End Directory.

(* ===================================================================== *)
(** * [cmd_summary] and [cmd_history] *)
(* ===================================================================== *)

Section Commands.
Import Json Storage Cli.

Lemma toordinal_bounds (d : Datetime.date) :
  Datetime.valid d = true -> 1 <= Datetime.toordinal d <= Datetime.MAXORDINAL.
Proof.
  intros V. pose proof (day_of_year_bounds d V) as B.
  pose proof (valid_inv d V) as (Hy & _ & _).
  pose proof (days_before_year_succ (Datetime.year d)) as S.
  pose proof (days_before_year_mono 1 (Datetime.year d) ltac:(lia)) as L.
  pose proof (days_before_year_mono (Datetime.year d + 1) 10000 ltac:(lia)) as U.
  change (Datetime.days_before_year 1) with 0 in L.
  change (Datetime.days_before_year 10000) with 3652059 in U.
  unfold Datetime.toordinal, Datetime.MAXORDINAL. lia.
Qed.

(** The cutoff of [cmd_summary] and the test against it, in days. *)
Lemma cutoff_since (today : Datetime.date) (n : Z) :
  Datetime.valid today = true -> 0 < n -> n <= Datetime.toordinal today ->
  exists cutoff,
    rbind (Datetime.timedelta (n - 1)) (Datetime.sub today) = Ok cutoff
    /\ forall d : EloDay json,
         Datetime.valid (date d) = true ->
         Datetime.geb (date d) cutoff = Spec.since today n d.
Proof.
  intros V Hn Hle. pose proof (toordinal_bounds today V) as B.
  unfold Datetime.MAXORDINAL in B.
  exists (Datetime.fromordinal (Datetime.toordinal today - (n - 1))). split.
  - unfold Datetime.timedelta.
    replace (Z.abs (n - 1) <=? 999999999) with true by (symmetry; apply Z.leb_le; lia).
    cbn [rbind]. unfold Datetime.sub, Datetime.MAXORDINAL.
    replace (Datetime.toordinal today + - (n - 1))
      with (Datetime.toordinal today - (n - 1)) by lia.
    replace (0 <? Datetime.toordinal today - (n - 1)) with true
      by (symmetry; apply Z.ltb_lt; lia).
    replace (Datetime.toordinal today - (n - 1) <=? 3652059) with true
      by (symmetry; apply Z.leb_le; lia).
    reflexivity.
  - intros d Vd.
    destruct (toordinal_fromordinal (Datetime.toordinal today - (n - 1))) as [E Vc];
      [unfold Datetime.MAXORDINAL; lia|].
    rewrite (geb_toordinal _ _ Vd Vc), E. reflexivity.
Qed.

(** C3, as amended.  Without [--date] and with [--days n], where [n] is
    positive and [today - (n - 1)] is a date of the calendar, [cmd_summary]
    shows exactly the stored days from [today - (n - 1)] on, days after
    [today] included, as [sorted_days] lists them; and the fixed message
    when there is none. *)
Theorem C3_summary (today : Datetime.date) (n : Z) (args : Namespace)
    (w w1 : Sys.world) (data : EloData json) :
  Datetime.valid today = true ->
  arg_date args = None -> arg_days args = Some n ->
  0 < n -> n <= Datetime.toordinal today ->
  load_data w = (Ok data, w1) ->
  let shown := filter (Spec.since today n) (sorted_days data) in
  cmd_summary today args w = Spec.display shown w1
  /\ (forall d : EloDay json,
        In d shown <->
        (exists k, Dict.get k (days data) = Some d) /\ Spec.since today n d = true).
Proof.
  intros V Hdate Hdays Hn Hle Hload shown.
  pose proof (load_data_inv w w1 data Hload) as I.
  split.
  - destruct (cutoff_since today n V Hn Hle) as (cutoff & Hc & Hgeb).
    unfold cmd_summary, Sys.bind at 1. rewrite Hload, Hdate, Hdays.
    unfold Sys.bind, Sys.lift, Sys.ret.
    unfold rbind in Hc.
    destruct (Datetime.timedelta (n - 1)) as [delta| |]; try discriminate Hc.
    rewrite Hc.
    rewrite (filter_ext_in (fun day => Datetime.geb (date day) cutoff)
                           (Spec.since today n)).
    + fold shown. unfold Spec.display. destruct shown; reflexivity.
    + intros d Hd. apply Hgeb.
      pose proof (sorted_days_valid data I) as F.
      rewrite Forall_forall in F. now apply F.
  - intros d. unfold shown. rewrite filter_In, (sorted_days_in data d (proj1 I)).
    reflexivity.
Qed.

(** The example of the specification: [summary --days 7] on 2024-01-10 with
    the ten days from 2024-01-01 on shows the seven days from 2024-01-04. *)
Lemma C3_summary_witness :
  cmd_summary Sample.today (Sample.summary_args 7) (Sample.world Sample.store10 [])
  = Spec.display (Sample.january [4; 5; 6; 7; 8; 9; 10]) (Sample.world Sample.store10 []).
Proof.
  refine (proj1 (C3_summary Sample.today 7 (Sample.summary_args 7)
                   (Sample.world Sample.store10 []) (Sample.world Sample.store10 [])
                   (mkEloData (map (fun d => (Datetime.isoformat (date d), d))
                                   (Sample.january [1; 2; 3; 4; 5; 6; 7; 8; 9; 10])))
                   eq_refl eq_refl eq_refl eq_refl _ eq_refl)).
  vm_compute. discriminate.
Defined.

(** With a day recorded for the morrow, 2024-01-11, [summary --days 7] on
    2024-01-10 shows it, though it lies outside the seven days that end
    today. *)
Lemma C3_counterexample :
  filter (Spec.in_window Sample.today 7) (sorted_days (raw_data Sample.store))
  = Sample.january_sets [(10, [1500; 1550; 1490])]
  /\ cmd_summary Sample.today (Sample.summary_args 7) (Sample.world Sample.store [])
     = Spec.display (Sample.january_sets [(10, [1500; 1550; 1490]); (11, [1510])])
                    (Sample.world Sample.store [])
  /\ cmd_summary Sample.today (Sample.summary_args 7) (Sample.world Sample.store [])
     <> Spec.display
          (filter (Spec.in_window Sample.today 7) (sorted_days (raw_data Sample.store)))
          (Sample.world Sample.store []).
Proof.
  split; [reflexivity|]. split; [reflexivity|].
  vm_compute. intros H. discriminate H.
Qed.

(** Past the first day of the calendar the command stops on an overflow. *)
Example summary_overflow :
  fst (cmd_summary Sample.today (Sample.summary_args 1000000) (Sample.world Sample.store []))
  = Raise OverflowError.
Proof. reflexivity. Qed.

Lemma slice_last_n {A} (n : Z) (l : list A) :
  0 < n -> slice_from (- n) l = Spec.last_n n l.
Proof.
  intros H. unfold slice_from, Spec.last_n.
  replace (- n <? 0) with true by (symmetry; apply Z.ltb_lt; lia).
  f_equal. lia.
Qed.

Lemma slice_nonpositive {A} (n : Z) (l : list A) :
  n <= 0 -> slice_from (- n) l = skipn (Z.to_nat (- n)) l.
Proof.
  intros H. unfold slice_from.
  replace (- n <? 0) with false by (symmetry; apply Z.ltb_ge; lia).
  destruct (Z.min_spec (- n) (Z.of_nat (List.length l))) as [[_ ->] | [Hlt ->]];
    [reflexivity|].
  rewrite Nat2Z.id. rewrite skipn_all. symmetry. apply skipn_all2. lia.
Qed.

Lemma cmd_history_run (args : Namespace) (w w1 : Sys.world) (data : EloData json) :
  load_data w = (Ok data, w1) ->
  cmd_history args w
  = match sorted_days data with
    | [] => Sys.print no_data w1
    | _ => print_table (match limit args with
                        | Some n => slice_from (- n) (sorted_days data)
                        | None => sorted_days data
                        end) w1
    end.
Proof.
  intros H. unfold cmd_history, Sys.bind at 1. rewrite H.
  destruct (sorted_days data); reflexivity.
Qed.

(** [cmd_history] on a file that loads.  On an empty store it prints the
    fixed message.  On any other it shows all the days when there is no
    [--limit], and the last [n] of them, as [sorted_days] lists them, when
    [--limit n] is given with a positive [n]. *)
Lemma history_positive_limit (args : Namespace) (w w1 : Sys.world)
    (data : EloData json) :
  load_data w = (Ok data, w1) ->
  (forall d : EloDay json,
     In d (sorted_days data) <-> exists k, Dict.get k (days data) = Some d)
  /\ (sorted_days data = [] -> cmd_history args w = Sys.print no_data w1)
  /\ (sorted_days data <> [] ->
      (limit args = None -> cmd_history args w = print_table (sorted_days data) w1)
      /\ (forall n : Z,
            limit args = Some n -> 0 < n ->
            let shown := Spec.last_n n (sorted_days data) in
            cmd_history args w = print_table shown w1
            /\ (exists older, sorted_days data = older ++ shown)
            /\ Z.of_nat (List.length shown)
               = Z.min n (Z.of_nat (List.length (sorted_days data))))).
Proof.
  intros H. rewrite (cmd_history_run args w w1 data H).
  pose proof (load_data_inv w w1 data H) as I.
  split; [intros d; apply sorted_days_in, I|].
  split.
  - intros ->. reflexivity.
  - intros Hne. destruct (sorted_days data) as [|d l] eqn:E; [contradiction|].
    split.
    + intros ->. reflexivity.
    + intros n -> Hn shown. rewrite slice_last_n by exact Hn. fold shown.
      split; [reflexivity|]. split.
      * exists (firstn (List.length (d :: l) - Z.to_nat n) (d :: l)).
        symmetry. apply firstn_skipn.
      * unfold shown, Spec.last_n. rewrite length_skipn. lia.
Qed.

(** [history --limit 2] on the ten days of January shows the 9th and the
    10th. *)
Example history_limit_two :
  cmd_history (Sample.history_args (Some 2)) (Sample.world Sample.store10 [])
  = print_table (Sample.january [9; 10]) (Sample.world Sample.store10 []).
Proof. reflexivity. Qed.

(** C4, at [--limit 0].  On the file of the two days 2024-01-10 and
    2024-01-11, the last zero days are no day at all, and [history
    --limit 0] shows both days: the slice [days[-0:]] is the whole list. *)
Theorem C4_history_limit_zero :
  Spec.last_n 0 (sorted_days (raw_data Sample.store)) = []
  /\ cmd_history (Sample.history_args (Some 0)) (Sample.world Sample.store [])
     = print_table (Sample.january_sets [(10, [1500; 1550; 1490]); (11, [1510])])
                   (Sample.world Sample.store [])
  /\ cmd_history (Sample.history_args (Some 0)) (Sample.world Sample.store [])
     <> print_table (Spec.last_n 0 (sorted_days (raw_data Sample.store)))
                    (Sample.world Sample.store []).
Proof.
  split; [reflexivity|]. split; [reflexivity|].
  vm_compute. intros H. discriminate H.
Qed.

(** C9.  On a store that is not empty, [history --limit 0] shows all the
    days; and with any [--limit n] where [n] is not positive, the days
    shown are the ones left after dropping the first [-n], which are more
    than [n]. *)
Theorem C9_history_nonpositive_limit (args : Namespace) (w w1 : Sys.world)
    (data : EloData json) (n : Z) :
  load_data w = (Ok data, w1) ->
  sorted_days data <> [] ->
  limit args = Some n -> n <= 0 ->
  (n = 0 -> cmd_history args w = print_table (sorted_days data) w1)
  /\ cmd_history args w = print_table (skipn (Z.to_nat (- n)) (sorted_days data)) w1
  /\ n < Z.of_nat (List.length (skipn (Z.to_nat (- n)) (sorted_days data))).
Proof.
  intros H Hne Hl Hn. rewrite (cmd_history_run args w w1 data H), Hl.
  rewrite (slice_nonpositive n _ Hn).
  destruct (sorted_days data) as [|d l] eqn:E; [contradiction|].
  split; [intros ->; reflexivity|]. split; [reflexivity|].
  rewrite length_skipn. cbn [List.length].
  destruct (Z.eq_dec n 0) as [-> | Hneg]; [cbn; lia | lia].
Qed.

Lemma C9_history_nonpositive_limit_witness :
  cmd_history (Sample.history_args (Some 0)) (Sample.world Sample.store10 [])
  = print_table (Sample.january [1; 2; 3; 4; 5; 6; 7; 8; 9; 10])
                (Sample.world Sample.store10 []).
Proof.
  refine (proj1 (C9_history_nonpositive_limit (Sample.history_args (Some 0))
                   (Sample.world Sample.store10 []) (Sample.world Sample.store10 [])
                   (mkEloData (map (fun d => (Datetime.isoformat (date d), d))
                                   (Sample.january [1; 2; 3; 4; 5; 6; 7; 8; 9; 10])))
                   0 eq_refl _ eq_refl _) eq_refl);
    vm_compute; discriminate.
Defined.

(** A negative limit drops days from the front. *)
Example history_negative_limit :
  cmd_history (Sample.history_args (Some (-8))) (Sample.world Sample.store10 [])
  = print_table (Sample.january [9; 10]) (Sample.world Sample.store10 []).
Proof. reflexivity. Qed.

(** Three sets recorded on one day, from nothing: the file holds them in
    the order of recording, and each confirmation counts them. *)
Example record_three_sets :
  Sample.recorded [1500; 1550; 1490] Sample.fresh
  = Sys.mkworld true (Some (Sample.saved (mkEloData [(lit "2024-01-10", Sample.day3)])))
      []
      (lit "Recorded set #1 for 2024-01-10 with Elo 1500." ++ [Sys.newline]
       ++ lit "Recorded set #2 for 2024-01-10 with Elo 1550." ++ [Sys.newline]
       ++ lit "Recorded set #3 for 2024-01-10 with Elo 1490." ++ [Sys.newline])
      [].
Proof. reflexivity. Qed.

(** The days are listed in the order of their keys.  For the keys that
    the program writes that is the order of the dates; a file with a key
    in another form that [date.fromisoformat] takes is listed by its keys
    all the same, here the 11th of January before the 10th. *)
Example history_key_order :
  cmd_history (Sample.history_args None) (Sample.world_of (Doc Sample.week_keys))
  = print_table [mkEloDay (Datetime.mkdate 2024 1 11) [JInt 1510];
                 mkEloDay (Datetime.mkdate 2024 1 10) [JInt 1500]]
                (Sample.world_of (Doc Sample.week_keys)).
Proof. reflexivity. Qed.

End Commands.

Section PrintTable.
Import Json Storage Cli.

Lemma ints_of_ints (l : list Z) : ints (map JInt l) = Some l.
Proof. induction l as [|x l IH]; cbn; [reflexivity | now rewrite IH]. Qed.

Lemma summarize_loaded_raw (d : EloDay Z) :
  summarize_loaded (raw_day d) = Ok (summarize_day d).
Proof.
  unfold summarize_loaded, int_day, raw_day. cbn [sets date].
  rewrite ints_of_ints. now destruct d.
Qed.

(** On days of integer sets, the table printed is the table of the
    specification, one row for each day. *)
Lemma print_table_of_ints (l : list (EloDay Z)) (w : Sys.world) :
  print_table (map raw_day l) w
  = Sys.print (Spec.table headers (map summarize_day l)) w.
Proof.
  unfold print_table, Sys.bind, Sys.lift.
  assert (T : traverse summarize_loaded (map raw_day l) = Ok (map summarize_day l)).
  { induction l as [|d l IH]; [reflexivity|].
    cbn [map traverse]. rewrite summarize_loaded_raw, IH. reflexivity. }
  rewrite T. rewrite render_table_table; [reflexivity|].
  apply Forall_map. apply Forall_forall. intros d _. reflexivity.
Qed.

End PrintTable.

(* ===================================================================== *)
(** * [main] *)
(* ===================================================================== *)

Section MainFacts.
Import Cli Main.

Variables prog usage help : str.
Variable parse_command : handler -> list str -> Sys.M Namespace.
Variable parse_other : list str -> Sys.M Namespace.

(** C6.  The run of [main] on an empty command line.  The sub-command is
    required, so [parse_args] reports it missing on the standard error and
    leaves with status 2; nothing is printed on the standard output, and
    the branch of [main] that prints the help is not reached. *)
Theorem C6_main_without_subcommand (today : Datetime.date) (w : Sys.world) :
  main prog usage help parse_command parse_other today [] w
  = (Raise (SystemExit 2),
     Sys.mkworld (Sys.dir_exists w) (Sys.file w) (Sys.stdin w) (Sys.stdout w)
       (Sys.stderr w ++ usage ++ prog
        ++ lit ": error: the following arguments are required: command" ++ [Sys.newline]))
  /\ Sys.exit_status (fst (main prog usage help parse_command parse_other today [] w))
     = Some 2.
Proof.
  split; reflexivity.
Qed.

(** What [main] is written for: were the sub-command not required, the
    namespace would have no [func], and [main] would print the help and
    return, which ends the process with status 0. *)
Lemma main_not_required (today : Datetime.date) (w : Sys.world) :
  main_with prog usage help parse_command parse_other
            (mksubparsers (dest build_parser) false (choices build_parser)) today [] w
  = (Ok tt,
     Sys.mkworld (Sys.dir_exists w) (Sys.file w) (Sys.stdin w) (Sys.stdout w ++ help)
       (Sys.stderr w)).
Proof. reflexivity. Qed.

End MainFacts.

(* ===================================================================== *)
(** * More on the store: [sorted_days], [get_day], [from_json] *)
(* ===================================================================== *)

Section Store.
Import Json Storage.

Lemma get_set_other {V} (k k' : str) (v : V) (d : Dict.dict V) :
  k <> k' -> Dict.get k (Dict.set k' v d) = Dict.get k d.
Proof.
  intros Hne. induction d as [|[k0 v0] d IH]; cbn.
  - apply str_eqb_neq in Hne. now rewrite Hne.
  - destruct (Str.eqb k' k0) eqn:E; cbn.
    + apply str_eqb_eq in E. subst k0.
      apply str_eqb_neq in Hne. now rewrite Hne.
    + destruct (Str.eqb k k0); [reflexivity | exact IH].
Qed.

Lemma store_inv_sample : Spec.store_inv Sample.store.
Proof.
  split.
  - repeat constructor; cbn; intros H;
      repeat (destruct H as [H | H]; [discriminate H|]); exact H.
  - repeat constructor.
Qed.

(** [sorted_days] on a store of the invariant: the days come in strictly
    ascending order of date; they are exactly the values of the store, each
    once; and their dates in ISO form are the keys of the store, sorted. *)
Theorem sorted_days_spec {V} (data : EloData V) :
  Spec.store_inv data ->
  Spec.ascending (sorted_days data)
  /\ (forall d : EloDay V,
        In d (sorted_days data) <-> exists k, Dict.get k (days data) = Some d)
  /\ Permutation (sorted_days data) (map snd (days data))
  /\ map (fun d => Datetime.isoformat (date d)) (sorted_days data)
     = Dict.sorted (Dict.keys (days data)).
Proof.
  intros I. split; [now apply sorted_days_ascending|].
  split; [intros d; apply sorted_days_in, I|].
  split; [apply sorted_days_perm, I|].
  rewrite sorted_days_items by apply I.
  rewrite <- keys_sorted_items. unfold Dict.keys. rewrite map_map.
  apply map_ext_in. intros [k d] H. cbn [fst snd].
  destruct (store_inv_sorted data I) as [_ W]. cbn [days] in W.
  rewrite Forall_forall in W. destruct (W _ H) as [_ E]. cbn [fst snd] in E.
  now symmetry.
Qed.

Lemma sorted_days_spec_witness :
  Spec.ascending (sorted_days Sample.store)
  /\ (forall d : EloDay Z,
        In d (sorted_days Sample.store)
        <-> exists k, Dict.get k (days Sample.store) = Some d)
  /\ Permutation (sorted_days Sample.store) (map snd (days Sample.store))
  /\ map (fun d => Datetime.isoformat (date d)) (sorted_days Sample.store)
     = Dict.sorted (Dict.keys (days Sample.store)).
Proof. apply (sorted_days_spec Sample.store). exact store_inv_sample. Defined.

Lemma get_day_facts {V} (data : EloData V) (day : Datetime.date) :
  Dict.get (Datetime.isoformat day) (days (fst (get_day data day)))
  = Some (snd (get_day data day))
  /\ (forall k : str,
        k <> Datetime.isoformat day ->
        Dict.get k (days (fst (get_day data day))) = Dict.get k (days data))
  /\ (forall d : EloDay V,
        Dict.get (Datetime.isoformat day) (days data) = Some d ->
        get_day data day = (data, d))
  /\ (Dict.get (Datetime.isoformat day) (days data) = None ->
      get_day data day
      = (mkEloData (days data ++ [(Datetime.isoformat day, mkEloDay day [])]),
         mkEloDay day []))
  /\ get_day (fst (get_day data day)) day = get_day data day.
Proof.
  unfold get_day.
  destruct (Dict.get (Datetime.isoformat day) (days data)) as [d|] eqn:E;
    cbn [fst snd days].
  - repeat split; auto.
    + intros d' H. inversion H; subst. now destruct data.
    + discriminate.
    + now rewrite E.
  - repeat split.
    + apply get_set_same.
    + intros k Hk. now apply get_set_other.
    + discriminate.
    + intros _. now rewrite (set_fresh _ _ _ E).
    + now rewrite get_set_same.
Qed.

(** [get_day]: the day returned is the one the store then holds under the
    ISO form of the date; the other keys keep their days; a day already
    there is returned with the store as it was; a missing one is made
    empty and put last; and asking again changes nothing. *)
Theorem get_day_spec {V} (data : EloData V) (day : Datetime.date) :
  Dict.get (Datetime.isoformat day) (days (fst (get_day data day)))
  = Some (snd (get_day data day))
  /\ (forall k : str,
        k <> Datetime.isoformat day ->
        Dict.get k (days (fst (get_day data day))) = Dict.get k (days data))
  /\ (forall d : EloDay V,
        Dict.get (Datetime.isoformat day) (days data) = Some d ->
        get_day data day = (data, d))
  /\ (Dict.get (Datetime.isoformat day) (days data) = None ->
      get_day data day
      = (mkEloData (days data ++ [(Datetime.isoformat day, mkEloDay day [])]),
         mkEloDay day []))
  /\ get_day (fst (get_day data day)) day = get_day data day.
Proof. exact (get_day_facts data day). Qed.

Lemma get_day_spec_witness :
  get_day Sample.store Sample.today = (Sample.store, Sample.day3)
  /\ get_day Sample.store1 (Datetime.mkdate 2024 1 12)
     = (mkEloData (days Sample.store1
                   ++ [(lit "2024-01-12", mkEloDay (Datetime.mkdate 2024 1 12) [])]),
        mkEloDay (Datetime.mkdate 2024 1 12) []).
Proof.
  split.
  - apply (proj1 (proj2 (proj2 (get_day_spec Sample.store Sample.today)))).
    reflexivity.
  - apply (proj1 (proj2 (proj2 (proj2
             (get_day_spec Sample.store1 (Datetime.mkdate 2024 1 12)))))).
    reflexivity.
Defined.

Lemma record_update_facts {V} (data : EloData V) (day : Datetime.date) (v : V) :
  Spec.store_inv data -> Datetime.valid day = true ->
  Spec.store_inv (append_set (Datetime.isoformat day) v (fst (get_day data day)))
  /\ Dict.get (Datetime.isoformat day)
              (days (append_set (Datetime.isoformat day) v (fst (get_day data day))))
     = Some (mkEloDay day
               (match Dict.get (Datetime.isoformat day) (days data) with
                | Some d => sets d
                | None => []
                end ++ [v]))
  /\ (forall k : str,
        k <> Datetime.isoformat day ->
        Dict.get k (days (append_set (Datetime.isoformat day) v (fst (get_day data day))))
        = Dict.get k (days data)).
Proof.
  intros I Vd.
  destruct (get_day_facts data day) as (Hget & Hother & Hthere & Hfresh & _).
  split; [apply append_set_inv, get_day_inv; assumption|].
  unfold append_set. rewrite Hget. cbn [days].
  split.
  - rewrite get_set_same. f_equal.
    destruct (Dict.get (Datetime.isoformat day) (days data)) as [d|] eqn:E.
    + rewrite (Hthere d eq_refl). cbn [snd]. f_equal.
      destruct I as [_ W]. rewrite Forall_forall in W.
      pose proof (W _ (get_some_in _ _ _ E)) as Hk. cbn [fst snd] in Hk.
      destruct Hk as [Vdd Ek]. apply (isoformat_inj _ _ Vd Vdd) in Ek. congruence.
    + rewrite (Hfresh eq_refl). reflexivity.
  - intros k Hk. rewrite get_set_other by exact Hk. now apply Hother.
Qed.

(** What [cmd_record] does to the store, [get_day] and then [append]: on a
    store of the invariant and for a valid date, the store keeps the
    invariant; the day of that date holds its former sets, in their order,
    and then the new one; the other days are as they were. *)
Theorem record_update_spec {V} (data : EloData V) (day : Datetime.date) (v : V) :
  Spec.store_inv data -> Datetime.valid day = true ->
  Spec.store_inv (append_set (Datetime.isoformat day) v (fst (get_day data day)))
  /\ Dict.get (Datetime.isoformat day)
              (days (append_set (Datetime.isoformat day) v (fst (get_day data day))))
     = Some (mkEloDay day
               (match Dict.get (Datetime.isoformat day) (days data) with
                | Some d => sets d
                | None => []
                end ++ [v]))
  /\ (forall k : str,
        k <> Datetime.isoformat day ->
        Dict.get k (days (append_set (Datetime.isoformat day) v (fst (get_day data day))))
        = Dict.get k (days data)).
Proof. exact (record_update_facts data day v). Qed.

Lemma record_update_spec_witness :
  Spec.store_inv (append_set (lit "2024-01-10") 1475 (fst (get_day Sample.store Sample.today)))
  /\ Dict.get (lit "2024-01-10")
              (days (append_set (lit "2024-01-10") 1475
                       (fst (get_day Sample.store Sample.today))))
     = Some (mkEloDay Sample.today [1500; 1550; 1490; 1475])
  /\ (forall k : str,
        k <> lit "2024-01-10" ->
        Dict.get k (days (append_set (lit "2024-01-10") 1475
                            (fst (get_day Sample.store Sample.today))))
        = Dict.get k (days Sample.store)).
Proof.
  apply (record_update_spec Sample.store Sample.today 1475 store_inv_sample).
  reflexivity.
Defined.

(** [from_json] undoes [to_json]: on a store of the invariant, whatever
    the values of its sets, the store comes back as it was, the days in
    their order. *)
Theorem from_json_to_json (data : EloData json) :
  Spec.store_inv data -> from_json (to_json data) = Ok data.
Proof.
  intros I. destruct (store_inv_loaded data I) as [N W].
  rewrite to_json_values. cbn [from_json].
  rewrite (from_items_to_dict (days data) [] W N). cbn [app rbind].
  now destruct data.
Qed.

Lemma from_json_to_json_witness :
  from_json (to_json (raw_data Sample.store)) = Ok (raw_data Sample.store).
Proof.
  apply (from_json_to_json (raw_data Sample.store)).
  apply store_inv_raw, store_inv_sample.
Defined.

Lemma load_data_facts (w w' : Sys.world) (data : EloData json) :
  load_data w = (Ok data, w') ->
  NoDup (Dict.keys (days data))
  /\ (forall (k : str) (d : EloDay json),
        Dict.get k (days data) = Some d ->
        Datetime.fromisoformat k = Ok (date d) /\ Datetime.valid (date d) = true)
  /\ w' = Sys.mkworld true (Sys.file w) (Sys.stdin w) (Sys.stdout w) (Sys.stderr w).
Proof.
  intros H. pose proof (load_data_inv w w' data H) as [N W].
  split; [exact N|]. split.
  - intros k d Hk. rewrite Forall_forall in W.
    pose proof (W _ (get_some_in _ _ _ Hk)) as E. cbn [fst snd] in E.
    split; [exact E | now apply fromisoformat_valid in E].
  - rewrite load_data_run in H. now inversion H.
Qed.

(** Every store that [load_data] returns has distinct keys;
    [date.fromisoformat] reads each key as the date of its day, which is a
    date of the calendar, though the key need not be the ISO form of that
    date; and the directory is there afterwards while file and streams are
    untouched. *)
Theorem load_data_store (w w' : Sys.world) (data : EloData json) :
  load_data w = (Ok data, w') ->
  NoDup (Dict.keys (days data))
  /\ (forall (k : str) (d : EloDay json),
        Dict.get k (days data) = Some d ->
        Datetime.fromisoformat k = Ok (date d) /\ Datetime.valid (date d) = true)
  /\ w' = Sys.mkworld true (Sys.file w) (Sys.stdin w) (Sys.stdout w) (Sys.stderr w).
Proof. exact (load_data_facts w w' data). Qed.

Lemma load_data_store_witness :
  NoDup (Dict.keys (days (raw_data Sample.store1)))
  /\ (forall (k : str) (d : EloDay json),
        Dict.get k (days (raw_data Sample.store1)) = Some d ->
        Datetime.fromisoformat k = Ok (date d) /\ Datetime.valid (date d) = true)
  /\ Sample.world Sample.store1 []
     = Sys.mkworld true (Sys.file (Sample.world Sample.store1 []))
         (Sys.stdin (Sample.world Sample.store1 []))
         (Sys.stdout (Sample.world Sample.store1 []))
         (Sys.stderr (Sample.world Sample.store1 [])).
Proof.
  apply (load_data_store (Sample.world Sample.store1 []) (Sample.world Sample.store1 [])
           (raw_data Sample.store1)).
  reflexivity.
Defined.

End Store.

(* ===================================================================== *)
(** * More on the commands *)
(* ===================================================================== *)

Section MoreCommands.
Import Json Storage Cli.

(** ** What the reading commands leave alone *)

Lemma read_only_bind {A B} (m : Sys.M A) (k : A -> Sys.M B) :
  Aux.read_only m -> (forall a, Aux.read_only (k a)) -> Aux.read_only (Sys.bind m k).
Proof.
  intros Hm Hk w. unfold Sys.bind. specialize (Hm w).
  destruct (m w) as [[a | e |] w']; cbn [snd] in *; auto.
  destruct (Hk a w') as (H1 & H2 & H3). destruct Hm as (G1 & G2 & G3).
  repeat split; congruence.
Qed.

Lemma read_only_lift {A} (r : result A) : Aux.read_only (Sys.lift r).
Proof. intros w. repeat split. Qed.

Lemma read_only_ret {A} (a : A) : Aux.read_only (Sys.ret a).
Proof. intros w. repeat split. Qed.

Lemma read_only_print (s : str) : Aux.read_only (Sys.print s).
Proof. intros w. repeat split. Qed.

Lemma read_only_load_data : Aux.read_only load_data.
Proof. intros w. rewrite load_data_run. repeat split. Qed.

Lemma read_only_print_table (l : list (EloDay json)) : Aux.read_only (print_table l).
Proof.
  unfold print_table.
  repeat (apply read_only_bind; [apply read_only_lift | intros ?]).
  apply read_only_print.
Qed.

Create HintDb ro.
#[local] Hint Resolve read_only_lift read_only_ret read_only_print read_only_load_data
  read_only_print_table : ro.

Ltac read_only :=
  repeat first
    [ progress auto with ro
    | apply read_only_bind; [| intros ?]
    | match goal with |- Aux.read_only (match ?x with _ => _ end) => destruct x end ].

(** [summary] and [history] only read: whatever their arguments and
    whatever the world, the data file, the standard input and the standard
    error are after the command as they were before it. *)
Theorem reading_commands_read_only (today : Datetime.date) (args : Namespace)
    (w : Sys.world) :
  (Sys.file (snd (cmd_summary today args w)) = Sys.file w
   /\ Sys.stdin (snd (cmd_summary today args w)) = Sys.stdin w
   /\ Sys.stderr (snd (cmd_summary today args w)) = Sys.stderr w)
  /\ (Sys.file (snd (cmd_history args w)) = Sys.file w
      /\ Sys.stdin (snd (cmd_history args w)) = Sys.stdin w
      /\ Sys.stderr (snd (cmd_history args w)) = Sys.stderr w).
Proof.
  split.
  - assert (R : Aux.read_only (cmd_summary today args))
      by (unfold cmd_summary; read_only).
    apply R.
  - assert (R : Aux.read_only (cmd_history args))
      by (unfold cmd_history; read_only).
    apply R.
Qed.

(** A file that [load_data] refuses stops [record], [summary] and
    [history] alike: the exception of the load comes out, nothing is
    printed, and the file is left as it is; in particular [record] does
    not write over a file it cannot read. *)
Theorem load_failure_propagates (today : Datetime.date) (args : Namespace)
    (w : Sys.world) (e : exn) :
  fst (load_data w) = Raise e ->
  cmd_record today args w
  = (Raise e, Sys.mkworld true (Sys.file w) (Sys.stdin w) (Sys.stdout w) (Sys.stderr w))
  /\ cmd_summary today args w
     = (Raise e, Sys.mkworld true (Sys.file w) (Sys.stdin w) (Sys.stdout w) (Sys.stderr w))
  /\ cmd_history args w
     = (Raise e, Sys.mkworld true (Sys.file w) (Sys.stdin w) (Sys.stdout w) (Sys.stderr w)).
Proof.
  intros H. unfold cmd_record, cmd_summary, cmd_history, Sys.bind.
  rewrite load_data_run in *. cbn [fst] in H. rewrite H. auto.
Qed.

Lemma load_failure_propagates_witness :
  cmd_record Sample.today (Sample.record_args 1500) (Sample.world_of Sample.garbage)
  = (Raise JSONDecodeError, Sample.world_of Sample.garbage)
  /\ cmd_summary Sample.today (Sample.record_args 1500) (Sample.world_of Sample.garbage)
     = (Raise JSONDecodeError, Sample.world_of Sample.garbage)
  /\ cmd_history (Sample.record_args 1500) (Sample.world_of Sample.garbage)
     = (Raise JSONDecodeError, Sample.world_of Sample.garbage).
Proof.
  apply (load_failure_propagates Sample.today (Sample.record_args 1500)
           (Sample.world_of Sample.garbage) JSONDecodeError).
  reflexivity.
Defined.

(** ** [cmd_record] *)

Lemma appended_day {V} (data : EloData V) (day : Datetime.date) (v : V) :
  exists d0 : Datetime.date,
    Dict.get (Datetime.isoformat day)
             (days (append_set (Datetime.isoformat day) v (fst (get_day data day))))
    = Some (mkEloDay d0
              (match Dict.get (Datetime.isoformat day) (days data) with
               | Some d => sets d
               | None => []
               end ++ [v])).
Proof.
  destruct (get_day_facts data day) as (Hget & _ & Hthere & Hfresh & _).
  unfold append_set. rewrite Hget. cbn [days]. rewrite get_set_same.
  exists (date (snd (get_day data day))). do 3 f_equal.
  destruct (Dict.get (Datetime.isoformat day) (days data)) as [d|] eqn:E.
  - now rewrite (Hthere d eq_refl).
  - now rewrite (Hfresh eq_refl).
Qed.

Lemma cmd_record_effect (today : Datetime.date) (args : Namespace) (v : Z)
    (w w1 : Sys.world) (data : EloData json) :
  load_data w = (Ok data, w1) ->
  elo args = Some v ->
  cmd_record today args w
  = (Ok tt,
     Sys.mkworld true
       (Some (JsonLib.dump (to_json
          (append_set
             (Datetime.isoformat (match arg_date args with Some d => d | None => today end))
             (JInt v)
             (fst (get_day data (match arg_date args with Some d => d | None => today end)))))))
       (Sys.stdin w)
       (Sys.stdout w
        ++ lit "Recorded set #"
        ++ Str.of_nat
             (S (List.length
                   (match Dict.get
                            (Datetime.isoformat
                               (match arg_date args with Some d => d | None => today end))
                            (days data) with
                    | Some d => sets d
                    | None => []
                    end)))
        ++ lit " for "
        ++ Datetime.isoformat (match arg_date args with Some d => d | None => today end)
        ++ lit " with Elo " ++ Str.of_Z v ++ lit "." ++ [Sys.newline])
       (Sys.stderr w)).
Proof.
  intros Hload Hv.
  pose proof (load_data_facts w w1 data Hload) as (_ & _ & Hw1).
  unfold cmd_record, Sys.bind at 1. rewrite Hload, Hv.
  set (rd := match arg_date args with Some d => d | None => today end).
  destruct (appended_day data rd (JInt v)) as (d0 & Hd0).
  unfold Sys.bind, Sys.ret. rewrite save_data_run. unfold Sys.print.
  rewrite Hd0. cbn [sets]. rewrite length_app. cbn [List.length].
  rewrite Nat.add_1_r. subst w1. cbn [Sys.dir_exists Sys.file Sys.stdin Sys.stdout Sys.stderr].
  do 2 f_equal. rewrite <- !app_assoc. reflexivity.
Qed.

(** [cmd_record] on a file that loads: the store is saved with the new
    value appended to the day of the date given, today when none is given;
    the confirmation names the position of the set in its day, counted
    from 1, the date and the value; the standard input and the standard
    error are untouched. *)
Theorem cmd_record_run (today : Datetime.date) (args : Namespace) (v : Z)
    (w w1 : Sys.world) (data : EloData json) :
  load_data w = (Ok data, w1) ->
  elo args = Some v ->
  cmd_record today args w
  = (Ok tt,
     Sys.mkworld true
       (Some (JsonLib.dump (to_json
          (append_set
             (Datetime.isoformat (match arg_date args with Some d => d | None => today end))
             (JInt v)
             (fst (get_day data (match arg_date args with Some d => d | None => today end)))))))
       (Sys.stdin w)
       (Sys.stdout w
        ++ lit "Recorded set #"
        ++ Str.of_nat
             (S (List.length
                   (match Dict.get
                            (Datetime.isoformat
                               (match arg_date args with Some d => d | None => today end))
                            (days data) with
                    | Some d => sets d
                    | None => []
                    end)))
        ++ lit " for "
        ++ Datetime.isoformat (match arg_date args with Some d => d | None => today end)
        ++ lit " with Elo " ++ Str.of_Z v ++ lit "." ++ [Sys.newline])
       (Sys.stderr w)).
Proof. exact (cmd_record_effect today args v w w1 data). Qed.

Lemma cmd_record_run_witness :
  cmd_record Sample.today (Sample.record_args 1475) (Sample.world Sample.store1 [])
  = (Ok tt,
     Sys.mkworld true
       (Some (Sample.saved
                (mkEloData [(lit "2024-01-10",
                             mkEloDay (Datetime.mkdate 2024 1 10) [1500; 1475])])))
       []
       (lit "Recorded set #2 for 2024-01-10 with Elo 1475." ++ [Sys.newline])
       []).
Proof.
  apply (cmd_record_run Sample.today (Sample.record_args 1475) 1475
           (Sample.world Sample.store1 []) (Sample.world Sample.store1 [])
           (raw_data Sample.store1));
    reflexivity.
Defined.

(** The store of integer sets seen through [raw_data]: [get_day] and
    [append] commute with it. *)
Lemma set_map_values {A B} (f : A -> B) (k : str) (v : A) (l : Dict.dict A) :
  Dict.set k (f v) (Aux.map_values f l) = Aux.map_values f (Dict.set k v l).
Proof.
  unfold Aux.map_values. induction l as [|[k0 v0] l IH]; cbn; [reflexivity|].
  destruct (Str.eqb k k0); cbn; [reflexivity | now rewrite IH].
Qed.

Lemma get_day_raw (data : EloData Z) (day : Datetime.date) :
  fst (get_day (raw_data data) day) = raw_data (fst (get_day data day)).
Proof.
  unfold get_day. rewrite raw_data_values, get_map_values.
  destruct (Dict.get (Datetime.isoformat day) (days data)); cbn [option_map fst].
  - reflexivity.
  - unfold raw_data. cbn [days]. f_equal.
    apply (set_map_values raw_day _ (mkEloDay day [])).
Qed.

Lemma append_set_raw (key : str) (v : Z) (data : EloData Z) :
  append_set key (JInt v) (raw_data data) = raw_data (append_set key v data).
Proof.
  unfold append_set. rewrite raw_data_values, get_map_values.
  destruct (Dict.get key (days data)) as [d|]; cbn [option_map]; [|reflexivity].
  unfold raw_data. cbn [days]. f_equal.
  transitivity (Dict.set key (raw_day (mkEloDay (date d) (sets d ++ [v])))
                         (Aux.map_values raw_day (days data)));
    [| apply set_map_values].
  unfold raw_day, Aux.map_values. cbn [date sets]. now rewrite map_app.
Qed.

Lemma load_saved (data : EloData Z) (w : Sys.world) :
  Spec.store_inv data ->
  Sys.file w = Some (JsonLib.dump (to_json (raw_data data))) ->
  load_data w
  = (Ok (raw_data (mkEloData (Dict.sorted_items (days data)))),
     Sys.mkworld true (Sys.file w) (Sys.stdin w) (Sys.stdout w) (Sys.stderr w)).
Proof.
  intros I Hf. pose proof (load_after_save data w I) as L.
  rewrite save_data_run, load_data_run in L. cbn [fst snd Sys.file] in L.
  rewrite load_data_run, Hf, L. do 2 f_equal.
  unfold raw_data. cbn [days]. f_equal.
  apply (sorted_items_map_values raw_day).
Qed.

(** [record] and then a load, on the file of a store of integer sets: the
    record succeeds, and the store loaded afterwards holds, under the date
    recorded, the former sets of that day followed by the new value, and
    under every other date the day it held before. *)
Theorem record_then_load (D : EloData Z) (today : Datetime.date) (args : Namespace)
    (v : Z) (w : Sys.world) :
  Spec.store_inv D ->
  Sys.file w = Some (JsonLib.dump (to_json (raw_data D))) ->
  elo args = Some v ->
  Datetime.valid (match arg_date args with Some d => d | None => today end) = true ->
  fst (cmd_record today args w) = Ok tt
  /\ exists D1 : EloData json,
       fst (load_data (snd (cmd_record today args w))) = Ok D1
       /\ Dict.get (Datetime.isoformat
                      (match arg_date args with Some d => d | None => today end))
                   (days D1)
          = Some (raw_day
                    (mkEloDay
                       (match arg_date args with Some d => d | None => today end)
                       (match Dict.get
                                (Datetime.isoformat
                                   (match arg_date args with Some d => d | None => today end))
                                (days D) with
                        | Some d => sets d
                        | None => []
                        end ++ [v])))
       /\ (forall k : str,
             k <> Datetime.isoformat
                    (match arg_date args with Some d => d | None => today end) ->
             Dict.get k (days D1) = option_map raw_day (Dict.get k (days D))).
Proof.
  intros I Hf Hv Vd.
  set (rd := match arg_date args with Some d => d | None => today end) in *.
  set (Ds := mkEloData (Dict.sorted_items (days D))).
  assert (Is : Spec.store_inv Ds) by apply (store_inv_sorted D I).
  pose proof (load_saved D w I Hf) as Hload.
  rewrite (cmd_record_effect today args v w _ _ Hload Hv). fold rd. cbn [fst snd].
  split; [reflexivity|].
  rewrite get_day_raw, append_set_raw.
  set (D' := append_set (Datetime.isoformat rd) v (fst (get_day Ds rd))).
  destruct (record_update_facts Ds rd v Is Vd) as (I' & Hkey & Hother). fold D' in I', Hkey, Hother.
  assert (Hsame : forall k, Dict.get k (days Ds) = Dict.get k (days D)).
  { intros k. subst Ds. cbn [days]. symmetry. apply get_perm; [apply I|].
    symmetry. apply sorted_items_perm. }
  exists (raw_data (mkEloData (Dict.sorted_items (days D')))). split.
  - erewrite (load_saved D'); [reflexivity | exact I' | reflexivity].
  - split.
    + rewrite raw_data_values, get_map_values. cbn [days].
      rewrite (get_perm _ (Dict.sorted_items (days D')) (days D'))
        by (apply (store_inv_sorted D' I') || apply sorted_items_perm).
      rewrite Hkey, Hsame. reflexivity.
    + intros k Hk. rewrite raw_data_values, get_map_values. cbn [days]. f_equal.
      rewrite (get_perm _ (Dict.sorted_items (days D')) (days D'))
        by (apply (store_inv_sorted D' I') || apply sorted_items_perm).
      rewrite (Hother k Hk). apply Hsame.
Qed.

Lemma record_then_load_witness :
  fst (cmd_record Sample.today (Sample.record_args 1475) (Sample.world Sample.store []))
  = Ok tt
  /\ exists D1 : EloData json,
       fst (load_data (snd (cmd_record Sample.today (Sample.record_args 1475)
                              (Sample.world Sample.store []))))
       = Ok D1
       /\ Dict.get (lit "2024-01-10") (days D1)
          = Some (raw_day (mkEloDay Sample.today [1500; 1550; 1490; 1475]))
       /\ (forall k : str,
             k <> lit "2024-01-10" ->
             Dict.get k (days D1) = option_map raw_day (Dict.get k (days Sample.store))).
Proof.
  apply (record_then_load Sample.store Sample.today (Sample.record_args 1475) 1475
           (Sample.world Sample.store []) store_inv_sample);
    reflexivity.
Defined.

(** ** [cmd_summary] *)

Lemma filter_map_snd {V} (f : V -> bool) (l : Dict.dict V) :
  filter f (map snd l) = map snd (filter (fun kv => f (snd kv)) l).
Proof.
  induction l as [|[k v] l IH]; cbn; [reflexivity|].
  destruct (f v); cbn; now rewrite IH.
Qed.

Lemma filter_by_key {V} (k : str) (l : Dict.dict V) :
  NoDup (Dict.keys l) ->
  map snd (filter (fun kv => Str.eqb (fst kv) k) l)
  = match Dict.get k l with
    | Some v => [v]
    | None => []
    end.
Proof.
  induction l as [|[k0 v0] l IH]; intros N; cbn; [reflexivity|].
  inversion N as [|? ? Hnotin N']; subst.
  destruct (Str.eqb k0 k) eqn:E.
  - apply str_eqb_eq in E. subst k0. rewrite str_eqb_refl. cbn. f_equal.
    rewrite (IH N'). now rewrite (proj2 (get_none k l) Hnotin).
  - assert (E' : Str.eqb k k0 = false).
    { apply str_eqb_neq. intros ->. now rewrite str_eqb_refl in E. }
    rewrite E'. now apply IH.
Qed.

(** [summary --date d], for a date [d] of the calendar: the days shown
    are exactly the stored days whose date is [d], and the fixed message
    is printed when there is none; [--days] plays no part then.  On a
    store whose keys are the ISO forms of their dates, as the program
    writes them, that is the one day under the key of [d], if there is
    one. *)
Theorem summary_on_date (today d : Datetime.date) (args : Namespace)
    (w w1 : Sys.world) (data : EloData json) :
  load_data w = (Ok data, w1) ->
  arg_date args = Some d ->
  Datetime.valid d = true ->
  let shown := filter (fun day => Str.eqb (Datetime.isoformat (date day))
                                          (Datetime.isoformat d))
                      (sorted_days data) in
  cmd_summary today args w = Spec.display shown w1
  /\ (forall day : EloDay json,
        In day shown <->
        (exists k, Dict.get k (days data) = Some day) /\ date day = d)
  /\ (Spec.store_inv data ->
      shown = match Dict.get (Datetime.isoformat d) (days data) with
              | Some day => [day]
              | None => []
              end).
Proof.
  intros Hload Hd Vd shown. pose proof (load_data_inv w w1 data Hload) as I.
  split; [|split].
  - unfold cmd_summary, Sys.bind at 1. rewrite Hload, Hd.
    unfold Sys.bind, Sys.ret. fold shown. unfold Spec.display.
    destruct shown; reflexivity.
  - intros day. unfold shown.
    rewrite filter_In, (sorted_days_in data day (proj1 I)), str_eqb_eq.
    split; intros [[k Hk] E]; (split; [now exists k|]).
    + apply isoformat_inj; [|exact Vd|exact E].
      destruct I as [_ W]. rewrite Forall_forall in W.
      apply (fromisoformat_valid k). apply (W _ (get_some_in _ _ _ Hk)).
    + now rewrite E.
  - intros Is. unfold shown. rewrite sorted_days_items by apply I.
    rewrite (filter_map_snd (fun day => Str.eqb (Datetime.isoformat (date day))
                                                (Datetime.isoformat d))).
    destruct (store_inv_sorted data Is) as [N W]. cbn [days] in N, W.
    rewrite (filter_ext_in _ (fun kv => Str.eqb (fst kv) (Datetime.isoformat d))).
    + rewrite (filter_by_key _ _ N).
      rewrite <- (get_perm _ (days data)); [reflexivity | apply I |].
      symmetry. apply sorted_items_perm.
    + intros [k day] H. cbn [fst snd]. rewrite Forall_forall in W.
      destruct (W _ H) as [_ E]. cbn [fst snd] in E. now rewrite <- E.
Qed.

Lemma summary_on_date_witness :
  cmd_summary Sample.today (Sample.summary_date_args (Datetime.mkdate 2024 1 11))
              (Sample.world Sample.store [])
  = Spec.display (Sample.january_sets [(11, [1510])]) (Sample.world Sample.store [])
  /\ cmd_summary Sample.today (Sample.summary_date_args (Datetime.mkdate 2024 1 12))
                 (Sample.world Sample.store [])
     = Sys.print no_data (Sample.world Sample.store []).
Proof.
  split.
  - apply (proj1 (summary_on_date Sample.today (Datetime.mkdate 2024 1 11)
             (Sample.summary_date_args (Datetime.mkdate 2024 1 11))
             (Sample.world Sample.store []) (Sample.world Sample.store [])
             (raw_data (mkEloData (Dict.sorted_items (days Sample.store))))
             eq_refl eq_refl eq_refl)).
  - apply (proj1 (summary_on_date Sample.today (Datetime.mkdate 2024 1 12)
             (Sample.summary_date_args (Datetime.mkdate 2024 1 12))
             (Sample.world Sample.store []) (Sample.world Sample.store [])
             (raw_data (mkEloData (Dict.sorted_items (days Sample.store))))
             eq_refl eq_refl eq_refl)).
Defined.

(** Two keys that name one date, the ISO form and the basic form: both
    days are shown for that date. *)
Example summary_on_date_two_keys :
  cmd_summary Sample.today (Sample.summary_date_args Sample.today)
    (Sample.world_of
       (Doc (JObj [(lit "2024-01-10", JObj [(lit "sets", JArr [JInt 1500])]);
                   (lit "20240110", JObj [(lit "sets", JArr [JInt 1510])])])))
  = print_table [mkEloDay Sample.today [JInt 1500]; mkEloDay Sample.today [JInt 1510]]
      (Sample.world_of
         (Doc (JObj [(lit "2024-01-10", JObj [(lit "sets", JArr [JInt 1500])]);
                     (lit "20240110", JObj [(lit "sets", JArr [JInt 1510])])]))).
Proof. reflexivity. Qed.

(** The cutoff of [cmd_summary] for any number of days, of either sign,
    that keeps it within the calendar. *)
Lemma cutoff_in_calendar (today : Datetime.date) (n : Z) :
  Datetime.valid today = true ->
  1 <= Datetime.toordinal today - (n - 1) <= Datetime.MAXORDINAL ->
  exists cutoff,
    rbind (Datetime.timedelta (n - 1)) (Datetime.sub today) = Ok cutoff
    /\ forall d : EloDay json,
         Datetime.valid (date d) = true ->
         Datetime.geb (date d) cutoff = Spec.since today n d.
Proof.
  intros V Hr. pose proof (toordinal_bounds today V) as B.
  unfold Datetime.MAXORDINAL in B, Hr.
  exists (Datetime.fromordinal (Datetime.toordinal today - (n - 1))). split.
  - unfold Datetime.timedelta.
    replace (Z.abs (n - 1) <=? 999999999) with true by (symmetry; apply Z.leb_le; lia).
    cbn [rbind]. unfold Datetime.sub, Datetime.MAXORDINAL.
    replace (Datetime.toordinal today + - (n - 1))
      with (Datetime.toordinal today - (n - 1)) by lia.
    replace (0 <? Datetime.toordinal today - (n - 1)) with true
      by (symmetry; apply Z.ltb_lt; lia).
    replace (Datetime.toordinal today - (n - 1) <=? 3652059) with true
      by (symmetry; apply Z.leb_le; lia).
    reflexivity.
  - intros d Vd.
    destruct (toordinal_fromordinal (Datetime.toordinal today - (n - 1))) as [E Vc];
      [unfold Datetime.MAXORDINAL; lia|].
    rewrite (geb_toordinal _ _ Vd Vc), E. reflexivity.
Qed.

(** [summary --days n] with [n] zero or negative: the cutoff lies after
    today, so that no day up to today is shown, today's own least of all;
    what is shown are the stored days dated [1 - n] days or more after
    today. *)
Theorem summary_nonpositive_days (today : Datetime.date) (n : Z) (args : Namespace)
    (w w1 : Sys.world) (data : EloData json) :
  Datetime.valid today = true ->
  arg_date args = None -> arg_days args = Some n ->
  n <= 0 -> Datetime.toordinal today - (n - 1) <= Datetime.MAXORDINAL ->
  load_data w = (Ok data, w1) ->
  cmd_summary today args w
  = Spec.display (filter (Spec.since today n) (sorted_days data)) w1
  /\ forall d : EloDay json,
       In d (filter (Spec.since today n) (sorted_days data)) ->
       Datetime.toordinal today + (1 - n) <= Datetime.toordinal (date d)
       /\ Datetime.compare (date d) today = Gt.
Proof.
  intros V Hdate Hdays Hn Hmax Hload.
  pose proof (load_data_inv w w1 data Hload) as I.
  pose proof (toordinal_bounds today V) as B.
  pose proof (sorted_days_valid data I) as F. rewrite Forall_forall in F.
  split.
  - destruct (cutoff_in_calendar today n V ltac:(lia)) as (cutoff & Hc & Hgeb).
    unfold cmd_summary, Sys.bind at 1. rewrite Hload, Hdate, Hdays.
    unfold Sys.bind, Sys.lift, Sys.ret. unfold rbind in Hc.
    destruct (Datetime.timedelta (n - 1)) as [delta| |]; try discriminate Hc.
    rewrite Hc.
    rewrite (filter_ext_in (fun day => Datetime.geb (date day) cutoff)
                           (Spec.since today n))
      by (intros d Hd; apply Hgeb, F, Hd).
    unfold Spec.display. destruct (filter _ _); reflexivity.
  - intros d Hd. apply filter_In in Hd. destruct Hd as [Hin Hs].
    unfold Spec.since in Hs. apply Z.leb_le in Hs. split; [lia|].
    destruct (Datetime.compare (date d) today) eqn:E; [| | reflexivity].
    + apply compare_eq_inv in E. rewrite E in Hs. lia.
    + pose proof (compare_lt_toordinal _ _ (F d Hin) V E). lia.
Qed.

Lemma summary_nonpositive_days_witness :
  cmd_summary Sample.today (Sample.summary_args 0) (Sample.world Sample.store [])
  = Spec.display (Sample.january_sets [(11, [1510])]) (Sample.world Sample.store []).
Proof.
  refine (proj1 (summary_nonpositive_days Sample.today 0 (Sample.summary_args 0)
                   (Sample.world Sample.store []) (Sample.world Sample.store [])
                   (raw_data (mkEloData (Dict.sorted_items (days Sample.store))))
                   eq_refl eq_refl eq_refl _ _ eq_refl));
    vm_compute; discriminate.
Defined.

(** [summary --days n] when [today - (n - 1)] falls outside the calendar,
    before its first day or after its last: the command stops on
    [OverflowError] once the file is loaded, and prints nothing, also when
    the store is empty. *)
Theorem summary_out_of_calendar (today : Datetime.date) (n : Z) (args : Namespace)
    (w w1 : Sys.world) (data : EloData json) :
  arg_date args = None -> arg_days args = Some n ->
  ~ (1 <= Datetime.toordinal today - (n - 1) <= Datetime.MAXORDINAL) ->
  load_data w = (Ok data, w1) ->
  cmd_summary today args w = (Raise OverflowError, w1).
Proof.
  intros Hdate Hdays Hout Hload.
  unfold cmd_summary, Sys.bind at 1. rewrite Hload, Hdate, Hdays.
  unfold Sys.bind, Sys.lift. unfold Datetime.timedelta.
  destruct (Z.abs (n - 1) <=? 999999999); [|reflexivity].
  unfold Datetime.sub.
  replace (Datetime.toordinal today + - (n - 1))
    with (Datetime.toordinal today - (n - 1)) by lia.
  destruct ((0 <? _) && (_ <=? Datetime.MAXORDINAL)) eqn:E; [|reflexivity].
  apply andb_true_iff in E. rewrite Z.ltb_lt, Z.leb_le in E. lia.
Qed.

Lemma summary_out_of_calendar_witness :
  cmd_summary Sample.today (Sample.summary_args 738896) Sample.fresh
  = (Raise OverflowError, Sys.mkworld true None [] [] []).
Proof.
  apply (summary_out_of_calendar Sample.today 738896 (Sample.summary_args 738896)
           Sample.fresh (Sys.mkworld true None [] [] []) (mkEloData []));
    try reflexivity.
  vm_compute. intros [H _]. now apply H.
Defined.

(** ** [cmd_reset] and what follows it *)

(** After a reset that was confirmed, a load gives the empty store, and
    [history] has nothing to show but the fixed message. *)
Theorem reset_then_history (args args' : Namespace) (w : Sys.world)
    (line : str) (rest : list str) :
  Sys.stdin w = line :: rest ->
  Spec.matches_ci (Str.strip line) (lit "yes") = true ->
  fst (load_data (snd (cmd_reset args w))) = Ok (mkEloData [])
  /\ cmd_history args' (snd (cmd_reset args w))
     = Sys.print no_data (snd (cmd_reset args w)).
Proof.
  intros Hin Hyes. rewrite (cmd_reset_run args w line rest Hin), Hyes. cbn [snd].
  split; reflexivity.
Qed.

Lemma reset_then_history_witness :
  fst (load_data (snd (cmd_reset Sample.args (Sample.world Sample.store [lit "YES"]))))
  = Ok (mkEloData [])
  /\ cmd_history (Sample.history_args None)
                 (snd (cmd_reset Sample.args (Sample.world Sample.store [lit "YES"])))
     = Sys.print no_data
         (snd (cmd_reset Sample.args (Sample.world Sample.store [lit "YES"]))).
Proof.
  apply (reset_then_history Sample.args (Sample.history_args None)
           (Sample.world Sample.store [lit "YES"]) (lit "YES") []);
    reflexivity.
Defined.

End MoreCommands.

(* ===================================================================== *)
(** * More on tables, cells and statistics *)
(* ===================================================================== *)

Section MoreTables.
Import Json Storage Cli.

(** ** [render_table] and the length of the rows *)

Lemma update_length (idx w : nat) (ws : list nat) :
  List.length (update idx w ws) = List.length ws.
Proof.
  revert idx. induction ws as [|w' ws IH]; intros [|i]; cbn; auto.
Qed.

Lemma widen_fits (row : list str) :
  forall (idx : nat) (ws : list nat),
    (idx + List.length row <= List.length ws)%nat ->
    exists ws', widen idx ws row = Ok ws' /\ List.length ws' = List.length ws.
Proof.
  induction row as [|v row IH]; intros idx ws H; cbn [widen].
  - eauto.
  - cbn [List.length] in H.
    destruct (nth_error ws idx) as [w|] eqn:E.
    + destruct (IH (S idx) (update idx (Nat.max w (Str.len v)) ws)) as (ws' & -> & L).
      * rewrite update_length. lia.
      * exists ws'. split; [reflexivity|]. now rewrite L, update_length.
    + apply nth_error_None in E. lia.
Qed.

Lemma widen_too_long (row : list str) :
  forall (idx : nat) (ws : list nat),
    (List.length ws < idx + List.length row)%nat ->
    (idx <= List.length ws)%nat ->
    widen idx ws row = Raise IndexError.
Proof.
  induction row as [|v row IH]; intros idx ws H Hi; cbn [widen].
  - cbn in H. lia.
  - cbn [List.length] in H.
    destruct (nth_error ws idx) as [w|] eqn:E; [|reflexivity].
    assert (idx < List.length ws)%nat by (apply nth_error_Some; congruence).
    apply IH; rewrite update_length; lia.
Qed.

Lemma widen_rows_fit (rows : list (list str)) :
  forall ws : list nat,
    Forall (fun row => (List.length row <= List.length ws)%nat) rows ->
    exists ws', widen_rows ws rows = Ok ws' /\ List.length ws' = List.length ws.
Proof.
  induction rows as [|row rows IH]; intros ws H; cbn [widen_rows]; [eauto|].
  inversion H as [|? ? Hrow Hrows]; subst.
  destruct (widen_fits row 0 ws Hrow) as (ws1 & -> & L1). cbn [rbind].
  destruct (IH ws1) as (ws' & -> & L').
  - rewrite L1. exact Hrows.
  - exists ws'. split; [reflexivity | congruence].
Qed.

Lemma widen_rows_too_long (rows : list (list str)) :
  forall ws : list nat,
    Exists (fun row => (List.length ws < List.length row)%nat) rows ->
    widen_rows ws rows = Raise IndexError.
Proof.
  induction rows as [|row rows IH]; intros ws H; [inversion H|].
  cbn [widen_rows].
  destruct (Nat.le_gt_cases (List.length row) (List.length ws)) as [Hle | Hgt].
  - destruct (widen_fits row 0 ws Hle) as (ws1 & -> & L1). cbn [rbind].
    apply IH. rewrite L1. inversion H as [? ? Hhere | ? ? Hlater]; subst; [lia | exact Hlater].
  - rewrite (widen_too_long row 0 ws) by lia. reflexivity.
Qed.

Lemma traverse_format_fit (ws : list nat) (rows : list (list str)) :
  Forall (fun row => (List.length row <= List.length ws)%nat) rows ->
  traverse (format_row ws) rows = Ok (map (Spec.line ws) rows).
Proof.
  induction 1 as [|row rows Hrow _ IH]; [reflexivity|].
  cbn [traverse map]. rewrite format_row_line by exact Hrow. cbn [rbind].
  now rewrite IH.
Qed.

(** [render_table] and rows of other lengths than the header: a row longer
    than the header makes it raise [IndexError]; rows that are shorter do
    not, and when no row is longer a table comes out. *)
Theorem render_table_row_lengths (headers : list str) (rows : list (list str)) :
  (Exists (fun row => (List.length headers < List.length row)%nat) rows ->
   render_table headers rows = Raise IndexError)
  /\ (Forall (fun row => (List.length row <= List.length headers)%nat) rows ->
      exists table, render_table headers rows = Ok table).
Proof.
  unfold render_table. split.
  - intros H. rewrite widen_rows_too_long; [reflexivity|].
    now rewrite length_map.
  - intros H.
    destruct (widen_rows_fit rows (map Str.len headers)) as (ws & -> & L).
    { now rewrite length_map. }
    rewrite length_map in L. cbn [rbind].
    rewrite format_row_line by lia. cbn [rbind].
    rewrite traverse_format_fit by (rewrite L; exact H). cbn [rbind].
    destruct (map (Spec.line ws) rows); eauto.
Qed.

Lemma render_table_row_lengths_witness :
  render_table Sample.headers2 [[lit "a"; lit "b"; lit "c"]] = Raise IndexError
  /\ exists table, render_table Sample.headers2 [[lit "a"]; []] = Ok table.
Proof.
  split.
  - apply (proj1 (render_table_row_lengths Sample.headers2 [[lit "a"; lit "b"; lit "c"]])).
    left. cbn. lia.
  - apply (proj2 (render_table_row_lengths Sample.headers2 [[lit "a"]; []])).
    repeat constructor.
Defined.

(** The rows that [summarize_day] makes always fit the seven headers: on
    days of integer sets the commands never fail in [render_table], and
    what they print is the table of the specification, a row for each day. *)
Theorem table_of_days (l : list (EloDay Z)) (w : Sys.world) :
  Forall (fun row => List.length row = List.length headers) (map summarize_day l)
  /\ render_table headers (map summarize_day l)
     = Ok (Spec.table headers (map summarize_day l))
  /\ print_table (map raw_day l) w
     = Sys.print (Spec.table headers (map summarize_day l)) w.
Proof.
  assert (F : Forall (fun row => List.length row = List.length headers)
                     (map summarize_day l))
    by (apply Forall_map, Forall_forall; intros d _; reflexivity).
  split; [exact F|]. split.
  - now apply render_table_table.
  - apply print_table_of_ints.
Qed.

(** ** The statistics of a day *)

Lemma last_app_one (l : list Z) (x v : Z) : last (l ++ [v]) x = v.
Proof.
  induction l as [|y l IH]; [reflexivity|].
  cbn [app]. destruct (l ++ [v]) eqn:E; [now destruct l | exact IH].
Qed.

Lemma last_in (l : list Z) (x : Z) : In (last l x) (x :: l).
Proof.
  revert x. induction l as [|y l IH]; intros x; [now left|].
  right. rewrite last_cons. apply IH.
Qed.

(** The five statistics of a day go together: [worst] is at most [start]
    and [end], which are at most [best]; [change] is [end - start] and lies
    within the spread [best - worst]; and with one set alone the four are
    that set and [change] is 0. *)
Theorem statistics_bounds (d : EloDay Z) (s e b w : Z) :
  start d = Some s -> end_ d = Some e -> best d = Some b -> worst d = Some w ->
  w <= s <= b /\ w <= e <= b
  /\ change d = Some (e - s) /\ - (b - w) <= e - s <= b - w
  /\ (List.length (sets d) = 1%nat -> s = e /\ e = b /\ b = w /\ change d = Some 0).
Proof.
  unfold start, end_, best, worst, change.
  destruct (sets d) as [|x l] eqn:E; try discriminate.
  intros Hs He Hb Hw.
  injection Hs as <-. injection He as <-. injection Hb as <-. injection Hw as <-.
  pose proof (py_max_upper l x) as U. pose proof (py_min_lower l x) as L.
  rewrite Forall_forall in U, L.
  pose proof (U x (or_introl eq_refl)). pose proof (L x (or_introl eq_refl)).
  pose proof (U _ (last_in l x)). pose proof (L _ (last_in l x)).
  split; [lia|]. split; [lia|]. split; [reflexivity|]. split; [lia|].
  intros Hone. destruct l; [|discriminate Hone]. cbn.
  repeat split; try reflexivity. f_equal. lia.
Qed.

Lemma statistics_bounds_witness :
  1490 <= 1500 <= 1550 /\ 1490 <= 1490 <= 1550
  /\ change Sample.day3 = Some (1490 - 1500)
  /\ - (1550 - 1490) <= 1490 - 1500 <= 1550 - 1490
  /\ (List.length (sets Sample.day3) = 1%nat ->
      1500 = 1490 /\ 1490 = 1550 /\ 1550 = 1490 /\ change Sample.day3 = Some 0).
Proof.
  apply (statistics_bounds Sample.day3 1500 1490 1550 1490); reflexivity.
Defined.

(** What one more set does to the statistics of a day, as [cmd_record]
    appends it: [end] is the new value; [start] stays, or is the new value
    on a day that was empty; [best] and [worst] are the former ones against
    the new value; [change] is the new value less [start]. *)
Theorem statistics_after_append (d : EloDay Z) (v : Z) :
  end_ (mkEloDay (date d) (sets d ++ [v])) = Some v
  /\ start (mkEloDay (date d) (sets d ++ [v]))
     = Some (match start d with Some s => s | None => v end)
  /\ change (mkEloDay (date d) (sets d ++ [v]))
     = Some (v - match start d with Some s => s | None => v end)
  /\ best (mkEloDay (date d) (sets d ++ [v]))
     = Some (match best d with Some b => Z.max b v | None => v end)
  /\ worst (mkEloDay (date d) (sets d ++ [v]))
     = Some (match worst d with Some m => Z.min m v | None => v end).
Proof.
  unfold start, end_, change, best, worst. cbn [sets].
  destruct (sets d) as [|x l]; cbn [app].
  - repeat split.
  - rewrite last_app_one. unfold py_max, py_min. rewrite !fold_left_app. cbn [fold_left].
    repeat split.
Qed.

End MoreTables.

(* ===================================================================== *)
(** * Cells, dates on the command line, and the order of the file *)
(* ===================================================================== *)

Section Cells.
Import Json Storage Cli.

Lemma lit_inj (a b : string) : lit a = lit b -> a = b.
Proof.
  unfold lit. intros H.
  rewrite <- (string_of_list_ascii_of_string a), <- (string_of_list_ascii_of_string b).
  f_equal. revert H. generalize (list_ascii_of_string a) (list_ascii_of_string b).
  induction l as [|x l IH]; intros [|y l']; cbn; intros H; try discriminate; [reflexivity|].
  injection H as Hx Hl. f_equal; [|now apply IH].
  rewrite <- (ascii_N_embedding x), <- (ascii_N_embedding y). now f_equal.
Qed.

Lemma to_int_regular (z : Z) : Z.to_int z <> Decimal.Pos Decimal.Nil
                               /\ Z.to_int z <> Decimal.Neg Decimal.Nil.
Proof.
  destruct z as [|p|p]; cbn; split; try discriminate; intros H; injection H as H;
    now apply DecimalPos.Unsigned.to_uint_nonnil in H.
Qed.

(** [str] on integers can be read back: two integers with the same text
    are the same. *)
Lemma of_Z_inj (a b : Z) : Str.of_Z a = Str.of_Z b -> a = b.
Proof.
  unfold Str.of_Z. intros H. apply lit_inj in H.
  destruct (to_int_regular a) as [A1 A2]. destruct (to_int_regular b) as [B1 B2].
  pose proof (NilZero.isi (Z.to_int a) A1 A2) as Ia.
  pose proof (NilZero.isi (Z.to_int b) B1 B2) as Ib.
  rewrite H in Ia. rewrite Ia in Ib. injection Ib as Ib.
  rewrite <- (DecimalZ.of_to a), <- (DecimalZ.of_to b). now f_equal.
Qed.

Lemma of_Z_not_dash (c : Z) : Str.of_Z c <> lit "-".
Proof.
  unfold Str.of_Z. intros H. apply lit_inj in H.
  destruct (to_int_regular c) as [C1 C2].
  pose proof (NilZero.isi (Z.to_int c) C1 C2) as I. rewrite H in I. discriminate I.
Qed.

Lemma of_Z_negative (p : positive) : exists rest, Str.of_Z (Zneg p) = 45%N :: rest.
Proof. unfold Str.of_Z. cbn. eauto. Qed.

Lemma of_Z_not_plus (c : Z) (rest : str) : Str.of_Z c <> 43%N :: rest.
Proof.
  intros H. assert (E : exists s, NilZero.string_of_int (Z.to_int c) = String "+" s).
  { unfold Str.of_Z, lit in H.
    destruct (NilZero.string_of_int (Z.to_int c)) as [|a s]; [discriminate H|].
    cbn in H. injection H as Ha _. exists s. f_equal.
    rewrite <- (ascii_N_embedding a), Ha. reflexivity. }
  destruct E as [s E]. destruct (to_int_regular c) as [C1 C2].
  pose proof (NilZero.isi (Z.to_int c) C1 C2) as I. rewrite E in I.
  cbn in I. destruct (NilEmpty.uint_of_string s); discriminate I.
Qed.

(** The cells of the table can be read back.  The dash stands for a
    missing value and nothing else; a change that is zero or positive is
    written with a plus sign and a negative one with its minus sign; and
    two values that are written alike are the same. *)
Theorem cells_read_back :
  (forall x y : option Z, format_optional x = format_optional y -> x = y)
  /\ (forall x y : option Z, format_change x = format_change y -> x = y)
  /\ (forall x : option Z, format_optional x = lit "-" <-> x = None)
  /\ (forall x : option Z, format_change x = lit "-" <-> x = None)
  /\ (forall c : Z,
        format_change (Some c)
        = if 0 <=? c then 43%N :: Str.of_Z c else Str.of_Z c)
  /\ (forall c : Z, c < 0 -> exists rest, format_change (Some c) = 45%N :: rest).
Proof.
  assert (Hsign : forall c, format_change (Some c)
                            = if 0 <=? c then 43%N :: Str.of_Z c else Str.of_Z c).
  { intros c. unfold format_change. now destruct (0 <=? c). }
  assert (Hneg : forall c, c < 0 -> exists rest, format_change (Some c) = 45%N :: rest).
  { intros c Hc. rewrite Hsign. destruct c as [|p|p]; try lia. apply of_Z_negative. }
  assert (Hdash : forall c, format_change (Some c) <> lit "-").
  { intros c H. rewrite Hsign in H. destruct (0 <=? c); [discriminate H|].
    now apply of_Z_not_dash in H. }
  repeat split.
  - intros [a|] [b|]; cbn [format_optional]; intros H; try reflexivity.
    + f_equal. now apply of_Z_inj.
    + now apply of_Z_not_dash in H.
    + symmetry in H. now apply of_Z_not_dash in H.
  - intros [a|] [b|] H; try reflexivity.
    + f_equal. rewrite !Hsign in H.
      destruct (0 <=? a), (0 <=? b).
      * injection H as H. now apply of_Z_inj.
      * symmetry in H. now apply of_Z_not_plus in H.
      * now apply of_Z_not_plus in H.
      * now apply of_Z_inj.
    + now apply Hdash in H.
    + symmetry in H. now apply Hdash in H.
  - destruct x as [c|]; [|reflexivity]. intros H. now apply of_Z_not_dash in H.
  - intros ->. reflexivity.
  - destruct x as [c|]; [|reflexivity]. intros H. now apply Hdash in H.
  - intros ->. reflexivity.
  - exact Hsign.
  - exact Hneg.
Qed.

Lemma cells_read_back_witness :
  exists rest, format_change (Some (-10)) = 45%N :: rest.
Proof.
  apply (proj2 (proj2 (proj2 (proj2 (proj2 cells_read_back)))) (-10)).
  reflexivity.
Defined.

(** ** [parse_date] *)

(** [parse_date] takes every date in the form [isoformat] writes and gives
    that date back; it takes the basic form of the date, without dashes,
    as well; and whatever the string, it returns a date of the calendar
    or raises [ArgumentTypeError], and nothing else. *)
Theorem parse_date_spec :
  (forall d : Datetime.date,
     Datetime.valid d = true -> parse_date (Datetime.isoformat d) = Ok d)
  /\ (forall d : Datetime.date,
        Datetime.valid d = true ->
        parse_date (Datetime.digits4 (Datetime.year d)
                    ++ Datetime.digits2 (Datetime.month d)
                    ++ Datetime.digits2 (Datetime.day d))
        = Ok d)
  /\ (forall s : str,
        (exists d, parse_date s = Ok d /\ Datetime.valid d = true)
        \/ parse_date s = Raise ArgumentTypeError).
Proof.
  unfold parse_date. split; [|split].
  - intros d V. now rewrite (fromisoformat_isoformat d V).
  - intros d V. now rewrite (fromisoformat_basic_form d V).
  - intros s. destruct (fromisoformat_cases s) as [(d & H & V) | H]; rewrite H.
    + left. exists d. split; [reflexivity | exact V].
    + now right.
Qed.

Lemma parse_date_spec_witness :
  parse_date (lit "2024-01-10") = Ok Sample.today
  /\ parse_date (lit "20240110") = Ok Sample.today.
Proof.
  split.
  - apply (proj1 parse_date_spec Sample.today). reflexivity.
  - apply (proj1 (proj2 parse_date_spec) Sample.today). reflexivity.
Defined.

(** Week dates are taken too; a string that is no date is refused. *)
Example parse_date_forms :
  parse_date (lit "2024-W02-3") = Ok Sample.today
  /\ parse_date (lit "10/01/2024") = Raise ArgumentTypeError
  /\ parse_date (lit "2024-02-30") = Raise ArgumentTypeError.
Proof. repeat split. Qed.

End Cells.

Section FileOrder.
Import Json Storage.

Lemma str_leb_trans (a b c : str) :
  Str.leb a b = true -> Str.leb b c = true -> Str.leb a c = true.
Proof.
  unfold Str.leb.
  destruct (Str.compare a b) eqn:E1; try discriminate;
    destruct (Str.compare b c) eqn:E2; try discriminate; intros _ _.
  - apply str_compare_eq in E1. subst. now rewrite E2.
  - apply str_compare_eq in E1. subst. now rewrite E2.
  - apply str_compare_eq in E2. subst. now rewrite E1.
  - now rewrite (str_compare_trans a b c E1 E2).
Qed.

Lemma str_leb_antisym (a b : str) :
  Str.leb a b = true -> Str.leb b a = true -> a = b.
Proof.
  unfold Str.leb. rewrite (str_compare_antisym a b).
  destruct (Str.compare a b) eqn:E; cbn; try discriminate.
  intros _ _. now apply str_compare_eq.
Qed.

Lemma sorted_items_strongly {V} (l : Dict.dict V) :
  StronglySorted Aux.key_le (Dict.sorted_items l).
Proof.
  apply Sorted_StronglySorted; [|apply sorted_items_sorted].
  intros x y z. unfold Aux.key_le. apply str_leb_trans.
Qed.

(** Two lists of items in the order of their keys, with the same items,
    no key twice, are the same list. *)
Lemma sorted_unique {V} (l1 : Dict.dict V) :
  forall l2 : Dict.dict V,
    StronglySorted Aux.key_le l1 -> StronglySorted Aux.key_le l2 ->
    NoDup (Dict.keys l1) -> Permutation l1 l2 -> l1 = l2.
Proof.
  induction l1 as [|x l1 IH]; intros l2 S1 S2 N P.
  - apply Permutation_nil in P. now subst.
  - destruct l2 as [|y l2]; [symmetry in P; now apply Permutation_nil_cons in P|].
    inversion S1 as [|? ? S1' F1]; subst. inversion S2 as [|? ? S2' F2]; subst.
    inversion N as [|? ? Hnotin N']; subst.
    assert (Hxy : x = y).
    { pose proof (Permutation_in x P (or_introl eq_refl)) as [Hx | Hx]; [now subst|].
      pose proof (Permutation_in y (Permutation_sym P) (or_introl eq_refl)) as [Hy | Hy];
        [now subst|].
      rewrite Forall_forall in F1, F2.
      pose proof (str_leb_antisym _ _ (F1 y Hy) (F2 x Hx)) as E.
      exfalso. apply Hnotin. rewrite E. now apply (in_map fst). }
    subst y. f_equal. apply IH; auto.
    now apply Permutation_cons_inv in P.
Qed.

Lemma same_store_perm {V} (a b : Dict.dict V) :
  NoDup (Dict.keys a) -> NoDup (Dict.keys b) ->
  (forall k, Dict.get k a = Dict.get k b) -> Permutation a b.
Proof.
  intros Na Nb H. apply NoDup_Permutation.
  - now apply NoDup_map_inv in Na.
  - now apply NoDup_map_inv in Nb.
  - intros [k v]. split; intros Hin.
    + apply get_some_in. rewrite <- H. now apply get_in.
    + apply get_some_in. rewrite H. now apply get_in.
Qed.

Lemma sort_keys_to_json (data : EloData json) :
  JsonLib.sort_keys (to_json data)
  = JObj (Aux.map_values (fun d => JsonLib.sort_keys (to_dict d))
                         (Dict.sorted_items (days data))).
Proof.
  rewrite to_json_values. cbn [JsonLib.sort_keys]. f_equal.
  rewrite <- sorted_items_map_values. f_equal.
  unfold Aux.map_values. rewrite map_map. reflexivity.
Qed.

(** [save_data] writes the days in the order of their keys, whatever the
    order in which they came into the store: two stores with the same days
    under the same keys leave the same file, and the keys in the file are
    the keys of the store, sorted, each once. *)
Theorem save_order_insensitive (a b : EloData json) (w : Sys.world) :
  NoDup (Dict.keys (days a)) -> NoDup (Dict.keys (days b)) ->
  Spec.same_store a b ->
  save_data a w = save_data b w
  /\ exists items : list (str * json),
       Sys.file (snd (save_data a w)) = Some (Doc (JObj items))
       /\ Dict.keys items = Dict.sorted (Dict.keys (days a))
       /\ StronglySorted (fun k k' => Str.compare k k' = Lt) (Dict.keys items).
Proof.
  intros Na Nb H.
  assert (E : Dict.sorted_items (days a) = Dict.sorted_items (days b)).
  { apply sorted_unique; try apply sorted_items_strongly.
    - eapply Permutation_NoDup; [|exact Na].
      apply Permutation_map. symmetry. apply sorted_items_perm.
    - rewrite sorted_items_perm, (same_store_perm _ _ Na Nb H).
      symmetry. apply sorted_items_perm. }
  rewrite !save_data_run. unfold JsonLib.dump. rewrite !sort_keys_to_json, E.
  split; [reflexivity|].
  eexists. cbn [snd Sys.file]. split; [reflexivity|].
  rewrite keys_map_values, <- E. split; [apply keys_sorted_items|].
  assert (N : NoDup (Dict.keys (Dict.sorted_items (days a)))).
  { eapply Permutation_NoDup; [|exact Na].
    apply Permutation_map. symmetry. apply sorted_items_perm. }
  pose proof (sorted_items_strongly (days a)) as S.
  revert N S. generalize (Dict.sorted_items (days a)). intros l.
  induction l as [|[k v] l IH]; intros N S; cbn; [constructor|].
  inversion N as [|? ? Hnotin N']; subst. inversion S as [|? ? S' F]; subst.
  constructor; [now apply IH|].
  rewrite Forall_map. rewrite Forall_forall in F |- *. intros [k' v'] Hin.
  cbn [fst]. apply str_leb_lt; [apply (F _ Hin)|].
  intros ->. apply Hnotin. now apply (in_map fst) in Hin.
Qed.

Lemma save_order_insensitive_witness :
  save_data (raw_data Sample.store) Sample.fresh
  = save_data (raw_data (mkEloData (rev (days Sample.store)))) Sample.fresh
  /\ exists items : list (str * json),
       Sys.file (snd (save_data (raw_data Sample.store) Sample.fresh))
       = Some (Doc (JObj items))
       /\ Dict.keys items = Dict.sorted (Dict.keys (days (raw_data Sample.store)))
       /\ StronglySorted (fun k k' => Str.compare k k' = Lt) (Dict.keys items).
Proof.
  apply (save_order_insensitive (raw_data Sample.store)
           (raw_data (mkEloData (rev (days Sample.store)))) Sample.fresh).
  - repeat constructor; cbn; intros H;
      repeat (destruct H as [H | H]; [discriminate H|]); exact H.
  - repeat constructor; cbn; intros H;
      repeat (destruct H as [H | H]; [discriminate H|]); exact H.
  - intros k. apply get_perm.
    + repeat constructor; cbn; intros H;
        repeat (destruct H as [H | H]; [discriminate H|]); exact H.
    + unfold raw_data. cbn [days]. apply Permutation_map, Permutation_rev.
Defined.

End FileOrder.

Section Files.
Import Json Storage Cli.

(** ** The exceptions of [load_data] on a JSON document *)

Lemma from_dict_raises (day : Datetime.date) (v : json) (e : exn) :
  from_dict day v = Raise e ->
  (e = AttributeError /\ forall fields, v <> JObj fields)
  \/ (e = TypeError
      /\ exists fields x, v = JObj fields /\ Dict.get sets_key fields = Some x
                          /\ Spec.is_scalar x = true).
Proof.
  unfold from_dict.
  destruct v; try (intros H; injection H as <-; left; split; [reflexivity|];
                   intros ?; discriminate).
  destruct (Dict.get sets_key items) as [x|] eqn:G; cbn; [|discriminate].
  destruct x; cbn; try discriminate; intros H; injection H as <-; right;
    (split; [reflexivity|]); eexists; eexists; (split; [reflexivity|]);
    (split; [exact G | reflexivity]).
Qed.

Lemma from_items_raises (items : list (str * json)) :
  forall (acc : Dict.dict (EloDay json)) (e : exn),
    from_items items acc = Raise e ->
    (e = AttributeError
     /\ exists k v, In (k, v) items /\ forall fields, v <> JObj fields)
    \/ (e = ValueError /\ exists k v, In (k, v) items /\ Spec.is_date k = false)
    \/ (e = TypeError
        /\ exists k fields x, In (k, JObj fields) items
                              /\ Dict.get sets_key fields = Some x
                              /\ Spec.is_scalar x = true).
Proof.
  induction items as [|[k v] items IH]; intros acc e H; cbn in H; [discriminate H|].
  destruct (fromisoformat_cases k) as [(day & Hk & _) | Hk]; rewrite Hk in H;
    cbn [rbind] in H.
  - destruct (from_dict day v) as [d| e' |] eqn:Ed; cbn [rbind] in H.
    + apply IH in H.
      destruct H as [(-> & k' & v' & Hin & Hv)
                    | [(-> & k' & v' & Hin & Hv) | (-> & k' & f & x & Hin & Hx)]].
      * left. split; [reflexivity|]. exists k', v'. split; [now right | exact Hv].
      * right. left. split; [reflexivity|]. exists k', v'. split; [now right | exact Hv].
      * right. right. split; [reflexivity|]. exists k', f, x.
        split; [now right | exact Hx].
    + injection H as <-. apply from_dict_raises in Ed.
      destruct Ed as [(-> & Hv) | (-> & f & x & -> & Hx)].
      * left. split; [reflexivity|]. exists k, v. split; [now left | exact Hv].
      * right. right. split; [reflexivity|]. exists k, f, x.
        split; [now left | exact Hx].
    + discriminate H.
  - injection H as <-. right. left. split; [reflexivity|]. exists k, v.
    split; [now left|]. unfold Spec.is_date. now rewrite Hk.
Qed.

(** What the exception of [load_data] says of a file that holds a JSON
    document.  [AttributeError]: the document is not an object, or the
    value of some key is not an object.  [ValueError]: some key is a
    string that [date.fromisoformat] does not take.  [TypeError]: some
    day has a ["sets"] that cannot be iterated over.  There is no other
    exception on such a file. *)
Theorem load_data_exceptions (w : Sys.world) (j : json) (e : exn) :
  Sys.file w = Some (Doc j) ->
  fst (load_data w) = Raise e ->
  (e = AttributeError
   /\ ((forall items, j <> JObj items)
       \/ exists items k v,
            j = JObj items /\ In (k, v) items /\ forall fields, v <> JObj fields))
  \/ (e = ValueError
      /\ exists items k v, j = JObj items /\ In (k, v) items /\ Spec.is_date k = false)
  \/ (e = TypeError
      /\ exists items k fields x,
           j = JObj items /\ In (k, JObj fields) items
           /\ Dict.get sets_key fields = Some x /\ Spec.is_scalar x = true).
Proof.
  intros Hf. rewrite load_data_run, Hf. cbn [fst JsonLib.load rbind].
  destruct j; cbn [from_json];
    try (intros H; injection H as <-; left; split; [reflexivity|]; left;
         intros ?; discriminate).
  destruct (from_items items []) as [d| e' |] eqn:E; cbn [rbind]; try discriminate.
  intros H. injection H as <-. apply from_items_raises in E.
  destruct E as [(-> & k & v & Hin & Hv)
                | [(-> & k & v & Hin & Hv) | (-> & k & f & x & Hin & Hx)]].
  - left. split; [reflexivity|]. right. exists items, k, v. tauto.
  - right. left. split; [reflexivity|]. exists items, k, v. tauto.
  - right. right. split; [reflexivity|]. exists items, k, f, x. tauto.
Qed.

Lemma load_data_exceptions_witness :
  ValueError = ValueError
  /\ exists items k v,
       Sample.bad_key = JObj items /\ In (k, v) items /\ Spec.is_date k = false.
Proof.
  destruct (load_data_exceptions (Sample.world_of (Doc Sample.bad_key)) Sample.bad_key
              ValueError eq_refl eq_refl)
    as [[H _] | [H | [H _]]]; [discriminate H | exact H | discriminate H].
Defined.

(** ** The order of the days does not depend on how they came in *)

(** [sorted_days] gives the same list for two stores that hold the same
    days under the same keys, in whatever order they were inserted. *)
Theorem sorted_days_same_store {V} (a b : EloData V) :
  NoDup (Dict.keys (days a)) -> NoDup (Dict.keys (days b)) ->
  Spec.same_store a b ->
  sorted_days a = sorted_days b.
Proof.
  intros Na Nb H. rewrite !sorted_days_items by assumption. f_equal.
  apply sorted_unique; try apply sorted_items_strongly.
  - eapply Permutation_NoDup; [|exact Na].
    apply Permutation_map. symmetry. apply sorted_items_perm.
  - rewrite sorted_items_perm, (same_store_perm _ _ Na Nb H).
    symmetry. apply sorted_items_perm.
Qed.

Lemma sorted_days_same_store_witness :
  sorted_days Sample.store = sorted_days (mkEloData (rev (days Sample.store))).
Proof.
  apply (sorted_days_same_store Sample.store (mkEloData (rev (days Sample.store)))).
  - apply store_inv_sample.
  - repeat constructor; cbn; intros H;
      repeat (destruct H as [H | H]; [discriminate H|]); exact H.
  - intros k. apply get_perm; [apply store_inv_sample|].
    cbn [days]. apply Permutation_rev.
Defined.

(** ** [history] on a file that the program wrote *)

Lemma sorted_days_raw (data : EloData Z) :
  NoDup (Dict.keys (days data)) ->
  sorted_days (raw_data data) = map raw_day (sorted_days data).
Proof.
  intros N. rewrite !sorted_days_items.
  - rewrite raw_data_values, sorted_items_map_values.
    unfold Aux.map_values. rewrite !map_map. reflexivity.
  - exact N.
  - now rewrite raw_data_values, keys_map_values.
Qed.

Lemma slice_from_map {A B} (f : A -> B) (start : Z) (l : list A) :
  slice_from start (map f l) = map f (slice_from start l).
Proof. unfold slice_from. now rewrite length_map, skipn_map. Qed.

(** On the file of a store of integer sets, [history] does not fail,
    whatever [--limit] is, zero and negative values included: it prints
    the fixed message for an empty store, and otherwise the table of the
    specification for the days that the slice keeps, header alone when it
    keeps none. *)
Theorem history_on_saved_file (D : EloData Z) (args : Namespace) (w : Sys.world) :
  Spec.store_inv D ->
  Sys.file w = Some (JsonLib.dump (to_json (raw_data D))) ->
  cmd_history args w
  = Sys.print
      (match sorted_days D with
       | [] => no_data
       | _ => Spec.table headers
                (map summarize_day
                     (match limit args with
                      | Some n => slice_from (- n) (sorted_days D)
                      | None => sorted_days D
                      end))
       end)
      (Sys.mkworld true (Sys.file w) (Sys.stdin w) (Sys.stdout w) (Sys.stderr w)).
Proof.
  intros I Hf. pose proof (load_saved D w I Hf) as Hload.
  rewrite (cmd_history_run args w _ _ Hload).
  pose proof (store_inv_sorted D I) as Is.
  rewrite sorted_days_raw by apply Is.
  assert (E : sorted_days (mkEloData (Dict.sorted_items (days D))) = sorted_days D).
  { rewrite !sorted_days_items; [|apply I|apply Is]. cbn [days].
    now rewrite sorted_items_idem. }
  rewrite E. destruct (sorted_days D) as [|d l] eqn:Ed; [reflexivity|].
  cbn [map]. change (raw_day d :: map raw_day l) with (map raw_day (d :: l)).
  destruct (limit args) as [n|].
  - rewrite slice_from_map. apply print_table_of_ints.
  - apply print_table_of_ints.
Qed.

Lemma history_on_saved_file_witness :
  cmd_history (Sample.history_args (Some (-1))) (Sample.world Sample.store [])
  = Sys.print (Spec.table headers
                 [summarize_day (mkEloDay (Datetime.mkdate 2024 1 11) [1510])])
              (Sample.world Sample.store []).
Proof.
  apply (history_on_saved_file Sample.store (Sample.history_args (Some (-1)))
           (Sample.world Sample.store []) store_inv_sample).
  reflexivity.
Defined.

End Files.
